(** * IEC 62056-21 readout component: a shallow embedding of
      [components/iec62056/iec62056.cpp] and the properties of its
      frame assembler, frame builder, identification parser, baud
      negotiator, data-line parser and session state machine. *)

From Stdlib Require Import ZArith List Lia Bool String Ascii.
From stdpp Require Import base list.
Import ListNotations.
Open Scope Z_scope.

(** ** Bytes, characters and buffers

    [uint8_t] and [char] values are integers in [0, 256); [uint32_t]
    values are integers in [0, 2^32) and their subtraction wraps.  The
    two fixed arrays [in_buf_] and [out_buf_] are lists indexed by
    integers.  An access outside an array is undefined behaviour in
    C++; here a read outside yields 0 and a write outside leaves the
    array as it is. *)

Definition byte_of (c : ascii) : Z := Z.of_N (N_of_ascii c).

Fixpoint bytes_of (s : string) : list Z :=
  match s with
  | EmptyString => []
  | String c s' => byte_of c :: bytes_of s'
  end.

Definition u32 (x : Z) : Z := x mod 2 ^ 32.
Definition u8 (x : Z) : Z := x mod 2 ^ 8.

Definition aget (l : list Z) (i : Z) : Z :=
  if decide (0 <= i) then l !!! Z.to_nat i else 0.

Definition aset (l : list Z) (i v : Z) : list Z :=
  if decide (0 <= i) then <[Z.to_nat i := v]> l else l.

(** [memcpy(dst, src, sizeof src)] at the start of [dst]. *)
Definition memcpy (dst src : list Z) : list Z :=
  take (length dst) src ++ drop (length src) dst.

(** [0 == memcmp(a, b, n)]. *)
Definition memcmp_eq (a b : list Z) (n : nat) : bool :=
  bool_decide (take n a = take n b).

(** A C string stored in a buffer from offset [i]: the bytes up to the
    first NUL. *)
Fixpoint cstr (l : list Z) : list Z :=
  match l with
  | [] => []
  | c :: l' => if c =? 0 then [] else c :: cstr l'
  end.

Definition cstr_at (buf : list Z) (i : nat) : list Z := cstr (drop i buf).

(** ** Constants of the source file *)

Definition ETX : Z := 0x03.
Definition STX : Z := 0x02.
Definition ACK : Z := 0x06.
Definition SOH : Z := 0x01.
Definition CR : Z := 0x0d.
Definition LF : Z := 0x0a.

Definition BAUDRATES : list Z := [300; 600; 1200; 2400; 4800; 9600; 19200].
Definition MAX_BAUDRATE : Z := aget BAUDRATES (Z.of_nat (length BAUDRATES) - 1).
Definition PROTO_B_MIN_BAUDRATE : Z := aget BAUDRATES 1.

Definition obis_codes_ : list (list Z) :=
  map bytes_of
    ["0F0880FF"; "100700FF"; "240700FF"; "380700FF"; "4C0700FF";
     "600900FF"; "200700FF"; "340700FF"; "480700FF"; "1F0700FF";
     "330700FF"; "470700FF"; "0D07FFFF"]%string.
Definition num_obis_codes_ : Z := Z.of_nat (length obis_codes_).

(** ** Declarations of [iec62056.h]

    The header is not among the sources.  Its two enumerations are
    recovered from the names the source file uses ([state2txt_] lists
    every state); its numeric constants are parameters of the
    development. *)

Inductive CommState :=
| BATTERY_WAKEUP | BEGIN | WAIT | SEND_REQUEST | GET_IDENTIFICATION
| PREPARE_ACK | SET_BAUD_RATE | WAIT_FOR_ACK | SEND_PASSWORD | WAIT_FOR_STX
| WAIT_FOR_STX2 | ASK_FOR_ENERGY | WAIT_FOR_PPP | WAIT_FOR_PPP_READ_DATA
| READOUT | READOUT2 | UPDATE_STATES | INFINITE_WAIT | MODE_D_WAIT
| MODE_D_READOUT.

Inductive ProtocolMode :=
| PROTOCOL_MODE_A | PROTOCOL_MODE_B | PROTOCOL_MODE_C | PROTOCOL_MODE_D.

Record Header := {
  MAX_IN_BUF_SIZE : nat;
  MAX_OUT_BUF_SIZE : nat;
  PROTO_B_RANGE_BEGIN : Z;
  PROTO_B_RANGE_END : Z;
  PROTO_C_RANGE_BEGIN : Z;
  PROTO_C_RANGE_END : Z
}.

Definition CommState_eqb (a b : CommState) : bool :=
  match a, b with
  | BATTERY_WAKEUP, BATTERY_WAKEUP | BEGIN, BEGIN | WAIT, WAIT
  | SEND_REQUEST, SEND_REQUEST | GET_IDENTIFICATION, GET_IDENTIFICATION
  | PREPARE_ACK, PREPARE_ACK | SET_BAUD_RATE, SET_BAUD_RATE
  | WAIT_FOR_ACK, WAIT_FOR_ACK | SEND_PASSWORD, SEND_PASSWORD
  | WAIT_FOR_STX, WAIT_FOR_STX | WAIT_FOR_STX2, WAIT_FOR_STX2
  | ASK_FOR_ENERGY, ASK_FOR_ENERGY | WAIT_FOR_PPP, WAIT_FOR_PPP
  | WAIT_FOR_PPP_READ_DATA, WAIT_FOR_PPP_READ_DATA | READOUT, READOUT
  | READOUT2, READOUT2 | UPDATE_STATES, UPDATE_STATES
  | INFINITE_WAIT, INFINITE_WAIT | MODE_D_WAIT, MODE_D_WAIT
  | MODE_D_READOUT, MODE_D_READOUT => true
  | _, _ => false
  end.

Definition ProtocolMode_eqb (a b : ProtocolMode) : bool :=
  match a, b with
  | PROTOCOL_MODE_A, PROTOCOL_MODE_A | PROTOCOL_MODE_B, PROTOCOL_MODE_B
  | PROTOCOL_MODE_C, PROTOCOL_MODE_C | PROTOCOL_MODE_D, PROTOCOL_MODE_D => true
  | _, _ => false
  end.

(** ** Checksum *)

(** [update_lrc_]: [for (i = 0; i < size; i++) lrc_ ^= data[i];], as a
    function of the running value. *)
Fixpoint update_lrc (lrc : Z) (data : list Z) : Z :=
  match data with
  | [] => lrc
  | d :: data' => update_lrc (Z.lxor lrc d) data'
  end.

(** The block check character of a byte range: the fold from zero, as
    in [build_readout_command_] ([bcc = 0x00; bcc ^= out_buf_[i]]) and
    in the [READOUT] step ([lrc_ = 0x00; update_lrc_(...)]). *)
Definition xor_checksum (data : list Z) : Z := update_lrc 0 data.

(** ** Baud negotiator *)

Section BaudNegotiator.
Context (h : Header).

Definition in_range_B (z : Z) : bool :=
  (PROTO_B_RANGE_BEGIN h <=? z) && (z <=? PROTO_B_RANGE_END h).
Definition in_range_C (z : Z) : bool :=
  (PROTO_C_RANGE_BEGIN h <=? z) && (z <=? PROTO_C_RANGE_END h).

Definition identification_to_baud_rate_ (z : Z) : Z :=
  if in_range_B z then aget BAUDRATES (1 + z - PROTO_B_RANGE_BEGIN h)
  else if in_range_C z then aget BAUDRATES (z - PROTO_C_RANGE_BEGIN h)
  else 0.

(** [for (i = start; i < 7; i++) if (baud_rate == BAUDRATES[i]) return i;]
    over the entries [tbl] that remain from index [i] on. *)
Fixpoint find_baud (baud_rate : Z) (i : Z) (tbl : list Z) : option Z :=
  match tbl with
  | [] => None
  | r :: tbl' =>
      if baud_rate =? r then Some i else find_baud baud_rate (i + 1) tbl'
  end.

(** The method reads [mode_]; it is an argument here.  The result is
    a [char]. *)
Definition baud_rate_to_identification_ (mode : ProtocolMode) (baud_rate : Z) : Z :=
  let lowest :=
    if ProtocolMode_eqb PROTOCOL_MODE_B mode
    then PROTO_B_RANGE_BEGIN h else PROTO_C_RANGE_BEGIN h in
  if ProtocolMode_eqb PROTOCOL_MODE_B mode then
    match find_baud baud_rate 1 (drop 1 BAUDRATES) with
    | Some i => u8 (PROTO_B_RANGE_BEGIN h + i - 1)
    | None => lowest
    end
  else
    match find_baud baud_rate 0 BAUDRATES with
    | Some i => u8 (PROTO_C_RANGE_BEGIN h + i)
    | None => lowest
    end.

(** The method writes [mode_]; the new value is the result here. *)
Definition set_protocol_ (force_mode_d : bool) (z : Z) : ProtocolMode :=
  if force_mode_d then PROTOCOL_MODE_D
  else if in_range_B z then PROTOCOL_MODE_B
  else if in_range_C z then PROTOCOL_MODE_C
  else PROTOCOL_MODE_A.
End BaudNegotiator.

(** The ranges of identification characters fit the baud table: mode B
    characters reach at most its last entry from the second one, mode C
    characters from the first one, and no character is in both
    ranges. *)
Record header_ok (h : Header) : Prop := {
  hB_lo : 0 <= PROTO_B_RANGE_BEGIN h;
  hB_hi : PROTO_B_RANGE_END h < 256;
  hB_fit : PROTO_B_RANGE_END h - PROTO_B_RANGE_BEGIN h <= 5;
  hC_lo : 0 <= PROTO_C_RANGE_BEGIN h;
  hC_hi : PROTO_C_RANGE_END h < 256;
  hC_fit : PROTO_C_RANGE_END h - PROTO_C_RANGE_BEGIN h <= 6;
  hBC_disjoint :
    PROTO_B_RANGE_END h < PROTO_C_RANGE_BEGIN h \/
    PROTO_C_RANGE_END h < PROTO_B_RANGE_BEGIN h
}.

(** One instance of the header, used to evaluate the model: buffers of
    128 and 84 bytes, mode B characters 'A'..'F', mode C characters
    '0'..'6'. *)
Definition sample_header : Header :=
  {| MAX_IN_BUF_SIZE := 128; MAX_OUT_BUF_SIZE := 84;
     PROTO_B_RANGE_BEGIN := 0x41; PROTO_B_RANGE_END := 0x46;
     PROTO_C_RANGE_BEGIN := 0x30; PROTO_C_RANGE_END := 0x36 |}.

(** ** Data-line parser *)

(** [validate_float_]: the characters before the first ['*'] (or the
    end of the string) are digits, ['.'] or ['-']; there is at least
    one and at most 20 of them. *)
Definition isdigit (c : Z) : bool := (byte_of "0" <=? c) && (c <=? byte_of "9").

Fixpoint validate_float_scan (value : list Z) (count : Z) : option Z :=
  match value with
  | [] => Some count
  | c :: value' =>
      if c =? byte_of "*" then Some count
      else if negb (isdigit c || (c =? byte_of ".") || (c =? byte_of "-")) then None
      else validate_float_scan value' (count + 1)
  end.

Definition validate_float_ (value : list Z) : bool :=
  let max_len := 20 in
  match validate_float_scan value 0 with
  | None => false
  | Some count => (0 <? count) && (count <=? max_len)
  end.

Definition obis_char_ok (c : Z) : bool :=
  (c =? byte_of ":") || (c =? byte_of ".") || (c =? byte_of "-") || (c =? byte_of "*")
  || ((byte_of "0" <=? c) && (c <=? byte_of "9"))
  || ((byte_of "A" <=? c) && (c <=? byte_of "Z")).

Definition validate_obis_ (obis : list Z) : bool :=
  let max_obis_len := 25%nat in
  match obis with
  | [] => true
  | _ =>
      if (max_obis_len <? length obis)%nat then false
      else forallb obis_char_ok obis
  end.

(** The four pointers of [parse_line_], as offsets into the line;
    [None] is the null pointer. *)
Record Brackets := {
  open_bracket : option nat;
  close_bracket : option nat;
  open_bracket2 : option nat;
  close_bracket2 : option nat
}.

Definition no_brackets : Brackets :=
  {| open_bracket := None; close_bracket := None;
     open_bracket2 := None; close_bracket2 := None |}.

Definition is_null (p : option nat) : bool :=
  match p with None => true | Some _ => false end.

(** One turn of the [while] loop over the characters of the line, at
    offset [p] holding [c]. *)
Definition scan_char (c : Z) (p : nat) (b : Brackets) : Brackets :=
  if (byte_of "(" =? c) && is_null (open_bracket b) then
    {| open_bracket := Some p; close_bracket := close_bracket b;
       open_bracket2 := open_bracket2 b; close_bracket2 := close_bracket2 b |}
  else if (byte_of ")" =? c) && is_null (close_bracket b) then
    {| open_bracket := open_bracket b; close_bracket := Some p;
       open_bracket2 := open_bracket2 b; close_bracket2 := close_bracket2 b |}
  else if (byte_of "(" =? c) && is_null (open_bracket2 b) then
    {| open_bracket := open_bracket b; close_bracket := close_bracket b;
       open_bracket2 := Some p; close_bracket2 := close_bracket2 b |}
  else if (byte_of ")" =? c) && is_null (close_bracket2 b) then
    {| open_bracket := open_bracket b; close_bracket := close_bracket b;
       open_bracket2 := open_bracket2 b; close_bracket2 := Some p |}
  else b.

Fixpoint scan_brackets (line : list Z) (p : nat) (b : Brackets) : Brackets :=
  match line with
  | [] => b
  | c :: line' => scan_brackets line' (S p) (scan_char c p b)
  end.

(** [std::string::assign(line + from, to - from)]. *)
Definition substr (line : list Z) (from to : nat) : list Z :=
  take (to - from) (drop from line).

(** [parse_line_] on the characters of [line] before its terminating
    NUL.  [None] is the result [false]; the three strings are
    [out_obis], [out_value1] and [out_value2], which no caller reads
    after [false]. *)
Definition parse_line_ (line : list Z) : option (list Z * list Z * list Z) :=
  let b := scan_brackets line 0 no_brackets in
  match open_bracket b, close_bracket b with
  | Some ob, Some cb =>
      if (cb <? ob)%nat then None
      else
        let out_obis := substr line 0 ob in
        let out_value1 := substr line (ob + 1) cb in
        let out_value2 :=
          match open_bracket2 b, close_bracket2 b with
          | Some ob2, Some cb2 =>
              if (ob2 <? cb2)%nat then substr line (ob2 + 1) cb2 else []
          | _, _ => []
          end in
        if validate_obis_ out_obis then Some (out_obis, out_value1, out_value2)
        else None
  | _, _ => None
  end.

(** The offset, counted from [p], of the occurrence number [k] (from
    zero) of the character [c] in [line]. *)
Fixpoint occurrence (c : Z) (k : nat) (p : nat) (line : list Z) : option nat :=
  match line with
  | [] => None
  | x :: line' =>
      if c =? x then
        match k with
        | O => Some p
        | S k' => occurrence c k' (S p) line'
        end
      else occurrence c k (S p) line'
  end.

(** ** The component and its environment

    The component's fields are those the source file reads and writes;
    their declarations are in [iec62056.h].  The three [static]
    variables of [loop()] are fields as well.  The environment is the
    UART ([rx]: the bytes waiting in the receive buffer, [tx]: the
    frames written so far, [baud]: the line rate) and the millisecond
    clock: [clock n] is what the call number [n] of [millis()] returns,
    so that any sequence of readings can be supplied.  [trace] records,
    in order, the log messages named by [Event] and the publications of
    sensors; the other [ESP_LOG*] calls, [report_state_()] and
    [verify_all_sensors_got_value_()] only write to the log and are
    left out, but a call of [millis()] in their arguments stays, as a
    reading of the clock.

    [wrote_outside_in_buf] is not a field of the source.  It is set
    when a write lands outside [in_buf_], which the source does not
    prevent (see [terminate_line]); what such a write overwrites
    depends on the layout of the object, so from then on the other
    fields no longer describe the component. *)

Record Config := {
  force_mode_d_ : bool;
  battery_meter_ : bool;
  config_baud_rate_max_bps_ : Z;
  connection_timeout_ms_ : Z;
  max_retries_ : Z;
  retry_delay_ : Z;
  update_interval_ms_ : Z
}.

Record Uart := {
  rx : list Z;
  tx : list (list Z);
  baud : Z;
  clock : nat -> Z;
  ticks : nat
}.

Definition set_rx (v : list Z) (u : Uart) : Uart :=
  {| rx := v; tx := tx u; baud := baud u; clock := clock u; ticks := ticks u |}.
Definition set_tx (v : list (list Z)) (u : Uart) : Uart :=
  {| rx := rx u; tx := v; baud := baud u; clock := clock u; ticks := ticks u |}.
Definition set_baud (v : Z) (u : Uart) : Uart :=
  {| rx := rx u; tx := tx u; baud := v; clock := clock u; ticks := ticks u |}.
Definition set_ticks (v : nat) (u : Uart) : Uart :=
  {| rx := rx u; tx := tx u; baud := baud u; clock := clock u; ticks := v |}.

Inductive Event :=
| LOG_echo_ignore_frame
| LOG_no_transmission_from_meter
| LOG_connection (connected : bool)
| LOG_invalid_identification_frame
| LOG_no_PPP (got : Z)
| LOG_no_data (got : Z)
| LOG_meter_accepted_password
| LOG_meter_rejected_password (got : Z)
| LOG_no_STX (got : Z)
| LOG_ignore_empty_frame
| LOG_data (line : list Z)
| LOG_invalid_frame_format (line : list Z)
| LOG_bcc_ok
| LOG_bcc_failed (expected got : Z)
| LOG_cannot_convert (value : list Z)
| LOG_exceeded_retry_counter
| LOG_retry (counter : Z)
| LOG_waiting_for_next_readout (actual_wait_time : Z)
| LOG_no_scheduled_readout
| PUBLISH (obis : list Z) (value : list Z).

(** A registered sensor, by what the source file uses of it: its OBIS
    code, its type, the group of a text sensor, and the value it holds
    ([None] while [has_value()] is false).  A numeric sensor holds the
    text that [strtof] converts; the conversion is not modelled. *)
Inductive SensorType := SENSOR | TEXT_SENSOR.

Record Sensor := {
  get_obis : list Z;
  get_type : SensorType;
  get_group : Z;
  value : option (list Z)
}.

Definition set_value (v : list Z) (x : Sensor) : Sensor :=
  {| get_obis := get_obis x; get_type := get_type x;
     get_group := get_group x; value := Some v |}.

Record Component := {
  cfg : Config;
  uart : Uart;
  trace : list Event;
  state_ : CommState;
  in_buf_ : list Z;
  data_in_size_ : nat;
  out_buf_ : list Z;
  data_out_size_ : nat;
  readout_lrc_ : Z;
  lrc_ : Z;
  mode_ : ProtocolMode;
  baud_rate_identification_ : Z;
  meter_identification_ : list Z;
  retry_counter_ : Z;
  current_obis_index_ : Z;
  wait_start_timestamp_ : Z;
  wait_period_ms_ : Z;
  wait_next_state_ : CommState;
  last_transmission_from_meter_timestamp_ : Z;
  retry_connection_start_timestamp_ : Z;
  scheduled_connection_start_timestamp_ : Z;
  scheduled_timestamp_set_ : bool;
  sensors_ : list Sensor;
  sensors_iterator_ : nat;
  baud_rate_char : Z;
  mode_d_empty_frame_received : bool;
  new_baudrate : Z;
  wrote_outside_in_buf : bool
}.

Definition set_uart (v : Uart) (s : Component) : Component :=
  {|
    cfg := cfg s; uart := v; trace := trace s; state_ := state_ s;
    in_buf_ := in_buf_ s; data_in_size_ := data_in_size_ s;
    out_buf_ := out_buf_ s; data_out_size_ := data_out_size_ s;
    readout_lrc_ := readout_lrc_ s; lrc_ := lrc_ s; mode_ := mode_ s;
    baud_rate_identification_ := baud_rate_identification_ s;
    meter_identification_ := meter_identification_ s;
    retry_counter_ := retry_counter_ s;
    current_obis_index_ := current_obis_index_ s;
    wait_start_timestamp_ := wait_start_timestamp_ s;
    wait_period_ms_ := wait_period_ms_ s;
    wait_next_state_ := wait_next_state_ s;
    last_transmission_from_meter_timestamp_ := last_transmission_from_meter_timestamp_ s;
    retry_connection_start_timestamp_ := retry_connection_start_timestamp_ s;
    scheduled_connection_start_timestamp_ := scheduled_connection_start_timestamp_ s;
    scheduled_timestamp_set_ := scheduled_timestamp_set_ s;
    sensors_ := sensors_ s; sensors_iterator_ := sensors_iterator_ s;
    baud_rate_char := baud_rate_char s;
    mode_d_empty_frame_received := mode_d_empty_frame_received s;
    new_baudrate := new_baudrate s;
    wrote_outside_in_buf := wrote_outside_in_buf s |}.

Definition set_trace (v : list Event) (s : Component) : Component :=
  {|
    cfg := cfg s; uart := uart s; trace := v; state_ := state_ s;
    in_buf_ := in_buf_ s; data_in_size_ := data_in_size_ s;
    out_buf_ := out_buf_ s; data_out_size_ := data_out_size_ s;
    readout_lrc_ := readout_lrc_ s; lrc_ := lrc_ s; mode_ := mode_ s;
    baud_rate_identification_ := baud_rate_identification_ s;
    meter_identification_ := meter_identification_ s;
    retry_counter_ := retry_counter_ s;
    current_obis_index_ := current_obis_index_ s;
    wait_start_timestamp_ := wait_start_timestamp_ s;
    wait_period_ms_ := wait_period_ms_ s;
    wait_next_state_ := wait_next_state_ s;
    last_transmission_from_meter_timestamp_ := last_transmission_from_meter_timestamp_ s;
    retry_connection_start_timestamp_ := retry_connection_start_timestamp_ s;
    scheduled_connection_start_timestamp_ := scheduled_connection_start_timestamp_ s;
    scheduled_timestamp_set_ := scheduled_timestamp_set_ s;
    sensors_ := sensors_ s; sensors_iterator_ := sensors_iterator_ s;
    baud_rate_char := baud_rate_char s;
    mode_d_empty_frame_received := mode_d_empty_frame_received s;
    new_baudrate := new_baudrate s;
    wrote_outside_in_buf := wrote_outside_in_buf s |}.

Definition set_state_ (v : CommState) (s : Component) : Component :=
  {|
    cfg := cfg s; uart := uart s; trace := trace s; state_ := v;
    in_buf_ := in_buf_ s; data_in_size_ := data_in_size_ s;
    out_buf_ := out_buf_ s; data_out_size_ := data_out_size_ s;
    readout_lrc_ := readout_lrc_ s; lrc_ := lrc_ s; mode_ := mode_ s;
    baud_rate_identification_ := baud_rate_identification_ s;
    meter_identification_ := meter_identification_ s;
    retry_counter_ := retry_counter_ s;
    current_obis_index_ := current_obis_index_ s;
    wait_start_timestamp_ := wait_start_timestamp_ s;
    wait_period_ms_ := wait_period_ms_ s;
    wait_next_state_ := wait_next_state_ s;
    last_transmission_from_meter_timestamp_ := last_transmission_from_meter_timestamp_ s;
    retry_connection_start_timestamp_ := retry_connection_start_timestamp_ s;
    scheduled_connection_start_timestamp_ := scheduled_connection_start_timestamp_ s;
    scheduled_timestamp_set_ := scheduled_timestamp_set_ s;
    sensors_ := sensors_ s; sensors_iterator_ := sensors_iterator_ s;
    baud_rate_char := baud_rate_char s;
    mode_d_empty_frame_received := mode_d_empty_frame_received s;
    new_baudrate := new_baudrate s;
    wrote_outside_in_buf := wrote_outside_in_buf s |}.

Definition set_in_buf_ (v : list Z) (s : Component) : Component :=
  {|
    cfg := cfg s; uart := uart s; trace := trace s; state_ := state_ s;
    in_buf_ := v; data_in_size_ := data_in_size_ s; out_buf_ := out_buf_ s;
    data_out_size_ := data_out_size_ s; readout_lrc_ := readout_lrc_ s;
    lrc_ := lrc_ s; mode_ := mode_ s;
    baud_rate_identification_ := baud_rate_identification_ s;
    meter_identification_ := meter_identification_ s;
    retry_counter_ := retry_counter_ s;
    current_obis_index_ := current_obis_index_ s;
    wait_start_timestamp_ := wait_start_timestamp_ s;
    wait_period_ms_ := wait_period_ms_ s;
    wait_next_state_ := wait_next_state_ s;
    last_transmission_from_meter_timestamp_ := last_transmission_from_meter_timestamp_ s;
    retry_connection_start_timestamp_ := retry_connection_start_timestamp_ s;
    scheduled_connection_start_timestamp_ := scheduled_connection_start_timestamp_ s;
    scheduled_timestamp_set_ := scheduled_timestamp_set_ s;
    sensors_ := sensors_ s; sensors_iterator_ := sensors_iterator_ s;
    baud_rate_char := baud_rate_char s;
    mode_d_empty_frame_received := mode_d_empty_frame_received s;
    new_baudrate := new_baudrate s;
    wrote_outside_in_buf := wrote_outside_in_buf s |}.

Definition set_data_in_size_ (v : nat) (s : Component) : Component :=
  {|
    cfg := cfg s; uart := uart s; trace := trace s; state_ := state_ s;
    in_buf_ := in_buf_ s; data_in_size_ := v; out_buf_ := out_buf_ s;
    data_out_size_ := data_out_size_ s; readout_lrc_ := readout_lrc_ s;
    lrc_ := lrc_ s; mode_ := mode_ s;
    baud_rate_identification_ := baud_rate_identification_ s;
    meter_identification_ := meter_identification_ s;
    retry_counter_ := retry_counter_ s;
    current_obis_index_ := current_obis_index_ s;
    wait_start_timestamp_ := wait_start_timestamp_ s;
    wait_period_ms_ := wait_period_ms_ s;
    wait_next_state_ := wait_next_state_ s;
    last_transmission_from_meter_timestamp_ := last_transmission_from_meter_timestamp_ s;
    retry_connection_start_timestamp_ := retry_connection_start_timestamp_ s;
    scheduled_connection_start_timestamp_ := scheduled_connection_start_timestamp_ s;
    scheduled_timestamp_set_ := scheduled_timestamp_set_ s;
    sensors_ := sensors_ s; sensors_iterator_ := sensors_iterator_ s;
    baud_rate_char := baud_rate_char s;
    mode_d_empty_frame_received := mode_d_empty_frame_received s;
    new_baudrate := new_baudrate s;
    wrote_outside_in_buf := wrote_outside_in_buf s |}.

Definition set_out_buf_ (v : list Z) (s : Component) : Component :=
  {|
    cfg := cfg s; uart := uart s; trace := trace s; state_ := state_ s;
    in_buf_ := in_buf_ s; data_in_size_ := data_in_size_ s; out_buf_ := v;
    data_out_size_ := data_out_size_ s; readout_lrc_ := readout_lrc_ s;
    lrc_ := lrc_ s; mode_ := mode_ s;
    baud_rate_identification_ := baud_rate_identification_ s;
    meter_identification_ := meter_identification_ s;
    retry_counter_ := retry_counter_ s;
    current_obis_index_ := current_obis_index_ s;
    wait_start_timestamp_ := wait_start_timestamp_ s;
    wait_period_ms_ := wait_period_ms_ s;
    wait_next_state_ := wait_next_state_ s;
    last_transmission_from_meter_timestamp_ := last_transmission_from_meter_timestamp_ s;
    retry_connection_start_timestamp_ := retry_connection_start_timestamp_ s;
    scheduled_connection_start_timestamp_ := scheduled_connection_start_timestamp_ s;
    scheduled_timestamp_set_ := scheduled_timestamp_set_ s;
    sensors_ := sensors_ s; sensors_iterator_ := sensors_iterator_ s;
    baud_rate_char := baud_rate_char s;
    mode_d_empty_frame_received := mode_d_empty_frame_received s;
    new_baudrate := new_baudrate s;
    wrote_outside_in_buf := wrote_outside_in_buf s |}.

Definition set_data_out_size_ (v : nat) (s : Component) : Component :=
  {|
    cfg := cfg s; uart := uart s; trace := trace s; state_ := state_ s;
    in_buf_ := in_buf_ s; data_in_size_ := data_in_size_ s;
    out_buf_ := out_buf_ s; data_out_size_ := v;
    readout_lrc_ := readout_lrc_ s; lrc_ := lrc_ s; mode_ := mode_ s;
    baud_rate_identification_ := baud_rate_identification_ s;
    meter_identification_ := meter_identification_ s;
    retry_counter_ := retry_counter_ s;
    current_obis_index_ := current_obis_index_ s;
    wait_start_timestamp_ := wait_start_timestamp_ s;
    wait_period_ms_ := wait_period_ms_ s;
    wait_next_state_ := wait_next_state_ s;
    last_transmission_from_meter_timestamp_ := last_transmission_from_meter_timestamp_ s;
    retry_connection_start_timestamp_ := retry_connection_start_timestamp_ s;
    scheduled_connection_start_timestamp_ := scheduled_connection_start_timestamp_ s;
    scheduled_timestamp_set_ := scheduled_timestamp_set_ s;
    sensors_ := sensors_ s; sensors_iterator_ := sensors_iterator_ s;
    baud_rate_char := baud_rate_char s;
    mode_d_empty_frame_received := mode_d_empty_frame_received s;
    new_baudrate := new_baudrate s;
    wrote_outside_in_buf := wrote_outside_in_buf s |}.

Definition set_readout_lrc_ (v : Z) (s : Component) : Component :=
  {|
    cfg := cfg s; uart := uart s; trace := trace s; state_ := state_ s;
    in_buf_ := in_buf_ s; data_in_size_ := data_in_size_ s;
    out_buf_ := out_buf_ s; data_out_size_ := data_out_size_ s;
    readout_lrc_ := v; lrc_ := lrc_ s; mode_ := mode_ s;
    baud_rate_identification_ := baud_rate_identification_ s;
    meter_identification_ := meter_identification_ s;
    retry_counter_ := retry_counter_ s;
    current_obis_index_ := current_obis_index_ s;
    wait_start_timestamp_ := wait_start_timestamp_ s;
    wait_period_ms_ := wait_period_ms_ s;
    wait_next_state_ := wait_next_state_ s;
    last_transmission_from_meter_timestamp_ := last_transmission_from_meter_timestamp_ s;
    retry_connection_start_timestamp_ := retry_connection_start_timestamp_ s;
    scheduled_connection_start_timestamp_ := scheduled_connection_start_timestamp_ s;
    scheduled_timestamp_set_ := scheduled_timestamp_set_ s;
    sensors_ := sensors_ s; sensors_iterator_ := sensors_iterator_ s;
    baud_rate_char := baud_rate_char s;
    mode_d_empty_frame_received := mode_d_empty_frame_received s;
    new_baudrate := new_baudrate s;
    wrote_outside_in_buf := wrote_outside_in_buf s |}.

Definition set_lrc_ (v : Z) (s : Component) : Component :=
  {|
    cfg := cfg s; uart := uart s; trace := trace s; state_ := state_ s;
    in_buf_ := in_buf_ s; data_in_size_ := data_in_size_ s;
    out_buf_ := out_buf_ s; data_out_size_ := data_out_size_ s;
    readout_lrc_ := readout_lrc_ s; lrc_ := v; mode_ := mode_ s;
    baud_rate_identification_ := baud_rate_identification_ s;
    meter_identification_ := meter_identification_ s;
    retry_counter_ := retry_counter_ s;
    current_obis_index_ := current_obis_index_ s;
    wait_start_timestamp_ := wait_start_timestamp_ s;
    wait_period_ms_ := wait_period_ms_ s;
    wait_next_state_ := wait_next_state_ s;
    last_transmission_from_meter_timestamp_ := last_transmission_from_meter_timestamp_ s;
    retry_connection_start_timestamp_ := retry_connection_start_timestamp_ s;
    scheduled_connection_start_timestamp_ := scheduled_connection_start_timestamp_ s;
    scheduled_timestamp_set_ := scheduled_timestamp_set_ s;
    sensors_ := sensors_ s; sensors_iterator_ := sensors_iterator_ s;
    baud_rate_char := baud_rate_char s;
    mode_d_empty_frame_received := mode_d_empty_frame_received s;
    new_baudrate := new_baudrate s;
    wrote_outside_in_buf := wrote_outside_in_buf s |}.

Definition set_mode_ (v : ProtocolMode) (s : Component) : Component :=
  {|
    cfg := cfg s; uart := uart s; trace := trace s; state_ := state_ s;
    in_buf_ := in_buf_ s; data_in_size_ := data_in_size_ s;
    out_buf_ := out_buf_ s; data_out_size_ := data_out_size_ s;
    readout_lrc_ := readout_lrc_ s; lrc_ := lrc_ s; mode_ := v;
    baud_rate_identification_ := baud_rate_identification_ s;
    meter_identification_ := meter_identification_ s;
    retry_counter_ := retry_counter_ s;
    current_obis_index_ := current_obis_index_ s;
    wait_start_timestamp_ := wait_start_timestamp_ s;
    wait_period_ms_ := wait_period_ms_ s;
    wait_next_state_ := wait_next_state_ s;
    last_transmission_from_meter_timestamp_ := last_transmission_from_meter_timestamp_ s;
    retry_connection_start_timestamp_ := retry_connection_start_timestamp_ s;
    scheduled_connection_start_timestamp_ := scheduled_connection_start_timestamp_ s;
    scheduled_timestamp_set_ := scheduled_timestamp_set_ s;
    sensors_ := sensors_ s; sensors_iterator_ := sensors_iterator_ s;
    baud_rate_char := baud_rate_char s;
    mode_d_empty_frame_received := mode_d_empty_frame_received s;
    new_baudrate := new_baudrate s;
    wrote_outside_in_buf := wrote_outside_in_buf s |}.

Definition set_baud_rate_identification_ (v : Z) (s : Component) : Component :=
  {|
    cfg := cfg s; uart := uart s; trace := trace s; state_ := state_ s;
    in_buf_ := in_buf_ s; data_in_size_ := data_in_size_ s;
    out_buf_ := out_buf_ s; data_out_size_ := data_out_size_ s;
    readout_lrc_ := readout_lrc_ s; lrc_ := lrc_ s; mode_ := mode_ s;
    baud_rate_identification_ := v;
    meter_identification_ := meter_identification_ s;
    retry_counter_ := retry_counter_ s;
    current_obis_index_ := current_obis_index_ s;
    wait_start_timestamp_ := wait_start_timestamp_ s;
    wait_period_ms_ := wait_period_ms_ s;
    wait_next_state_ := wait_next_state_ s;
    last_transmission_from_meter_timestamp_ := last_transmission_from_meter_timestamp_ s;
    retry_connection_start_timestamp_ := retry_connection_start_timestamp_ s;
    scheduled_connection_start_timestamp_ := scheduled_connection_start_timestamp_ s;
    scheduled_timestamp_set_ := scheduled_timestamp_set_ s;
    sensors_ := sensors_ s; sensors_iterator_ := sensors_iterator_ s;
    baud_rate_char := baud_rate_char s;
    mode_d_empty_frame_received := mode_d_empty_frame_received s;
    new_baudrate := new_baudrate s;
    wrote_outside_in_buf := wrote_outside_in_buf s |}.

Definition set_meter_identification_ (v : list Z) (s : Component) : Component :=
  {|
    cfg := cfg s; uart := uart s; trace := trace s; state_ := state_ s;
    in_buf_ := in_buf_ s; data_in_size_ := data_in_size_ s;
    out_buf_ := out_buf_ s; data_out_size_ := data_out_size_ s;
    readout_lrc_ := readout_lrc_ s; lrc_ := lrc_ s; mode_ := mode_ s;
    baud_rate_identification_ := baud_rate_identification_ s;
    meter_identification_ := v; retry_counter_ := retry_counter_ s;
    current_obis_index_ := current_obis_index_ s;
    wait_start_timestamp_ := wait_start_timestamp_ s;
    wait_period_ms_ := wait_period_ms_ s;
    wait_next_state_ := wait_next_state_ s;
    last_transmission_from_meter_timestamp_ := last_transmission_from_meter_timestamp_ s;
    retry_connection_start_timestamp_ := retry_connection_start_timestamp_ s;
    scheduled_connection_start_timestamp_ := scheduled_connection_start_timestamp_ s;
    scheduled_timestamp_set_ := scheduled_timestamp_set_ s;
    sensors_ := sensors_ s; sensors_iterator_ := sensors_iterator_ s;
    baud_rate_char := baud_rate_char s;
    mode_d_empty_frame_received := mode_d_empty_frame_received s;
    new_baudrate := new_baudrate s;
    wrote_outside_in_buf := wrote_outside_in_buf s |}.

Definition set_retry_counter_ (v : Z) (s : Component) : Component :=
  {|
    cfg := cfg s; uart := uart s; trace := trace s; state_ := state_ s;
    in_buf_ := in_buf_ s; data_in_size_ := data_in_size_ s;
    out_buf_ := out_buf_ s; data_out_size_ := data_out_size_ s;
    readout_lrc_ := readout_lrc_ s; lrc_ := lrc_ s; mode_ := mode_ s;
    baud_rate_identification_ := baud_rate_identification_ s;
    meter_identification_ := meter_identification_ s; retry_counter_ := v;
    current_obis_index_ := current_obis_index_ s;
    wait_start_timestamp_ := wait_start_timestamp_ s;
    wait_period_ms_ := wait_period_ms_ s;
    wait_next_state_ := wait_next_state_ s;
    last_transmission_from_meter_timestamp_ := last_transmission_from_meter_timestamp_ s;
    retry_connection_start_timestamp_ := retry_connection_start_timestamp_ s;
    scheduled_connection_start_timestamp_ := scheduled_connection_start_timestamp_ s;
    scheduled_timestamp_set_ := scheduled_timestamp_set_ s;
    sensors_ := sensors_ s; sensors_iterator_ := sensors_iterator_ s;
    baud_rate_char := baud_rate_char s;
    mode_d_empty_frame_received := mode_d_empty_frame_received s;
    new_baudrate := new_baudrate s;
    wrote_outside_in_buf := wrote_outside_in_buf s |}.

Definition set_current_obis_index_ (v : Z) (s : Component) : Component :=
  {|
    cfg := cfg s; uart := uart s; trace := trace s; state_ := state_ s;
    in_buf_ := in_buf_ s; data_in_size_ := data_in_size_ s;
    out_buf_ := out_buf_ s; data_out_size_ := data_out_size_ s;
    readout_lrc_ := readout_lrc_ s; lrc_ := lrc_ s; mode_ := mode_ s;
    baud_rate_identification_ := baud_rate_identification_ s;
    meter_identification_ := meter_identification_ s;
    retry_counter_ := retry_counter_ s; current_obis_index_ := v;
    wait_start_timestamp_ := wait_start_timestamp_ s;
    wait_period_ms_ := wait_period_ms_ s;
    wait_next_state_ := wait_next_state_ s;
    last_transmission_from_meter_timestamp_ := last_transmission_from_meter_timestamp_ s;
    retry_connection_start_timestamp_ := retry_connection_start_timestamp_ s;
    scheduled_connection_start_timestamp_ := scheduled_connection_start_timestamp_ s;
    scheduled_timestamp_set_ := scheduled_timestamp_set_ s;
    sensors_ := sensors_ s; sensors_iterator_ := sensors_iterator_ s;
    baud_rate_char := baud_rate_char s;
    mode_d_empty_frame_received := mode_d_empty_frame_received s;
    new_baudrate := new_baudrate s;
    wrote_outside_in_buf := wrote_outside_in_buf s |}.

Definition set_wait_start_timestamp_ (v : Z) (s : Component) : Component :=
  {|
    cfg := cfg s; uart := uart s; trace := trace s; state_ := state_ s;
    in_buf_ := in_buf_ s; data_in_size_ := data_in_size_ s;
    out_buf_ := out_buf_ s; data_out_size_ := data_out_size_ s;
    readout_lrc_ := readout_lrc_ s; lrc_ := lrc_ s; mode_ := mode_ s;
    baud_rate_identification_ := baud_rate_identification_ s;
    meter_identification_ := meter_identification_ s;
    retry_counter_ := retry_counter_ s;
    current_obis_index_ := current_obis_index_ s; wait_start_timestamp_ := v;
    wait_period_ms_ := wait_period_ms_ s;
    wait_next_state_ := wait_next_state_ s;
    last_transmission_from_meter_timestamp_ := last_transmission_from_meter_timestamp_ s;
    retry_connection_start_timestamp_ := retry_connection_start_timestamp_ s;
    scheduled_connection_start_timestamp_ := scheduled_connection_start_timestamp_ s;
    scheduled_timestamp_set_ := scheduled_timestamp_set_ s;
    sensors_ := sensors_ s; sensors_iterator_ := sensors_iterator_ s;
    baud_rate_char := baud_rate_char s;
    mode_d_empty_frame_received := mode_d_empty_frame_received s;
    new_baudrate := new_baudrate s;
    wrote_outside_in_buf := wrote_outside_in_buf s |}.

Definition set_wait_period_ms_ (v : Z) (s : Component) : Component :=
  {|
    cfg := cfg s; uart := uart s; trace := trace s; state_ := state_ s;
    in_buf_ := in_buf_ s; data_in_size_ := data_in_size_ s;
    out_buf_ := out_buf_ s; data_out_size_ := data_out_size_ s;
    readout_lrc_ := readout_lrc_ s; lrc_ := lrc_ s; mode_ := mode_ s;
    baud_rate_identification_ := baud_rate_identification_ s;
    meter_identification_ := meter_identification_ s;
    retry_counter_ := retry_counter_ s;
    current_obis_index_ := current_obis_index_ s;
    wait_start_timestamp_ := wait_start_timestamp_ s; wait_period_ms_ := v;
    wait_next_state_ := wait_next_state_ s;
    last_transmission_from_meter_timestamp_ := last_transmission_from_meter_timestamp_ s;
    retry_connection_start_timestamp_ := retry_connection_start_timestamp_ s;
    scheduled_connection_start_timestamp_ := scheduled_connection_start_timestamp_ s;
    scheduled_timestamp_set_ := scheduled_timestamp_set_ s;
    sensors_ := sensors_ s; sensors_iterator_ := sensors_iterator_ s;
    baud_rate_char := baud_rate_char s;
    mode_d_empty_frame_received := mode_d_empty_frame_received s;
    new_baudrate := new_baudrate s;
    wrote_outside_in_buf := wrote_outside_in_buf s |}.

Definition set_wait_next_state_ (v : CommState) (s : Component) : Component :=
  {|
    cfg := cfg s; uart := uart s; trace := trace s; state_ := state_ s;
    in_buf_ := in_buf_ s; data_in_size_ := data_in_size_ s;
    out_buf_ := out_buf_ s; data_out_size_ := data_out_size_ s;
    readout_lrc_ := readout_lrc_ s; lrc_ := lrc_ s; mode_ := mode_ s;
    baud_rate_identification_ := baud_rate_identification_ s;
    meter_identification_ := meter_identification_ s;
    retry_counter_ := retry_counter_ s;
    current_obis_index_ := current_obis_index_ s;
    wait_start_timestamp_ := wait_start_timestamp_ s;
    wait_period_ms_ := wait_period_ms_ s; wait_next_state_ := v;
    last_transmission_from_meter_timestamp_ := last_transmission_from_meter_timestamp_ s;
    retry_connection_start_timestamp_ := retry_connection_start_timestamp_ s;
    scheduled_connection_start_timestamp_ := scheduled_connection_start_timestamp_ s;
    scheduled_timestamp_set_ := scheduled_timestamp_set_ s;
    sensors_ := sensors_ s; sensors_iterator_ := sensors_iterator_ s;
    baud_rate_char := baud_rate_char s;
    mode_d_empty_frame_received := mode_d_empty_frame_received s;
    new_baudrate := new_baudrate s;
    wrote_outside_in_buf := wrote_outside_in_buf s |}.

Definition set_last_transmission_from_meter_timestamp_ (v : Z) (s : Component) : Component :=
  {|
    cfg := cfg s; uart := uart s; trace := trace s; state_ := state_ s;
    in_buf_ := in_buf_ s; data_in_size_ := data_in_size_ s;
    out_buf_ := out_buf_ s; data_out_size_ := data_out_size_ s;
    readout_lrc_ := readout_lrc_ s; lrc_ := lrc_ s; mode_ := mode_ s;
    baud_rate_identification_ := baud_rate_identification_ s;
    meter_identification_ := meter_identification_ s;
    retry_counter_ := retry_counter_ s;
    current_obis_index_ := current_obis_index_ s;
    wait_start_timestamp_ := wait_start_timestamp_ s;
    wait_period_ms_ := wait_period_ms_ s;
    wait_next_state_ := wait_next_state_ s;
    last_transmission_from_meter_timestamp_ := v;
    retry_connection_start_timestamp_ := retry_connection_start_timestamp_ s;
    scheduled_connection_start_timestamp_ := scheduled_connection_start_timestamp_ s;
    scheduled_timestamp_set_ := scheduled_timestamp_set_ s;
    sensors_ := sensors_ s; sensors_iterator_ := sensors_iterator_ s;
    baud_rate_char := baud_rate_char s;
    mode_d_empty_frame_received := mode_d_empty_frame_received s;
    new_baudrate := new_baudrate s;
    wrote_outside_in_buf := wrote_outside_in_buf s |}.

Definition set_retry_connection_start_timestamp_ (v : Z) (s : Component) : Component :=
  {|
    cfg := cfg s; uart := uart s; trace := trace s; state_ := state_ s;
    in_buf_ := in_buf_ s; data_in_size_ := data_in_size_ s;
    out_buf_ := out_buf_ s; data_out_size_ := data_out_size_ s;
    readout_lrc_ := readout_lrc_ s; lrc_ := lrc_ s; mode_ := mode_ s;
    baud_rate_identification_ := baud_rate_identification_ s;
    meter_identification_ := meter_identification_ s;
    retry_counter_ := retry_counter_ s;
    current_obis_index_ := current_obis_index_ s;
    wait_start_timestamp_ := wait_start_timestamp_ s;
    wait_period_ms_ := wait_period_ms_ s;
    wait_next_state_ := wait_next_state_ s;
    last_transmission_from_meter_timestamp_ := last_transmission_from_meter_timestamp_ s;
    retry_connection_start_timestamp_ := v;
    scheduled_connection_start_timestamp_ := scheduled_connection_start_timestamp_ s;
    scheduled_timestamp_set_ := scheduled_timestamp_set_ s;
    sensors_ := sensors_ s; sensors_iterator_ := sensors_iterator_ s;
    baud_rate_char := baud_rate_char s;
    mode_d_empty_frame_received := mode_d_empty_frame_received s;
    new_baudrate := new_baudrate s;
    wrote_outside_in_buf := wrote_outside_in_buf s |}.

Definition set_scheduled_connection_start_timestamp_ (v : Z) (s : Component) : Component :=
  {|
    cfg := cfg s; uart := uart s; trace := trace s; state_ := state_ s;
    in_buf_ := in_buf_ s; data_in_size_ := data_in_size_ s;
    out_buf_ := out_buf_ s; data_out_size_ := data_out_size_ s;
    readout_lrc_ := readout_lrc_ s; lrc_ := lrc_ s; mode_ := mode_ s;
    baud_rate_identification_ := baud_rate_identification_ s;
    meter_identification_ := meter_identification_ s;
    retry_counter_ := retry_counter_ s;
    current_obis_index_ := current_obis_index_ s;
    wait_start_timestamp_ := wait_start_timestamp_ s;
    wait_period_ms_ := wait_period_ms_ s;
    wait_next_state_ := wait_next_state_ s;
    last_transmission_from_meter_timestamp_ := last_transmission_from_meter_timestamp_ s;
    retry_connection_start_timestamp_ := retry_connection_start_timestamp_ s;
    scheduled_connection_start_timestamp_ := v;
    scheduled_timestamp_set_ := scheduled_timestamp_set_ s;
    sensors_ := sensors_ s; sensors_iterator_ := sensors_iterator_ s;
    baud_rate_char := baud_rate_char s;
    mode_d_empty_frame_received := mode_d_empty_frame_received s;
    new_baudrate := new_baudrate s;
    wrote_outside_in_buf := wrote_outside_in_buf s |}.

Definition set_scheduled_timestamp_set_ (v : bool) (s : Component) : Component :=
  {|
    cfg := cfg s; uart := uart s; trace := trace s; state_ := state_ s;
    in_buf_ := in_buf_ s; data_in_size_ := data_in_size_ s;
    out_buf_ := out_buf_ s; data_out_size_ := data_out_size_ s;
    readout_lrc_ := readout_lrc_ s; lrc_ := lrc_ s; mode_ := mode_ s;
    baud_rate_identification_ := baud_rate_identification_ s;
    meter_identification_ := meter_identification_ s;
    retry_counter_ := retry_counter_ s;
    current_obis_index_ := current_obis_index_ s;
    wait_start_timestamp_ := wait_start_timestamp_ s;
    wait_period_ms_ := wait_period_ms_ s;
    wait_next_state_ := wait_next_state_ s;
    last_transmission_from_meter_timestamp_ := last_transmission_from_meter_timestamp_ s;
    retry_connection_start_timestamp_ := retry_connection_start_timestamp_ s;
    scheduled_connection_start_timestamp_ := scheduled_connection_start_timestamp_ s;
    scheduled_timestamp_set_ := v; sensors_ := sensors_ s;
    sensors_iterator_ := sensors_iterator_ s;
    baud_rate_char := baud_rate_char s;
    mode_d_empty_frame_received := mode_d_empty_frame_received s;
    new_baudrate := new_baudrate s;
    wrote_outside_in_buf := wrote_outside_in_buf s |}.

Definition set_sensors_ (v : list Sensor) (s : Component) : Component :=
  {|
    cfg := cfg s; uart := uart s; trace := trace s; state_ := state_ s;
    in_buf_ := in_buf_ s; data_in_size_ := data_in_size_ s;
    out_buf_ := out_buf_ s; data_out_size_ := data_out_size_ s;
    readout_lrc_ := readout_lrc_ s; lrc_ := lrc_ s; mode_ := mode_ s;
    baud_rate_identification_ := baud_rate_identification_ s;
    meter_identification_ := meter_identification_ s;
    retry_counter_ := retry_counter_ s;
    current_obis_index_ := current_obis_index_ s;
    wait_start_timestamp_ := wait_start_timestamp_ s;
    wait_period_ms_ := wait_period_ms_ s;
    wait_next_state_ := wait_next_state_ s;
    last_transmission_from_meter_timestamp_ := last_transmission_from_meter_timestamp_ s;
    retry_connection_start_timestamp_ := retry_connection_start_timestamp_ s;
    scheduled_connection_start_timestamp_ := scheduled_connection_start_timestamp_ s;
    scheduled_timestamp_set_ := scheduled_timestamp_set_ s; sensors_ := v;
    sensors_iterator_ := sensors_iterator_ s;
    baud_rate_char := baud_rate_char s;
    mode_d_empty_frame_received := mode_d_empty_frame_received s;
    new_baudrate := new_baudrate s;
    wrote_outside_in_buf := wrote_outside_in_buf s |}.

Definition set_sensors_iterator_ (v : nat) (s : Component) : Component :=
  {|
    cfg := cfg s; uart := uart s; trace := trace s; state_ := state_ s;
    in_buf_ := in_buf_ s; data_in_size_ := data_in_size_ s;
    out_buf_ := out_buf_ s; data_out_size_ := data_out_size_ s;
    readout_lrc_ := readout_lrc_ s; lrc_ := lrc_ s; mode_ := mode_ s;
    baud_rate_identification_ := baud_rate_identification_ s;
    meter_identification_ := meter_identification_ s;
    retry_counter_ := retry_counter_ s;
    current_obis_index_ := current_obis_index_ s;
    wait_start_timestamp_ := wait_start_timestamp_ s;
    wait_period_ms_ := wait_period_ms_ s;
    wait_next_state_ := wait_next_state_ s;
    last_transmission_from_meter_timestamp_ := last_transmission_from_meter_timestamp_ s;
    retry_connection_start_timestamp_ := retry_connection_start_timestamp_ s;
    scheduled_connection_start_timestamp_ := scheduled_connection_start_timestamp_ s;
    scheduled_timestamp_set_ := scheduled_timestamp_set_ s;
    sensors_ := sensors_ s; sensors_iterator_ := v;
    baud_rate_char := baud_rate_char s;
    mode_d_empty_frame_received := mode_d_empty_frame_received s;
    new_baudrate := new_baudrate s;
    wrote_outside_in_buf := wrote_outside_in_buf s |}.

Definition set_baud_rate_char (v : Z) (s : Component) : Component :=
  {|
    cfg := cfg s; uart := uart s; trace := trace s; state_ := state_ s;
    in_buf_ := in_buf_ s; data_in_size_ := data_in_size_ s;
    out_buf_ := out_buf_ s; data_out_size_ := data_out_size_ s;
    readout_lrc_ := readout_lrc_ s; lrc_ := lrc_ s; mode_ := mode_ s;
    baud_rate_identification_ := baud_rate_identification_ s;
    meter_identification_ := meter_identification_ s;
    retry_counter_ := retry_counter_ s;
    current_obis_index_ := current_obis_index_ s;
    wait_start_timestamp_ := wait_start_timestamp_ s;
    wait_period_ms_ := wait_period_ms_ s;
    wait_next_state_ := wait_next_state_ s;
    last_transmission_from_meter_timestamp_ := last_transmission_from_meter_timestamp_ s;
    retry_connection_start_timestamp_ := retry_connection_start_timestamp_ s;
    scheduled_connection_start_timestamp_ := scheduled_connection_start_timestamp_ s;
    scheduled_timestamp_set_ := scheduled_timestamp_set_ s;
    sensors_ := sensors_ s; sensors_iterator_ := sensors_iterator_ s;
    baud_rate_char := v;
    mode_d_empty_frame_received := mode_d_empty_frame_received s;
    new_baudrate := new_baudrate s;
    wrote_outside_in_buf := wrote_outside_in_buf s |}.

Definition set_mode_d_empty_frame_received (v : bool) (s : Component) : Component :=
  {|
    cfg := cfg s; uart := uart s; trace := trace s; state_ := state_ s;
    in_buf_ := in_buf_ s; data_in_size_ := data_in_size_ s;
    out_buf_ := out_buf_ s; data_out_size_ := data_out_size_ s;
    readout_lrc_ := readout_lrc_ s; lrc_ := lrc_ s; mode_ := mode_ s;
    baud_rate_identification_ := baud_rate_identification_ s;
    meter_identification_ := meter_identification_ s;
    retry_counter_ := retry_counter_ s;
    current_obis_index_ := current_obis_index_ s;
    wait_start_timestamp_ := wait_start_timestamp_ s;
    wait_period_ms_ := wait_period_ms_ s;
    wait_next_state_ := wait_next_state_ s;
    last_transmission_from_meter_timestamp_ := last_transmission_from_meter_timestamp_ s;
    retry_connection_start_timestamp_ := retry_connection_start_timestamp_ s;
    scheduled_connection_start_timestamp_ := scheduled_connection_start_timestamp_ s;
    scheduled_timestamp_set_ := scheduled_timestamp_set_ s;
    sensors_ := sensors_ s; sensors_iterator_ := sensors_iterator_ s;
    baud_rate_char := baud_rate_char s; mode_d_empty_frame_received := v;
    new_baudrate := new_baudrate s;
    wrote_outside_in_buf := wrote_outside_in_buf s |}.

Definition set_new_baudrate (v : Z) (s : Component) : Component :=
  {|
    cfg := cfg s; uart := uart s; trace := trace s; state_ := state_ s;
    in_buf_ := in_buf_ s; data_in_size_ := data_in_size_ s;
    out_buf_ := out_buf_ s; data_out_size_ := data_out_size_ s;
    readout_lrc_ := readout_lrc_ s; lrc_ := lrc_ s; mode_ := mode_ s;
    baud_rate_identification_ := baud_rate_identification_ s;
    meter_identification_ := meter_identification_ s;
    retry_counter_ := retry_counter_ s;
    current_obis_index_ := current_obis_index_ s;
    wait_start_timestamp_ := wait_start_timestamp_ s;
    wait_period_ms_ := wait_period_ms_ s;
    wait_next_state_ := wait_next_state_ s;
    last_transmission_from_meter_timestamp_ := last_transmission_from_meter_timestamp_ s;
    retry_connection_start_timestamp_ := retry_connection_start_timestamp_ s;
    scheduled_connection_start_timestamp_ := scheduled_connection_start_timestamp_ s;
    scheduled_timestamp_set_ := scheduled_timestamp_set_ s;
    sensors_ := sensors_ s; sensors_iterator_ := sensors_iterator_ s;
    baud_rate_char := baud_rate_char s;
    mode_d_empty_frame_received := mode_d_empty_frame_received s;
    new_baudrate := v;
    wrote_outside_in_buf := wrote_outside_in_buf s |}.

Definition set_wrote_outside_in_buf (v : bool) (s : Component) : Component :=
  {|
    cfg := cfg s; uart := uart s; trace := trace s; state_ := state_ s;
    in_buf_ := in_buf_ s; data_in_size_ := data_in_size_ s;
    out_buf_ := out_buf_ s; data_out_size_ := data_out_size_ s;
    readout_lrc_ := readout_lrc_ s; lrc_ := lrc_ s; mode_ := mode_ s;
    baud_rate_identification_ := baud_rate_identification_ s;
    meter_identification_ := meter_identification_ s;
    retry_counter_ := retry_counter_ s;
    current_obis_index_ := current_obis_index_ s;
    wait_start_timestamp_ := wait_start_timestamp_ s;
    wait_period_ms_ := wait_period_ms_ s;
    wait_next_state_ := wait_next_state_ s;
    last_transmission_from_meter_timestamp_ := last_transmission_from_meter_timestamp_ s;
    retry_connection_start_timestamp_ := retry_connection_start_timestamp_ s;
    scheduled_connection_start_timestamp_ := scheduled_connection_start_timestamp_ s;
    scheduled_timestamp_set_ := scheduled_timestamp_set_ s;
    sensors_ := sensors_ s; sensors_iterator_ := sensors_iterator_ s;
    baud_rate_char := baud_rate_char s;
    mode_d_empty_frame_received := mode_d_empty_frame_received s;
    new_baudrate := new_baudrate s;
    wrote_outside_in_buf := v |}.

(** ** Methods as state transformers *)

Definition M (A : Type) : Type := Component -> A * Component.

Definition ret {A} (a : A) : M A := fun s => (a, s).
Definition bind {A B} (m : M A) (k : A -> M B) : M B :=
  fun s => k (fst (m s)) (snd (m s)).
Definition get {A} (f : Component -> A) : M A := fun s => (f s, s).
Definition modify (f : Component -> Component) : M unit := fun s => (tt, f s).
Definition when (b : bool) (m : M unit) : M unit := if b then m else ret tt.

Declare Scope comp_scope.
Delimit Scope comp_scope with comp.
Notation "x <- m ;; k" := (bind m (fun x => k))
  (at level 100, m at next level, right associativity) : comp_scope.
Notation "m ;; k" := (bind m (fun _ => k))
  (at level 100, right associativity) : comp_scope.
Open Scope comp_scope.

Definition emit (e : Event) : M unit :=
  modify (fun s => set_trace (trace s ++ [e]) s).

(** *** Environment *)

Definition millis : M Z :=
  fun s =>
    let u := uart s in
    (u32 (clock u (ticks u)), set_uart (set_ticks (S (ticks u)) u) s).

Definition available : M nat := get (fun s => length (rx (uart s))).

Definition write_array (data : list Z) : M unit :=
  modify (fun s => set_uart (set_tx (tx (uart s) ++ [data]) (uart s)) s).

Definition update_baudrate_ (baudrate : Z) : M unit :=
  modify (fun s => set_uart (set_baud baudrate (uart s)) s).

(** *** Inline methods of the header *)

(** Modelled from the spec: [set_next_state_] is declared in the
    header; it is the transition to the given state. *)
Definition set_next_state_ (st : CommState) : M unit := modify (set_state_ st).

(** Modelled from the spec: [is_wait_state_] is declared in the header;
    the waiting states are the timed wait and the idle wait. *)
Definition is_wait_state_ : M bool :=
  get (fun s => CommState_eqb (state_ s) WAIT || CommState_eqb (state_ s) INFINITE_WAIT).

(** Modelled from the spec: [update_last_transmission_from_meter_timestamp_]
    is declared in the header; it refreshes the timestamp of the last
    transmission from the meter with the current time. *)
Definition update_last_transmission_from_meter_timestamp_ : M unit :=
  now <- millis ;; modify (set_last_transmission_from_meter_timestamp_ now).

(** Modelled from the spec: [reset_lrc_] is declared in the header; it
    resets the checksum accumulator. *)
Definition reset_lrc_ : M unit := modify (set_lrc_ 0).

(** Modelled from the spec: [check_wait_period_] is declared in the
    header; the deadline is polled against the clock with unsigned
    subtraction. *)
Definition check_wait_period_ : M bool :=
  now <- millis ;;
  s <- get id ;;
  ret (wait_period_ms_ s <=? u32 (now - wait_start_timestamp_ s)).

(** Modelled from the spec: [is_periodic_readout_enabled_] is declared
    in the header; the cadence is disabled by the sentinel the source
    names in [wait_next_readout_] ([UINT32_MAX]). *)
Definition is_periodic_readout_enabled_ : M bool :=
  get (fun s => negb (update_interval_ms_ (cfg s) =? 2 ^ 32 - 1)).

(** Modelled from the spec: [retry_counter_inc_] and
    [retry_counter_reset_] are declared in the header; they increment
    the retry counter and reset it to zero. *)
Definition retry_counter_inc_ : M unit :=
  modify (fun s => set_retry_counter_ (retry_counter_ s + 1) s).
Definition retry_counter_reset_ : M unit := modify (set_retry_counter_ 0).

(** ** Frame assembler *)

Definition send_frame_ : M unit :=
  s <- get id ;; write_array (take (data_out_size_ s) (out_buf_ s)).

(** [memmove(buf, buf + 1, n)]. *)
Definition memmove_left (buf : list Z) (n : nat) : list Z :=
  take n (drop 1 buf) ++ drop n buf.

(** The four terminator tests of [receive_frame_], made after a byte
    has been stored.  [Some r] is [return r]; [None] goes round the
    loop again. *)
Definition check_terminators : M (option nat) :=
  s <- get id ;;
  let n := data_in_size_ s in
  let last := aget (in_buf_ s) (Z.of_nat n - 1) in
  let before_last := aget (in_buf_ s) (Z.of_nat n - 2) in
  if last =? ACK then
    update_last_transmission_from_meter_timestamp_ ;;
    modify (set_data_in_size_ 0) ;;
    ret (Some n)
  else if (2 <=? n)%nat && (ETX =? before_last) then
    modify (set_readout_lrc_ last) ;;
    update_last_transmission_from_meter_timestamp_ ;;
    modify (set_data_in_size_ 0) ;;
    ret (Some n)
  else if STX =? last then
    reset_lrc_ ;;
    update_last_transmission_from_meter_timestamp_ ;;
    modify (set_data_in_size_ 0) ;;
    ret (Some n)
  else if (2 <=? n)%nat && (CR =? before_last) && (LF =? last) then
    if (n =? data_out_size_ s)%nat
       && memcmp_eq (out_buf_ s) (in_buf_ s) (data_out_size_ s) then
      modify (set_data_out_size_ 0) ;;
      modify (set_data_in_size_ 0) ;;
      emit LOG_echo_ignore_frame ;;
      ret (Some 0%nat)
    else
      update_last_transmission_from_meter_timestamp_ ;;
      modify (set_data_in_size_ 0) ;;
      ret (Some n)
  else ret None.

Section FrameAssembler.
Context (h : Header).

Definition max_while_ms : Z := 15.

(** The place [p] the next byte goes to; a full buffer is first moved
    down by one byte. *)
Definition make_room : M unit :=
  s <- get id ;;
  if (data_in_size_ s <? MAX_IN_BUF_SIZE h)%nat then ret tt
  else modify (set_in_buf_ (memmove_left (in_buf_ s) (data_in_size_ s - 1))).

(** [read_one_byte(p)] when the receive buffer holds [b]. *)
Definition store_byte (b : Z) (rest : list Z) : M unit :=
  s <- get id ;;
  modify (fun s => set_uart (set_rx rest (uart s)) s) ;;
  if (data_in_size_ s <? MAX_IN_BUF_SIZE h)%nat then
    modify (set_in_buf_ (aset (in_buf_ s) (Z.of_nat (data_in_size_ s)) b)) ;;
    modify (set_data_in_size_ (data_in_size_ s + 1))
  else
    modify (set_in_buf_ (aset (in_buf_ s) (Z.of_nat (data_in_size_ s) - 1) b)).

(** The [while (count > 0)] loop; [count] is never changed, so the
    loop ends by one of its [return]s.  [bytes] is the content of the
    receive buffer: each turn takes one byte from it, and
    [read_one_byte] fails when it is empty. *)
Fixpoint receive_loop (while_start : Z) (bytes : list Z) : M nat :=
  now <- millis ;;
  if max_while_ms <? u32 (now - while_start) then ret 0%nat
  else
    make_room ;;
    match bytes with
    | [] => ret 0%nat
    | b :: rest =>
        store_byte b rest ;;
        r <- check_terminators ;;
        match r with
        | Some ret_val => ret ret_val
        | None => receive_loop while_start rest
        end
    end.

Definition receive_frame_ : M nat :=
  count <- available ;;
  if (count <=? 0)%nat then ret 0%nat
  else
    while_start <- millis ;;
    s <- get id ;;
    receive_loop while_start (rx (uart s)).

(** [clear_uart_input_buffer_]: [read_array(in_buf_, len)] in chunks
    of at most [MAX_IN_BUF_SIZE] bytes until [available] bytes are
    read; [fuel] bounds the number of chunks. *)
Fixpoint clear_chunks (fuel : nat) (avail : nat) : M unit :=
  match fuel with
  | O => ret tt
  | S fuel' =>
      if (0 <? avail)%nat then
        let len := Nat.min avail (MAX_IN_BUF_SIZE h) in
        s <- get id ;;
        modify (set_in_buf_ (take len (rx (uart s)) ++ drop len (in_buf_ s))) ;;
        modify (fun s => set_uart (set_rx (drop len (rx (uart s))) (uart s)) s) ;;
        clear_chunks fuel' (avail - len)
      else ret tt
  end.

Definition clear_uart_input_buffer_ : M unit :=
  avail <- available ;;
  clear_chunks avail avail ;;
  modify (set_data_in_size_ 0).

(** ** Identification parser *)

(** The [while] loop of [get_id_] from [p = n - 1] down to the start
    of the buffer. *)
Fixpoint get_id_scan (frame_size : nat) (n : nat) : M (option nat) :=
  match n with
  | O => ret None
  | S p =>
      s <- get id ;;
      let min_id_data_size := 7 in
      if byte_of "/" =? aget (in_buf_ s) (Z.of_nat p) then
        if u32 (Z.of_nat (MAX_IN_BUF_SIZE h) - 1 - Z.of_nat p) <? min_id_data_size
        then ret None
        else
          modify (set_in_buf_ (aset (in_buf_ s) (Z.of_nat frame_size - 2) 0)) ;;
          ret (Some p)
      else get_id_scan frame_size p
  end.

(** [get_id_]: [Some p] is the pointer [&in_buf_[p]], [None] the null
    pointer.  [p] starts at [frame_size - 3]. *)
Definition get_id_ (frame_size : nat) : M (option nat) :=
  let min_id_data_size := 7%nat in
  if (min_id_data_size <=? frame_size)%nat
  then get_id_scan frame_size (frame_size - 2)
  else ret None.

(** [parse_id_(packet)] for [packet = &in_buf_[p]]. *)
Definition parse_id_ (p : nat) : M unit :=
  s <- get id ;;
  let packet := cstr_at (in_buf_ s) p in
  let len := length packet in
  modify (set_meter_identification_ packet) ;;
  let z := if (5 <=? len)%nat then aget packet 4 else 0 in
  modify (set_baud_rate_identification_ z) ;;
  modify (set_mode_ (set_protocol_ h (force_mode_d_ (cfg s)) z)).
End FrameAssembler.

(** ** Frame builder *)

Definition id_request : list Z := [byte_of "/"; byte_of "?"; byte_of "!"; CR; LF].
Definition set_baud_and_programm : list Z := [ACK; 0x30; 0x30; 0x31; 0x0d; 0x0a].
Definition set_password : list Z :=
  [SOH; byte_of "P"; byte_of "1"; STX; byte_of "("] ++ bytes_of "00000000"
  ++ [byte_of ")"; ETX; 0x61].

Definition send_battery_wakeup_sequence_ : M unit :=
  let n := 84%nat in
  modify (fun s => set_out_buf_ (repeat 0 n ++ drop n (out_buf_ s)) s) ;;
  modify (set_data_out_size_ n) ;;
  send_frame_.

(** [out_buf_[data_out_size_++] = c]. *)
Definition push_out (c : Z) : M unit :=
  modify (fun s =>
    set_data_out_size_ (data_out_size_ s + 1)
      (set_out_buf_ (aset (out_buf_ s) (Z.of_nat (data_out_size_ s)) c) s)).

Fixpoint push_all (cs : list Z) : M unit :=
  match cs with
  | [] => ret tt
  | c :: cs' => push_out c ;; push_all cs'
  end.

Definition build_readout_command_ (obis_code : list Z) : M unit :=
  modify (set_data_out_size_ 0) ;;
  push_out SOH ;; push_out (byte_of "R") ;; push_out (byte_of "1") ;; push_out STX ;;
  push_all obis_code ;;
  push_out (byte_of "(") ;; push_out (byte_of ")") ;;
  push_out ETX ;;
  s <- get id ;;
  let bcc := xor_checksum (drop 1 (take (data_out_size_ s) (out_buf_ s))) in
  push_out bcc.

(** ** Timed waits and the retry policy *)

Definition wait_ (ms : Z) (st : CommState) : M unit :=
  set_next_state_ WAIT ;;
  now <- millis ;;
  modify (set_wait_start_timestamp_ now) ;;
  modify (set_wait_period_ms_ ms) ;;
  modify (set_wait_next_state_ st).

Definition wait_next_readout_ : M unit :=
  s <- get id ;;
  if force_mode_d_ (cfg s) then set_next_state_ MODE_D_WAIT
  else
    now <- millis ;;
    let delta := u32 (now - scheduled_connection_start_timestamp_ s) in
    let actual_wait_time := u32 (update_interval_ms_ (cfg s) - delta) in
    retry_counter_reset_ ;;
    periodic <- is_periodic_readout_enabled_ ;;
    let actual_wait_time :=
      if (update_interval_ms_ (cfg s) <? delta) && periodic then 0
      else actual_wait_time in
    modify (set_scheduled_timestamp_set_ false) ;;
    if periodic then
      emit (LOG_waiting_for_next_readout actual_wait_time) ;;
      wait_ actual_wait_time BEGIN
    else
      emit LOG_no_scheduled_readout ;;
      set_next_state_ INFINITE_WAIT.

Definition retry_or_sleep_ : M unit :=
  s <- get id ;;
  if force_mode_d_ (cfg s) then set_next_state_ MODE_D_WAIT
  else if max_retries_ (cfg s) <=? retry_counter_ s then
    emit LOG_exceeded_retry_counter ;;
    wait_next_readout_
  else
    retry_counter_inc_ ;;
    s' <- get id ;;
    emit (LOG_retry (retry_counter_ s')) ;;
    wait_ (retry_delay_ (cfg s)) BEGIN.

Definition update_connection_start_timestamp_ : M unit :=
  now <- millis ;;
  modify (set_retry_connection_start_timestamp_ now) ;;
  s <- get id ;;
  if negb (scheduled_timestamp_set_ s) then
    modify (set_scheduled_connection_start_timestamp_ now) ;;
    modify (set_scheduled_timestamp_set_ true)
  else ret tt.

Definition connection_status_ (connected : bool) : M unit :=
  emit (LOG_connection connected).

Definition trigger_readout : M unit :=
  s <- get id ;;
  if force_mode_d_ (cfg s) then ret tt
  else
    w <- is_wait_state_ ;;
    if negb w then ret tt else set_next_state_ BEGIN.

(** ** Sensors *)

(** [set_sensor_value_] on one sensor: the sensor afterwards and the
    result.  A text sensor takes the whole frame (group 0), value 2
    (group 2) or value 1; a numeric sensor takes value 1 when
    [validate_float_] accepts it. *)
Definition set_sensor_value_ (in_buf : list Z) (x : Sensor)
    (value1 value2 : list Z) : Sensor * bool :=
  match get_type x with
  | TEXT_SENSOR =>
      let v :=
        if get_group x =? 0 then cstr_at in_buf 0
        else if get_group x =? 2 then value2
        else value1 in
      (set_value v x, true)
  | SENSOR =>
      if validate_float_ value1 then (set_value value1 x, true)
      else (x, false)
  end.

(** The loop over [sensors_.equal_range(obis)]. *)
Fixpoint update_range (in_buf : list Z) (obis value1 value2 : list Z)
    (xs : list Sensor) : list Sensor * list Event :=
  match xs with
  | [] => ([], [])
  | x :: xs' =>
      let r := update_range in_buf obis value1 value2 xs' in
      if bool_decide (get_obis x = obis) then
        let xr := set_sensor_value_ in_buf x value1 value2 in
        (fst xr :: fst r,
         (if snd xr then [] else [LOG_cannot_convert value1]) ++ snd r)
      else (x :: fst r, snd r)
  end.

Definition update_matching_sensors (obis value1 value2 : list Z) : M unit :=
  modify (fun s =>
    let r := update_range (in_buf_ s) obis value1 value2 (sensors_ s) in
    set_trace (trace s ++ snd r) (set_sensors_ (fst r) s)).

(** ** Session state machine *)

Section Session.
Context (h : Header).

(** [in_buf_[frame_size - 2] = 0], then the line is the C string at
    the start of [in_buf_].  The index is computed in [size_t] (32
    bits on the ESP targets): for a frame of one byte it wraps to
    [SIZE_MAX], and the write lands outside the array. *)
Definition terminate_line (frame_size : nat) : M (list Z) :=
  let index := u32 (Z.of_nat frame_size - 2) in
  s <- get id ;;
  (if index <? Z.of_nat (length (in_buf_ s))
   then modify (set_in_buf_ (aset (in_buf_ s) index 0))
   else modify (set_wrote_outside_in_buf true)) ;;
  s <- get id ;;
  emit (LOG_data (cstr_at (in_buf_ s) 0)) ;;
  ret (cstr_at (in_buf_ s) 0).

Definition start_sensor_update : M unit :=
  set_next_state_ UPDATE_STATES ;;
  modify (set_sensors_iterator_ 0%nat).

Definition loop_MODE_D_WAIT : M unit :=
  frame_size <- receive_frame_ h ;;
  if (0 <? frame_size)%nat then
    packet <- get_id_ h frame_size ;;
    match packet with
    | Some p =>
        parse_id_ h p ;;
        set_next_state_ MODE_D_READOUT ;;
        update_last_transmission_from_meter_timestamp_ ;;
        now <- millis ;;
        modify (set_retry_connection_start_timestamp_ now) ;;
        connection_status_ true ;;
        modify (set_mode_d_empty_frame_received false)
    | None => ret tt
    end
  else ret tt.

Definition loop_MODE_D_READOUT : M unit :=
  frame_size <- receive_frame_ h ;;
  if (0 <? frame_size)%nat then
    s <- get id ;;
    if aget (in_buf_ s) 0 =? byte_of "!" then
      connection_status_ false ;;
      _ <- millis ;;
      start_sensor_update
    else
      line <- terminate_line frame_size ;;
      s <- get id ;;
      if negb (mode_d_empty_frame_received s) && (0 =? aget (in_buf_ s) 0) then
        emit LOG_ignore_empty_frame ;;
        modify (set_mode_d_empty_frame_received true)
      else
        match parse_line_ line with
        | None => emit (LOG_invalid_frame_format line)
        | Some (obis, val1, val2) => update_matching_sensors obis val1 val2
        end
  else ret tt.

Definition loop_BEGIN : M unit :=
  modify (set_current_obis_index_ 0) ;;
  update_connection_start_timestamp_ ;;
  connection_status_ true ;;
  s <- get id ;;
  (if battery_meter_ (cfg s) then set_next_state_ BATTERY_WAKEUP
   else set_next_state_ SEND_REQUEST) ;;
  update_baudrate_ 300 ;;
  update_last_transmission_from_meter_timestamp_.

Definition loop_BATTERY_WAKEUP : M unit :=
  send_battery_wakeup_sequence_ ;;
  wait_ (1600 + 2240) SEND_REQUEST.

Definition loop_SEND_REQUEST : M unit :=
  clear_uart_input_buffer_ h ;;
  modify (fun s => set_out_buf_ (memcpy (out_buf_ s) id_request) s) ;;
  modify (set_data_out_size_ (length id_request)) ;;
  send_frame_ ;;
  set_next_state_ GET_IDENTIFICATION.

Definition loop_GET_IDENTIFICATION : M unit :=
  frame_size <- receive_frame_ h ;;
  if (0 <? frame_size)%nat then
    packet <- get_id_ h frame_size ;;
    match packet with
    | Some p =>
        parse_id_ h p ;;
        set_next_state_ PREPARE_ACK
    | None =>
        emit LOG_invalid_identification_frame ;;
        retry_or_sleep_
    end
  else ret tt.

Definition loop_PREPARE_ACK : M unit :=
  s <- get id ;;
  if ProtocolMode_eqb (mode_ s) PROTOCOL_MODE_A then
    set_next_state_ WAIT_FOR_STX
  else
    (if negb (config_baud_rate_max_bps_ (cfg s) =? 0)
        && negb (config_baud_rate_max_bps_ (cfg s) =? MAX_BAUDRATE) then
       let negotiated_bps := identification_to_baud_rate_ h (baud_rate_identification_ s) in
       let negotiated_bps :=
         if config_baud_rate_max_bps_ (cfg s) <? negotiated_bps then
           let negotiated_bps := config_baud_rate_max_bps_ (cfg s) in
           if ProtocolMode_eqb (mode_ s) PROTOCOL_MODE_B
              && (negotiated_bps <? PROTO_B_MIN_BAUDRATE)
           then PROTO_B_MIN_BAUDRATE else negotiated_bps
         else negotiated_bps in
       modify (set_baud_rate_char (baud_rate_to_identification_ h (mode_ s) negotiated_bps))
     else
       modify (set_baud_rate_char (baud_rate_identification_ s))) ;;
    modify (set_data_out_size_ (length set_baud_and_programm)) ;;
    modify (fun s => set_out_buf_ (memcpy (out_buf_ s) set_baud_and_programm) s) ;;
    modify (fun s => set_out_buf_ (aset (out_buf_ s) 2 (baud_rate_char s)) s) ;;
    send_frame_ ;;
    modify (fun s => set_new_baudrate (identification_to_baud_rate_ h (baud_rate_char s)) s) ;;
    wait_ 250 SET_BAUD_RATE.

Definition loop_SET_BAUD_RATE : M unit :=
  s <- get id ;;
  update_baudrate_ (new_baudrate s) ;;
  set_next_state_ WAIT_FOR_PPP.

Definition loop_WAIT_FOR_PPP : M unit :=
  frame_size <- receive_frame_ h ;;
  if (1 <=? frame_size)%nat then
    s <- get id ;;
    if SOH =? aget (in_buf_ s) 0 then set_next_state_ WAIT_FOR_PPP_READ_DATA
    else
      emit (LOG_no_PPP (aget (in_buf_ s) 0)) ;;
      retry_or_sleep_
  else ret tt.

Definition loop_WAIT_FOR_PPP_READ_DATA : M unit :=
  frame_size <- receive_frame_ h ;;
  if (1 <=? frame_size)%nat then
    s <- get id ;;
    if byte_of "(" =? aget (in_buf_ s) 0 then set_next_state_ SEND_PASSWORD
    else
      emit (LOG_no_data (aget (in_buf_ s) 0)) ;;
      retry_or_sleep_
  else ret tt.

Definition loop_SEND_PASSWORD : M unit :=
  modify (set_data_out_size_ (length set_password)) ;;
  modify (fun s => set_out_buf_ (memcpy (out_buf_ s) set_password) s) ;;
  send_frame_ ;;
  set_next_state_ WAIT_FOR_ACK.

Definition loop_WAIT_FOR_ACK : M unit :=
  frame_size <- receive_frame_ h ;;
  if (1 <=? frame_size)%nat then
    s <- get id ;;
    if ACK =? aget (in_buf_ s) 0 then
      emit LOG_meter_accepted_password ;;
      set_next_state_ ASK_FOR_ENERGY
    else
      emit (LOG_meter_rejected_password (aget (in_buf_ s) 0))
  else ret tt.

Definition loop_WAIT_FOR_STX2 : M unit :=
  frame_size <- receive_frame_ h ;;
  if (1 <=? frame_size)%nat then
    s <- get id ;;
    if STX =? aget (in_buf_ s) 0 then set_next_state_ READOUT2
    else
      emit (LOG_no_STX (aget (in_buf_ s) 0)) ;;
      retry_or_sleep_
  else ret tt.

Definition loop_READOUT2 : M unit :=
  frame_size <- receive_frame_ h ;;
  if (1 <=? frame_size)%nat then set_next_state_ ASK_FOR_ENERGY else ret tt.

Definition loop_ASK_FOR_ENERGY : M unit :=
  s <- get id ;;
  build_readout_command_ (nth (Z.to_nat (current_obis_index_ s)) obis_codes_ []) ;;
  send_frame_ ;;
  set_next_state_ WAIT_FOR_STX.

Definition loop_WAIT_FOR_STX : M unit :=
  frame_size <- receive_frame_ h ;;
  if (1 <=? frame_size)%nat then
    s <- get id ;;
    if STX =? aget (in_buf_ s) 0 then set_next_state_ READOUT
    else
      emit (LOG_no_STX (aget (in_buf_ s) 0)) ;;
      retry_or_sleep_
  else ret tt.

Definition loop_READOUT : M unit :=
  frame_size <- receive_frame_ h ;;
  if (0 <? frame_size)%nat then
    s <- get id ;;
    if (2 <=? frame_size)%nat && (aget (in_buf_ s) (Z.of_nat frame_size - 2) =? ETX) then
      _ <- millis ;;
      modify (set_lrc_ 0) ;;
      modify (fun s => set_lrc_ (update_lrc (lrc_ s) (take (frame_size - 1) (in_buf_ s))) s) ;;
      s <- get id ;;
      (if lrc_ s =? readout_lrc_ s then emit LOG_bcc_ok
       else emit (LOG_bcc_failed (lrc_ s) (readout_lrc_ s))) ;;
      line <- terminate_line frame_size ;;
      match parse_line_ line with
      | None => emit (LOG_invalid_frame_format line)
      | Some (obis, val1, val2) => update_matching_sensors obis val1 val2
      end ;;
      connection_status_ false ;;
      modify (fun s => set_current_obis_index_ (current_obis_index_ s + 1) s) ;;
      s <- get id ;;
      if current_obis_index_ s <? num_obis_codes_ then set_next_state_ ASK_FOR_ENERGY
      else start_sensor_update
    else
      modify (fun s => set_lrc_ (update_lrc (lrc_ s) (take frame_size (in_buf_ s))) s) ;;
      line <- terminate_line frame_size ;;
      match parse_line_ line with
      | None => emit (LOG_invalid_frame_format line)
      | Some (obis, val1, val2) => update_matching_sensors obis val1 val2
      end
  else ret tt.

Definition loop_UPDATE_STATES : M unit :=
  s <- get id ;;
  match nth_error (sensors_ s) (sensors_iterator_ s) with
  | Some x =>
      modify (set_sensors_iterator_ (sensors_iterator_ s + 1)) ;;
      match value x with
      | Some v => emit (PUBLISH (get_obis x) v)
      | None => ret tt
      end
  | None => wait_next_readout_
  end.

(** One call of [loop()]. *)
Definition loop : M unit :=
  now <- millis ;;
  waiting <- is_wait_state_ ;;
  s <- get id ;;
  if negb waiting
     && (connection_timeout_ms_ (cfg s)
         <=? u32 (now - last_transmission_from_meter_timestamp_ s)) then
    emit LOG_no_transmission_from_meter ;;
    connection_status_ false ;;
    retry_or_sleep_
  else
    match state_ s with
    | INFINITE_WAIT => update_last_transmission_from_meter_timestamp_
    | WAIT =>
        expired <- check_wait_period_ ;;
        when expired (modify (fun s => set_state_ (wait_next_state_ s) s)) ;;
        update_last_transmission_from_meter_timestamp_
    | MODE_D_WAIT => loop_MODE_D_WAIT
    | MODE_D_READOUT => loop_MODE_D_READOUT
    | BEGIN => loop_BEGIN
    | BATTERY_WAKEUP => loop_BATTERY_WAKEUP
    | SEND_REQUEST => loop_SEND_REQUEST
    | GET_IDENTIFICATION => loop_GET_IDENTIFICATION
    | PREPARE_ACK => loop_PREPARE_ACK
    | SET_BAUD_RATE => loop_SET_BAUD_RATE
    | WAIT_FOR_PPP => loop_WAIT_FOR_PPP
    | WAIT_FOR_PPP_READ_DATA => loop_WAIT_FOR_PPP_READ_DATA
    | SEND_PASSWORD => loop_SEND_PASSWORD
    | WAIT_FOR_ACK => loop_WAIT_FOR_ACK
    | WAIT_FOR_STX2 => loop_WAIT_FOR_STX2
    | READOUT2 => loop_READOUT2
    | ASK_FOR_ENERGY => loop_ASK_FOR_ENERGY
    | WAIT_FOR_STX => loop_WAIT_FOR_STX
    | READOUT => loop_READOUT
    | UPDATE_STATES => loop_UPDATE_STATES
    end.


(** The environment between two calls of [loop()]: bytes arrive on the
    line. *)
Definition arrive (bytes : list Z) : M unit :=
  modify (fun s => set_uart (set_rx (rx (uart s) ++ bytes) (uart s)) s).

(** A session: one call of [loop()] for each element of [feed], made
    after the bytes of the element have arrived. *)
Fixpoint session (feed : list (list Z)) : M unit :=
  match feed with
  | [] => ret tt
  | bytes :: rest => arrive bytes ;; loop ;; session rest
  end.
End Session.

(** ** Vocabulary of the properties *)

Definition or_else (a b : option nat) : option nat :=
  match a with Some x => Some x | None => b end.

(** The bytes the frame assembler has accumulated, and the outgoing
    frame the component holds (what [send_frame_] last wrote, until an
    echo is recognised). *)
Definition accumulated (s : Component) : list Z := take (data_in_size_ s) (in_buf_ s).
Definition out_frame (s : Component) : list Z := take (data_out_size_ s) (out_buf_ s).

(** The buffers have their declared sizes and the two byte counts are
    within them. *)
Record buffers_ok (h : Header) (s : Component) : Prop := {
  in_buf_size : length (in_buf_ s) = MAX_IN_BUF_SIZE h;
  in_size_le : (data_in_size_ s <= MAX_IN_BUF_SIZE h)%nat;
  in_buf_nonempty : (0 < MAX_IN_BUF_SIZE h)%nat;
  out_size_le : (data_out_size_ s <= length (out_buf_ s))%nat
}.

(** Appending a byte to a full accumulator evicts its oldest byte. *)
Definition slide (h : Header) (acc : list Z) : list Z :=
  if (length acc <? MAX_IN_BUF_SIZE h)%nat then acc else drop 1 acc.

Fixpoint accumulate (h : Header) (acc : list Z) (bytes : list Z) : list Z :=
  match bytes with
  | [] => acc
  | b :: bytes' => accumulate h (slide h acc ++ [b]) bytes'
  end.

(** The four terminator tests of [receive_frame_], on the accumulated
    bytes as a list. *)
Definition last_byte (acc : list Z) : Z := aget acc (Z.of_nat (length acc) - 1).
Definition before_last_byte (acc : list Z) : Z := aget acc (Z.of_nat (length acc) - 2).

Definition completes (acc : list Z) : bool :=
  (last_byte acc =? ACK)
  || ((2 <=? length acc)%nat && (ETX =? before_last_byte acc))
  || (STX =? last_byte acc)
  || ((2 <=? length acc)%nat && (CR =? before_last_byte acc) && (LF =? last_byte acc)).

(** No frame is completed while the bytes [pre] are accumulated one
    after the other onto [acc]. *)
Fixpoint quiet (h : Header) (acc : list Z) (pre : list Z) : Prop :=
  match pre with
  | [] => True
  | b :: pre' =>
      completes (slide h acc ++ [b]) = false /\ quiet h (slide h acc ++ [b]) pre'
  end.

(** The readings [t], ..., [t + n - 1] of the clock are within the
    time budget of [receive_frame_] counted from [while_start]. *)
Definition in_budget (clk : nat -> Z) (while_start : Z) (t n : nat) : Prop :=
  forall k, (k < n)%nat -> u32 (u32 (clk (t + k)%nat) - while_start) <= max_while_ms.

(** [s1] is [s] but for the receive side: the UART, [in_buf_] and
    [data_in_size_]. *)
Definition receive_side_only (s s1 : Component) : Prop :=
  s1 = set_uart (uart s1) (set_data_in_size_ (data_in_size_ s1) (set_in_buf_ (in_buf_ s1) s)).

(** A component to evaluate the model on: every field zero, empty or
    false, the buffers of the sizes of the header, in state [st] with
    the given configuration, receive buffer content and clock. *)
Definition sample_config (mode_d : bool) (max_retries : Z) : Config :=
  {| force_mode_d_ := mode_d; battery_meter_ := false;
     config_baud_rate_max_bps_ := 0; connection_timeout_ms_ := 3000;
     max_retries_ := max_retries; retry_delay_ := 1000;
     update_interval_ms_ := 60000 |}.

Definition sample_component (h : Header) (c : Config) (st : CommState)
    (bytes : list Z) (clk : nat -> Z) : Component :=
  {| cfg := c;
     uart := {| rx := bytes; tx := []; baud := 300; clock := clk; ticks := 0 |};
     trace := [];
     state_ := st;
     in_buf_ := repeat 0 (MAX_IN_BUF_SIZE h); data_in_size_ := 0;
     out_buf_ := repeat 0 (MAX_OUT_BUF_SIZE h); data_out_size_ := 0;
     readout_lrc_ := 0; lrc_ := 0;
     mode_ := PROTOCOL_MODE_A; baud_rate_identification_ := 0;
     meter_identification_ := [];
     retry_counter_ := 0; current_obis_index_ := 0;
     wait_start_timestamp_ := 0; wait_period_ms_ := 0; wait_next_state_ := BEGIN;
     last_transmission_from_meter_timestamp_ := 0;
     retry_connection_start_timestamp_ := 0;
     scheduled_connection_start_timestamp_ := 0;
     scheduled_timestamp_set_ := false;
     sensors_ := []; sensors_iterator_ := 0;
     baud_rate_char := 0; mode_d_empty_frame_received := false;
     new_baudrate := 0;
     wrote_outside_in_buf := false |}.

(** The component after one turn of the loop has stored the byte [b]. *)
Definition pushed (h : Header) (b : Z) (rest : list Z) (s : Component) : Component :=
  snd ((make_room h ;; store_byte h b rest) s).

(** [s1] is [s] but for what the frame assembler may write. *)
Definition assembler_only (s s1 : Component) : Prop :=
  s1 = set_uart (uart s1) (set_trace (trace s1)
         (set_in_buf_ (in_buf_ s1) (set_data_in_size_ (data_in_size_ s1)
         (set_data_out_size_ (data_out_size_ s1) (set_readout_lrc_ (readout_lrc_ s1)
         (set_lrc_ (lrc_ s1)
         (set_last_transmission_from_meter_timestamp_
            (last_transmission_from_meter_timestamp_ s1) s))))))).

(** The baud-rate character [PREPARE_ACK] settles on. *)
Definition negotiated_char (h : Header) (s : Component) : Z :=
  if negb (config_baud_rate_max_bps_ (cfg s) =? 0)
     && negb (config_baud_rate_max_bps_ (cfg s) =? MAX_BAUDRATE) then
    let bps := identification_to_baud_rate_ h (baud_rate_identification_ s) in
    baud_rate_to_identification_ h (mode_ s)
      (if config_baud_rate_max_bps_ (cfg s) <? bps then
         if ProtocolMode_eqb (mode_ s) PROTOCOL_MODE_B
            && (config_baud_rate_max_bps_ (cfg s) <? PROTO_B_MIN_BAUDRATE)
         then PROTO_B_MIN_BAUDRATE else config_baud_rate_max_bps_ (cfg s)
       else bps)
  else baud_rate_identification_ s.

(** The global guard of [loop()] fires at the next tick: the state is
    not a waiting one and the meter has been silent for the connection
    timeout. *)
Definition timed_out (s : Component) : Prop :=
  state_ s <> WAIT /\ state_ s <> INFINITE_WAIT /\
  connection_timeout_ms_ (cfg s)
  <= u32 (u32 (clock (uart s) (ticks (uart s))) - last_transmission_from_meter_timestamp_ s).

(** The component when that guard calls [retry_or_sleep_]: the clock
    has been read and the failure logged. *)
Definition at_timeout (s : Component) : Component :=
  snd ((emit LOG_no_transmission_from_meter ;; connection_status_ false) (snd (millis s))).




(** A half-duplex line: the identification request has been sent and
    comes back on the receive side. *)
Definition echoed_request : Component :=
  let s := snd (loop_SEND_REQUEST sample_header
                  (sample_component sample_header (sample_config false 2) SEND_REQUEST []
                     (fun _ => 0))) in
  set_uart (set_rx (concat (tx (uart s))) (uart s)) s.



(** ** Start-up *)

Section Setup.
Context (h : Header).

(** [setup()]: the UART wrapper it creates is the environment here. *)
Definition setup : M unit :=
  update_last_transmission_from_meter_timestamp_ ;;
  clear_uart_input_buffer_ h ;;
  s <- get id ;;
  if force_mode_d_ (cfg s) then set_next_state_ MODE_D_WAIT
  else
    periodic <- is_periodic_readout_enabled_ ;;
    if periodic then wait_ 15000 BEGIN else set_next_state_ INFINITE_WAIT.
End Setup.

(** ** Failing and calm calls *)

Section Cycle.
Context (h : Header).




End Cycle.

(** ** Vocabulary of the further properties *)

(** The characters [validate_float_] lets through, and the part of a
    value it looks at: the characters before the first ['*']. *)
Definition float_char (c : Z) : bool :=
  isdigit c || (c =? byte_of ".") || (c =? byte_of "-").

Fixpoint before_star (value : list Z) : list Z :=
  match value with
  | [] => []
  | c :: value' => if c =? byte_of "*" then [] else c :: before_star value'
  end.

(** A text without round brackets. *)
Definition no_bracket (l : list Z) : bool :=
  forallb (fun c => negb (c =? byte_of "(") && negb (c =? byte_of ")")) l.

(** A numeric sensor holds no value or one [validate_float_]
    accepts. *)
Definition numeric_ok (x : Sensor) : Prop :=
  get_type x = SENSOR -> forall v, value x = Some v -> validate_float_ v = true.

(** The last [n] elements of a list (the whole list when it is
    shorter). *)
Definition last_n (n : nat) (l : list Z) : list Z := drop (length l - n) l.

(** The lowest rate a mode can select and the table rates it can
    select: mode B starts at the second entry of [BAUDRATES]. *)
Definition lowest_rate (mode : ProtocolMode) : Z :=
  if ProtocolMode_eqb PROTOCOL_MODE_B mode then aget BAUDRATES 1 else aget BAUDRATES 0.

Definition mode_rates (mode : ProtocolMode) : list Z :=
  if ProtocolMode_eqb PROTOCOL_MODE_B mode then drop 1 BAUDRATES else BAUDRATES.

(** [n] runs of an action in a row. *)
Fixpoint times (n : nat) (m : M unit) : M unit :=
  match n with
  | O => ret tt
  | S n' => m ;; times n' m
  end.

(** The publications of the sensors that hold a value, in order. *)
Definition publications (xs : list Sensor) : list Event :=
  flat_map (fun x => match value x with
                     | Some v => [PUBLISH (get_obis x) v]
                     | None => []
                     end) xs.

(** [s1] has the control fields of [s]: the configuration, the state
    and the state waited for, the OBIS index, the retry counter, on the
    line what was transmitted and the rate, the sensors, and whether a
    write has landed outside [in_buf_]. *)
Definition same_control (s s1 : Component) : Prop :=
  cfg s1 = cfg s /\ state_ s1 = state_ s /\ wait_next_state_ s1 = wait_next_state_ s /\
  current_obis_index_ s1 = current_obis_index_ s /\ retry_counter_ s1 = retry_counter_ s /\
  tx (uart s1) = tx (uart s) /\ baud (uart s1) = baud (uart s) /\
  sensors_ s1 = sensors_ s /\ wrote_outside_in_buf s1 = wrote_outside_in_buf s.

(** An action that leaves the control fields alone. *)
Definition quiet_call {A} (m : M A) : Prop := forall s, same_control s (snd (m s)).

(** [Q] holds after the action [m] is run from [s]. *)
Definition post {A} (Q : Component -> Prop) (m : M A) (s : Component) : Prop :=
  Q (snd (m s)).

(** The states of a forced mode D session. *)
Definition mode_d_state (st : CommState) : Prop :=
  st = MODE_D_WAIT \/ st = MODE_D_READOUT \/ st = UPDATE_STATES.

(** The component [s] of a forced mode D session that started from
    [s0], as long as no write has landed outside [in_buf_]. *)
Definition mode_d_inv (s0 s : Component) : Prop :=
  wrote_outside_in_buf s = false ->
  force_mode_d_ (cfg s) = true /\ mode_d_state (state_ s) /\
  tx (uart s) = tx (uart s0) /\ baud (uart s) = baud (uart s0) /\
  retry_counter_ s = retry_counter_ s0.

(** The states from which a readout command can be reached without
    the OBIS index being reset first. *)
Definition needs_index (st : CommState) : bool :=
  match st with
  | BEGIN | WAIT | INFINITE_WAIT | UPDATE_STATES | MODE_D_WAIT | MODE_D_READOUT => false
  | _ => true
  end.

(** The OBIS index is within the table in every state that can reach
    a readout command without passing through [BEGIN], and in a timed
    wait for such a state. *)
Definition index_ok (st next : CommState) (i : Z) : Prop :=
  (needs_index st = true -> 0 <= i < num_obis_codes_) /\
  (st = WAIT -> needs_index next = true -> 0 <= i < num_obis_codes_).

Definition index_inv (s : Component) : Prop :=
  index_ok (state_ s) (wait_next_state_ s) (current_obis_index_ s).

(** The same as long as no write has landed outside [in_buf_]. *)
Definition index_kept (s : Component) : Prop :=
  wrote_outside_in_buf s = false -> index_inv s.

(** The states whose handler transmits. *)
Definition sending_state (st : CommState) : bool :=
  match st with
  | BATTERY_WAKEUP | SEND_REQUEST | PREPARE_ACK | SEND_PASSWORD | ASK_FOR_ENERGY => true
  | _ => false
  end.

(** What one call of [loop()] may do to the line, as long as no write
    has landed outside [in_buf_]: transmit nothing, or one frame from a
    sending state; leave the rate, or set it to 300 in [BEGIN] or to
    the negotiated rate in [SET_BAUD_RATE]. *)
Definition line_step (s s' : Component) : Prop :=
  wrote_outside_in_buf s' = false ->
  (tx (uart s') = tx (uart s) \/
   (sending_state (state_ s) = true /\ exists f, tx (uart s') = tx (uart s) ++ [f])) /\
  (baud (uart s') = baud (uart s) \/
   (state_ s = BEGIN /\ baud (uart s') = 300) \/
   (state_ s = SET_BAUD_RATE /\ baud (uart s') = new_baudrate s)).

(** The line and the sensors are as in [s]. *)
Definition line_kept (s s' : Component) : Prop :=
  tx (uart s') = tx (uart s) /\ baud (uart s') = baud (uart s) /\
  sensors_ s' = sensors_ s.

(** The sensors are as in [s] unless [s] is in a state that reads data
    lines. *)
Definition sensors_step (s s' : Component) : Prop :=
  state_ s <> READOUT -> state_ s <> MODE_D_READOUT -> sensors_ s' = sensors_ s.


(** * Properties *)

(** Reduction of field reads through field writes. *)
Ltac fields :=
  cbn [
    cfg uart trace state_ in_buf_ data_in_size_ out_buf_ data_out_size_
    readout_lrc_ lrc_ mode_ baud_rate_identification_ meter_identification_
    retry_counter_ current_obis_index_ wait_start_timestamp_
    wait_period_ms_ wait_next_state_
    last_transmission_from_meter_timestamp_
    retry_connection_start_timestamp_ scheduled_connection_start_timestamp_
    scheduled_timestamp_set_ sensors_ sensors_iterator_ baud_rate_char
    mode_d_empty_frame_received new_baudrate wrote_outside_in_buf set_uart set_trace set_state_
    set_in_buf_ set_data_in_size_ set_out_buf_ set_data_out_size_
    set_readout_lrc_ set_lrc_ set_mode_ set_baud_rate_identification_
    set_meter_identification_ set_retry_counter_ set_current_obis_index_
    set_wait_start_timestamp_ set_wait_period_ms_ set_wait_next_state_
    set_last_transmission_from_meter_timestamp_
    set_retry_connection_start_timestamp_
    set_scheduled_connection_start_timestamp_ set_scheduled_timestamp_set_
    set_sensors_ set_sensors_iterator_ set_baud_rate_char
    set_mode_d_empty_frame_received set_new_baudrate set_wrote_outside_in_buf
    rx tx baud clock ticks
    set_rx set_tx set_baud set_ticks fst snd ].

Ltac fields_in H :=
  cbn [
    cfg uart trace state_ in_buf_ data_in_size_ out_buf_ data_out_size_
    readout_lrc_ lrc_ mode_ baud_rate_identification_ meter_identification_
    retry_counter_ current_obis_index_ wait_start_timestamp_
    wait_period_ms_ wait_next_state_
    last_transmission_from_meter_timestamp_
    retry_connection_start_timestamp_ scheduled_connection_start_timestamp_
    scheduled_timestamp_set_ sensors_ sensors_iterator_ baud_rate_char
    mode_d_empty_frame_received new_baudrate wrote_outside_in_buf set_uart set_trace set_state_
    set_in_buf_ set_data_in_size_ set_out_buf_ set_data_out_size_
    set_readout_lrc_ set_lrc_ set_mode_ set_baud_rate_identification_
    set_meter_identification_ set_retry_counter_ set_current_obis_index_
    set_wait_start_timestamp_ set_wait_period_ms_ set_wait_next_state_
    set_last_transmission_from_meter_timestamp_
    set_retry_connection_start_timestamp_
    set_scheduled_connection_start_timestamp_ set_scheduled_timestamp_set_
    set_sensors_ set_sensors_iterator_ set_baud_rate_char
    set_mode_d_empty_frame_received set_new_baudrate set_wrote_outside_in_buf
    rx tx baud clock ticks
    set_rx set_tx set_baud set_ticks fst snd ] in H.

(** Unfolding of the monadic combinators. *)
Ltac run := cbv [bind ret get modify when emit id]; cbn [fst snd].

Lemma update_lrc_app lrc a b :
  update_lrc lrc (a ++ b) = update_lrc (update_lrc lrc a) b.
Proof. revert lrc. induction a as [|x a IH]; intros lrc; simpl; [reflexivity | apply IH]. Qed.

(** C6: for every byte sequence, the checksum of the sequence followed
    by its own checksum byte is zero. *)
Theorem xor_checksum_self_inverse (bs : list Z) :
  xor_checksum (bs ++ [xor_checksum bs]) = 0.
Proof.
  unfold xor_checksum. rewrite update_lrc_app. simpl.
  apply Z.lxor_nilpotent.
Qed.

Section BaudNegotiatorFacts.
Context (h : Header) (Hh : header_ok h).

Lemma in_range_B_true z :
  PROTO_B_RANGE_BEGIN h <= z <= PROTO_B_RANGE_END h -> in_range_B h z = true.
Proof. intros Hz. unfold in_range_B. apply andb_true_intro. split; apply Z.leb_le; lia. Qed.

Lemma in_range_C_true z :
  PROTO_C_RANGE_BEGIN h <= z <= PROTO_C_RANGE_END h -> in_range_C h z = true.
Proof. intros Hz. unfold in_range_C. apply andb_true_intro. split; apply Z.leb_le; lia. Qed.

Lemma in_range_B_false_of_C z :
  PROTO_C_RANGE_BEGIN h <= z <= PROTO_C_RANGE_END h -> in_range_B h z = false.
Proof.
  intros Hz. unfold in_range_B. destruct (hBC_disjoint h Hh).
  - replace (z <=? PROTO_B_RANGE_END h) with false; [apply andb_false_r|].
    symmetry. apply Z.leb_gt. lia.
  - replace (PROTO_B_RANGE_BEGIN h <=? z) with false; [reflexivity|].
    symmetry. apply Z.leb_gt. lia.
Qed.

Ltac eval_find_baud :=
  cbv [ProtocolMode_eqb];
  match goal with
  | |- context [find_baud ?r ?i ?t] =>
      let v := eval vm_compute in (find_baud r i t) in
      change (find_baud r i t) with v
  end; cbv beta iota.

Lemma u8_small x : 0 <= x < 256 -> u8 x = x.
Proof. intros Hx. unfold u8. apply Z.mod_small. lia. Qed.

(** The rate of a mode B character, by its offset in the range. *)
Lemma rate_of_B k :
  0 <= k <= PROTO_B_RANGE_END h - PROTO_B_RANGE_BEGIN h ->
  identification_to_baud_rate_ h (PROTO_B_RANGE_BEGIN h + k) = aget BAUDRATES (1 + k).
Proof.
  intros Hk. unfold identification_to_baud_rate_.
  rewrite in_range_B_true by lia. f_equal. lia.
Qed.

Lemma rate_of_C k :
  0 <= k <= PROTO_C_RANGE_END h - PROTO_C_RANGE_BEGIN h ->
  identification_to_baud_rate_ h (PROTO_C_RANGE_BEGIN h + k) = aget BAUDRATES k.
Proof.
  intros Hk. unfold identification_to_baud_rate_.
  rewrite in_range_B_false_of_C, in_range_C_true by lia. f_equal. lia.
Qed.

(** The character of a table rate, by its index. *)
Lemma char_of_B k :
  0 <= k <= PROTO_B_RANGE_END h - PROTO_B_RANGE_BEGIN h ->
  baud_rate_to_identification_ h PROTOCOL_MODE_B (aget BAUDRATES (1 + k))
  = PROTO_B_RANGE_BEGIN h + k.
Proof.
  intros Hk. pose proof (hB_fit h Hh). pose proof (hB_lo h Hh). pose proof (hB_hi h Hh).
  assert (Hc : k = 0 \/ k = 1 \/ k = 2 \/ k = 3 \/ k = 4 \/ k = 5) by lia.
  unfold baud_rate_to_identification_.
  destruct Hc as [-> | [-> | [-> | [-> | [-> | ->]]]]]; eval_find_baud;
    rewrite u8_small by lia; lia.
Qed.

Lemma char_of_C k :
  0 <= k <= PROTO_C_RANGE_END h - PROTO_C_RANGE_BEGIN h ->
  baud_rate_to_identification_ h PROTOCOL_MODE_C (aget BAUDRATES k)
  = PROTO_C_RANGE_BEGIN h + k.
Proof.
  intros Hk. pose proof (hC_fit h Hh). pose proof (hC_lo h Hh). pose proof (hC_hi h Hh).
  assert (Hc : k = 0 \/ k = 1 \/ k = 2 \/ k = 3 \/ k = 4 \/ k = 5 \/ k = 6) by lia.
  unfold baud_rate_to_identification_.
  destruct Hc as [-> | [-> | [-> | [-> | [-> | [-> | ->]]]]]]; eval_find_baud;
    rewrite u8_small by lia; lia.
Qed.

(** C7: in mode B and in mode C, character to rate to character is
    the identity on the characters of the mode's range, and rate to
    character to rate is the identity on the table rates these
    characters select (from the second entry in mode B, from the
    first in mode C). *)
Theorem baud_char_rate_inverse :
  (forall z, PROTO_B_RANGE_BEGIN h <= z <= PROTO_B_RANGE_END h ->
     baud_rate_to_identification_ h PROTOCOL_MODE_B (identification_to_baud_rate_ h z) = z) /\
  (forall z, PROTO_C_RANGE_BEGIN h <= z <= PROTO_C_RANGE_END h ->
     baud_rate_to_identification_ h PROTOCOL_MODE_C (identification_to_baud_rate_ h z) = z) /\
  (forall i, 1 <= i <= 1 + (PROTO_B_RANGE_END h - PROTO_B_RANGE_BEGIN h) ->
     identification_to_baud_rate_ h
       (baud_rate_to_identification_ h PROTOCOL_MODE_B (aget BAUDRATES i))
     = aget BAUDRATES i /\ 600 <= aget BAUDRATES i) /\
  (forall i, 0 <= i <= PROTO_C_RANGE_END h - PROTO_C_RANGE_BEGIN h ->
     identification_to_baud_rate_ h
       (baud_rate_to_identification_ h PROTOCOL_MODE_C (aget BAUDRATES i))
     = aget BAUDRATES i /\ 300 <= aget BAUDRATES i).
Proof.
  repeat split.
  - intros z Hz.
    replace z with (PROTO_B_RANGE_BEGIN h + (z - PROTO_B_RANGE_BEGIN h)) at 1 by lia.
    rewrite rate_of_B, char_of_B by lia. lia.
  - intros z Hz.
    replace z with (PROTO_C_RANGE_BEGIN h + (z - PROTO_C_RANGE_BEGIN h)) at 1 by lia.
    rewrite rate_of_C, char_of_C by lia. lia.
  - replace i with (1 + (i - 1)) by lia.
    rewrite char_of_B, rate_of_B by lia. reflexivity.
  - pose proof (hB_fit h Hh).
    assert (Hc : i = 1 \/ i = 2 \/ i = 3 \/ i = 4 \/ i = 5 \/ i = 6) by lia.
    destruct Hc as [-> | [-> | [-> | [-> | [-> | ->]]]]];
      apply Z.leb_le; vm_compute; reflexivity.
  - rewrite char_of_C, rate_of_C by lia. reflexivity.
  - pose proof (hC_fit h Hh).
    assert (Hc : i = 0 \/ i = 1 \/ i = 2 \/ i = 3 \/ i = 4 \/ i = 5 \/ i = 6) by lia.
    destruct Hc as [-> | [-> | [-> | [-> | [-> | [-> | ->]]]]]];
      apply Z.leb_le; vm_compute; reflexivity.
Qed.
End BaudNegotiatorFacts.

Lemma sample_header_ok : header_ok sample_header.
Proof. constructor; cbn; lia. Qed.

(** ** Data-line parser *)

Example parse_line_energy :
  parse_line_ (bytes_of "1.8.0(001234.567*kWh)")
  = Some (bytes_of "1.8.0", bytes_of "001234.567*kWh", []).
Proof. vm_compute. reflexivity. Qed.

Example validate_float_examples :
  validate_float_ (bytes_of "001234.567*kWh") = true /\
  validate_float_ (bytes_of "12a34") = false.
Proof. split; vm_compute; reflexivity. Qed.

Example parse_line_nested :
  parse_line_ (bytes_of "X((a)b)") = Some (bytes_of "X", bytes_of "(a", bytes_of "a)b").
Proof. vm_compute. reflexivity. Qed.

(** The scan from any offset and any pointers already set: a set
    pointer is kept, a null first pointer takes the next occurrence, a
    null second pointer takes the next occurrence after the one the
    first pointer takes. *)
Lemma scan_brackets_occurrence line : forall p b,
  scan_brackets line p b =
  {| open_bracket := or_else (open_bracket b) (occurrence (byte_of "(") 0 p line);
     close_bracket := or_else (close_bracket b) (occurrence (byte_of ")") 0 p line);
     open_bracket2 :=
       or_else (open_bracket2 b)
         (occurrence (byte_of "(") (if is_null (open_bracket b) then 1 else 0) p line);
     close_bracket2 :=
       or_else (close_bracket2 b)
         (occurrence (byte_of ")") (if is_null (close_bracket b) then 1 else 0) p line) |}.
Proof.
  induction line as [|c line IH]; intros p b.
  - destruct b as [[?|] [?|] [?|] [?|]]; reflexivity.
  - cbn [scan_brackets occurrence]. rewrite IH. unfold scan_char.
    destruct (Z.eqb_spec (byte_of "(") c) as [<-|Ho].
    + change (byte_of ")" =? byte_of "(") with false.
      destruct b as [[?|] [?|] [?|] [?|]]; reflexivity.
    + destruct (Z.eqb_spec (byte_of ")") c) as [<-|Hc];
        destruct b as [[?|] [?|] [?|] [?|]]; reflexivity.
Qed.

(** C9, as the code has it: the scan records the first and the second
    ['('] of the line, and the first and the second [')'] of the line,
    each whatever the other brackets are; value 2 is the text between
    the second ['('] and the second [')'] when both exist in that
    order, and empty otherwise. *)
Theorem parse_line_second_pair (line : list Z) :
  let b := scan_brackets line 0 no_brackets in
  open_bracket b = occurrence (byte_of "(") 0 0 line /\
  close_bracket b = occurrence (byte_of ")") 0 0 line /\
  open_bracket2 b = occurrence (byte_of "(") 1 0 line /\
  close_bracket2 b = occurrence (byte_of ")") 1 0 line /\
  forall obis v1 v2, parse_line_ line = Some (obis, v1, v2) ->
    v2 = match occurrence (byte_of "(") 1 0 line, occurrence (byte_of ")") 1 0 line with
         | Some ob2, Some cb2 =>
             if (ob2 <? cb2)%nat then substr line (ob2 + 1) cb2 else []
         | _, _ => []
         end.
Proof.
  cbv zeta. unfold parse_line_. rewrite scan_brackets_occurrence.
  cbn [open_bracket close_bracket open_bracket2 close_bracket2 or_else is_null no_brackets].
  repeat split.
  intros obis v1 v2.
  destruct (occurrence (byte_of "(") 0 0 line) as [ob|]; [|discriminate].
  destruct (occurrence (byte_of ")") 0 0 line) as [cb|]; [|discriminate].
  destruct (cb <? ob)%nat; [discriminate|].
  destruct (validate_obis_ _); [|discriminate].
  intros [= _ _ <-]. reflexivity.
Qed.

Lemma parse_line_second_pair_witness :
  let line := bytes_of "X((a)b)" in
  open_bracket2 (scan_brackets line 0 no_brackets) = Some 2%nat /\
  close_bracket2 (scan_brackets line 0 no_brackets) = Some 6%nat /\
  parse_line_ line = Some (bytes_of "X", bytes_of "(a", bytes_of "a)b").
Proof.
  cbv zeta.
  destruct (parse_line_second_pair (bytes_of "X((a)b)")) as (_ & _ & Ho & Hc & Hv).
  split; [rewrite Ho; reflexivity|].
  split; [rewrite Hc; reflexivity|].
  specialize (Hv (bytes_of "X") (bytes_of "(a") (bytes_of "a)b") eq_refl).
  reflexivity.
Defined.

(** For ["X((a)b)"] the second ['('] precedes the first [')'], and
    value 2 is ["a)b"], not empty. *)
Lemma parse_line_second_pair_counterexample :
  exists obis v1 v2,
    parse_line_ (bytes_of "X((a)b)") = Some (obis, v1, v2) /\
    v2 = bytes_of "a)b" /\ v2 <> [].
Proof.
  exists (bytes_of "X"), (bytes_of "(a"), (bytes_of "a)b").
  split; [vm_compute; reflexivity|]. split; [reflexivity|discriminate].
Qed.

(** ** Frame assembler *)

Example receive_identification_frame :
  let s := sample_component sample_header (sample_config false 2) GET_IDENTIFICATION
             (bytes_of "/ISK5\2ME382" ++ [CR; LF]) (fun _ => 0) in
  let r := receive_frame_ sample_header s in
  fst r = 14%nat /\ take 14 (in_buf_ (snd r)) = bytes_of "/ISK5\2ME382" ++ [CR; LF] /\
  data_in_size_ (snd r) = 0%nat.
Proof. vm_compute. repeat split. Qed.

Lemma aget_nat (l : list Z) (n : nat) : aget l (Z.of_nat n) = l !!! n.
Proof. unfold aget. destruct (decide (0 <= Z.of_nat n)); [|lia]. by rewrite Nat2Z.id. Qed.

Lemma aget_nat_pred (l : list Z) (n : nat) :
  (1 <= n)%nat -> aget l (Z.of_nat n - 1) = l !!! (n - 1)%nat.
Proof. intros. replace (Z.of_nat n - 1) with (Z.of_nat (n - 1)) by lia. apply aget_nat. Qed.

Lemma aget_nat_pred2 (l : list Z) (n : nat) :
  (2 <= n)%nat -> aget l (Z.of_nat n - 2) = l !!! (n - 2)%nat.
Proof. intros. replace (Z.of_nat n - 2) with (Z.of_nat (n - 2)) by lia. apply aget_nat. Qed.

Lemma aset_nat (l : list Z) (n : nat) v : aset l (Z.of_nat n) v = <[n := v]> l.
Proof. unfold aset. destruct (decide (0 <= Z.of_nat n)); [|lia]. by rewrite Nat2Z.id. Qed.

Lemma aset_nat_pred (l : list Z) (n : nat) v :
  (1 <= n)%nat -> aset l (Z.of_nat n - 1) v = <[(n - 1)%nat := v]> l.
Proof. intros. replace (Z.of_nat n - 1) with (Z.of_nat (n - 1)) by lia. apply aset_nat. Qed.

Section FrameAssemblerFacts.
Context (h : Header).

Lemma pushed_eq b rest s :
  pushed h b rest s =
  if (data_in_size_ s <? MAX_IN_BUF_SIZE h)%nat then
    set_data_in_size_ (data_in_size_ s + 1)
      (set_in_buf_ (aset (in_buf_ s) (Z.of_nat (data_in_size_ s)) b)
         (set_uart (set_rx rest (uart s)) s))
  else
    set_in_buf_
      (aset (memmove_left (in_buf_ s) (data_in_size_ s - 1))
         (Z.of_nat (data_in_size_ s) - 1) b)
      (set_uart (set_rx rest (uart s))
         (set_in_buf_ (memmove_left (in_buf_ s) (data_in_size_ s - 1)) s)).
Proof.
  unfold pushed, make_room, store_byte. run. fields.
  destruct (data_in_size_ s <? MAX_IN_BUF_SIZE h)%nat eqn:E; fields; rewrite ?E; reflexivity.
Qed.

Lemma receive_side_only_refl s : receive_side_only s s.
Proof. unfold receive_side_only. destruct s; reflexivity. Qed.

Lemma receive_side_only_trans s1 s2 s3 :
  receive_side_only s1 s2 -> receive_side_only s2 s3 -> receive_side_only s1 s3.
Proof.
  unfold receive_side_only. intros H12 H23. rewrite H23 at 1. rewrite H12 at 1.
  destruct s1; reflexivity.
Qed.

Lemma pushed_props b rest s :
  buffers_ok h s ->
  let s2 := pushed h b rest s in
  buffers_ok h s2 /\
  accumulated s2 = slide h (accumulated s) ++ [b] /\
  (1 <= data_in_size_ s2)%nat /\
  aget (in_buf_ s2) (Z.of_nat (data_in_size_ s2) - 1) = b /\
  ((2 <= data_in_size_ s2)%nat ->
     (1 <= data_in_size_ s)%nat /\
     aget (in_buf_ s2) (Z.of_nat (data_in_size_ s2) - 2)
     = aget (in_buf_ s) (Z.of_nat (data_in_size_ s) - 1)) /\
  uart s2 = set_rx rest (uart s) /\
  receive_side_only s s2 /\
  data_in_size_ s2 = Nat.min (data_in_size_ s + 1) (MAX_IN_BUF_SIZE h).
Proof.
  intros [Hlen Hn Hmax Hout]. cbv zeta. rewrite pushed_eq.
  unfold accumulated, slide.
  rewrite length_take_le by lia.
  destruct (data_in_size_ s <? MAX_IN_BUF_SIZE h)%nat eqn:E.
  - apply Nat.ltb_lt in E. fields. rewrite aset_nat.
    split_and!; fields.
    + constructor; fields; [rewrite length_insert; exact Hlen | lia | exact Hmax | exact Hout].
    + replace (data_in_size_ s + 1)%nat with (S (data_in_size_ s)) by lia.
      rewrite (take_S_r _ _ b) by (apply list_lookup_insert_eq; lia).
      rewrite take_insert_ge by lia. reflexivity.
    + lia.
    + rewrite aget_nat_pred by lia.
      replace (data_in_size_ s + 1 - 1)%nat with (data_in_size_ s) by lia.
      apply list_lookup_total_insert_eq. lia.
    + intros H2. split; [lia|].
      rewrite aget_nat_pred2, aget_nat_pred by lia.
      replace (data_in_size_ s + 1 - 2)%nat with (data_in_size_ s - 1)%nat by lia.
      apply list_lookup_total_insert_ne. lia.
    + reflexivity.
    + unfold receive_side_only. destruct s; reflexivity.
    + lia.
  - apply Nat.ltb_ge in E. fields.
    assert (Hn' : data_in_size_ s = MAX_IN_BUF_SIZE h) by lia.
    assert (Hm : length (memmove_left (in_buf_ s) (data_in_size_ s - 1)) = MAX_IN_BUF_SIZE h).
    { unfold memmove_left. rewrite length_app, length_take, !length_drop. lia. }
    rewrite aset_nat_pred by lia.
    split_and!; fields.
    + constructor; fields; [rewrite length_insert; exact Hm | exact Hn | exact Hmax | exact Hout].
    + rewrite take_ge by (rewrite length_insert; lia).
      rewrite (take_ge (in_buf_ s)) by lia.
      unfold memmove_left.
      rewrite (take_ge (drop 1 (in_buf_ s))) by (rewrite length_drop; lia).
      replace (data_in_size_ s - 1)%nat with (length (drop 1 (in_buf_ s)) + 0)%nat
        by (rewrite length_drop; lia).
      rewrite insert_app_r.
      f_equal.
      destruct (drop (length (drop 1 (in_buf_ s)) + 0) (in_buf_ s)) as [|x l] eqn:D.
      { apply (f_equal length) in D. rewrite !length_drop in D. simpl in D. lia. }
      apply (f_equal length) in D. rewrite !length_drop in D. simpl in D.
      destruct l; [reflexivity | simpl in D; lia].
    + lia.
    + rewrite aget_nat_pred by lia.
      apply list_lookup_total_insert_eq. lia.
    + intros H2. split; [lia|].
      rewrite aget_nat_pred2, aget_nat_pred by lia.
      rewrite list_lookup_total_insert_ne by lia.
      unfold memmove_left.
      rewrite lookup_total_app_l by (rewrite length_take, length_drop; lia).
      rewrite lookup_total_take_lt by lia.
      rewrite lookup_total_drop. f_equal. lia.
    + reflexivity.
    + unfold receive_side_only. destruct s; reflexivity.
    + lia.
Qed.

Lemma receive_loop_turn ws b rest s :
  u32 (u32 (clock (uart s) (ticks (uart s))) - ws) <= max_while_ms ->
  receive_loop h ws (b :: rest) s =
  let s2 := pushed h b rest (snd (millis s)) in
  match fst (check_terminators s2) with
  | Some v => (v, snd (check_terminators s2))
  | None => receive_loop h ws rest (snd (check_terminators s2))
  end.
Proof.
  intros Hb. cbn [receive_loop]. unfold bind at 1.
  unfold millis at 1. cbn [fst].
  replace (max_while_ms <? _) with false by (symmetry; apply Z.ltb_ge; exact Hb).
  unfold pushed. unfold bind. cbn [fst snd].
  destruct (fst (check_terminators _)); reflexivity.
Qed.

Lemma millis_props s :
  let s1 := snd (millis s) in
  buffers_ok h s -> buffers_ok h s1.
Proof. intros s1 [? ? ? ?]. constructor; assumption. Qed.

Lemma accumulated_length s :
  buffers_ok h s -> length (accumulated s) = data_in_size_ s.
Proof. intros [Hlen Hn _ _]. unfold accumulated. apply length_take_le. lia. Qed.

(** The two bytes the tests read are the last two accumulated
    bytes. *)
Lemma state_last s :
  buffers_ok h s ->
  aget (in_buf_ s) (Z.of_nat (data_in_size_ s) - 1) = last_byte (accumulated s).
Proof.
  intros Hok. unfold last_byte. rewrite accumulated_length by exact Hok.
  unfold accumulated, aget.
  destruct (decide (0 <= Z.of_nat (data_in_size_ s) - 1)); [|reflexivity].
  symmetry. apply lookup_total_take_lt. lia.
Qed.

Lemma state_before_last s :
  buffers_ok h s ->
  aget (in_buf_ s) (Z.of_nat (data_in_size_ s) - 2) = before_last_byte (accumulated s).
Proof.
  intros Hok. unfold before_last_byte. rewrite accumulated_length by exact Hok.
  unfold accumulated, aget.
  destruct (decide (0 <= Z.of_nat (data_in_size_ s) - 2)); [|reflexivity].
  symmetry. apply lookup_total_take_lt. lia.
Qed.

(** No terminator test succeeds. *)
Lemma check_terminators_quiet s :
  buffers_ok h s -> completes (accumulated s) = false ->
  check_terminators s = (None, s).
Proof.
  intros Hok Hq. unfold check_terminators. run.
  rewrite state_last, state_before_last by exact Hok.
  unfold completes in Hq. rewrite accumulated_length in Hq by exact Hok.
  apply orb_false_iff in Hq as [Hq H4]. apply orb_false_iff in Hq as [Hq H3].
  apply orb_false_iff in Hq as [H1 H2].
  rewrite H1, H2, H3, H4. reflexivity.
Qed.

Lemma receive_side_only_millis s : receive_side_only s (snd (millis s)).
Proof. unfold receive_side_only. destruct s; reflexivity. Qed.

Lemma in_budget_S clk ws t n :
  in_budget clk ws t (S n) ->
  u32 (u32 (clk t) - ws) <= max_while_ms /\ in_budget clk ws (S t) n.
Proof.
  intros H. split.
  - specialize (H 0%nat ltac:(lia)). rewrite Nat.add_0_r in H. exact H.
  - intros k Hk. specialize (H (S k) ltac:(lia)).
    replace (S t + k)%nat with (t + S k)%nat by lia. exact H.
Qed.

(** A quiet run of bytes goes into the accumulator and the loop goes
    on after it. *)
Lemma receive_loop_quiet pre : forall s ws tail,
  buffers_ok h s -> quiet h (accumulated s) pre ->
  in_budget (clock (uart s)) ws (ticks (uart s)) (length pre) ->
  exists s1,
    receive_loop h ws (pre ++ tail) s = receive_loop h ws tail s1 /\
    buffers_ok h s1 /\
    accumulated s1 = accumulate h (accumulated s) pre /\
    receive_side_only s s1 /\
    clock (uart s1) = clock (uart s) /\
    ticks (uart s1) = (ticks (uart s) + length pre)%nat.
Proof.
  induction pre as [|b pre IH]; intros s ws tail Hok Hq Hbud.
  - exists s. cbn [app accumulate length]. rewrite Nat.add_0_r.
    split_and!; auto using receive_side_only_refl.
  - cbn [quiet] in Hq. destruct Hq as [Hq1 Hq].
    cbn [length] in Hbud. apply in_budget_S in Hbud as [Hb0 Hbud].
    cbn [app]. rewrite receive_loop_turn by exact Hb0. cbv zeta.
    pose proof (pushed_props b (pre ++ tail) (snd (millis s)) (millis_props s Hok))
      as (Hok2 & Hacc2 & Hn2 & Hlast2 & Hbl2 & Hu2 & Hrs2 & _).
    set (s2 := pushed h b (pre ++ tail) (snd (millis s))) in *.
    change (accumulated (snd (millis s))) with (accumulated s) in Hacc2.
    rewrite (check_terminators_quiet s2 Hok2) by (rewrite Hacc2; exact Hq1).
    cbn [fst snd].
    destruct (IH s2 ws tail Hok2) as (s1 & Hrun & Hok1 & Hacc1 & Hrs1 & Hclk1 & Htk1).
    + rewrite Hacc2. exact Hq.
    + rewrite Hu2. exact Hbud.
    + exists s1. split_and!; auto.
      * rewrite Hacc1, Hacc2. reflexivity.
      * eapply receive_side_only_trans; [apply receive_side_only_millis|].
        eapply receive_side_only_trans; eassumption.
      * rewrite Hclk1, Hu2. reflexivity.
      * rewrite Htk1, Hu2. cbn. lia.
Qed.

Lemma accumulate_app acc a b :
  accumulate h acc (a ++ b) = accumulate h (accumulate h acc a) b.
Proof. revert acc. induction a as [|x a IH]; intros acc; cbn; [reflexivity | apply IH]. Qed.

Lemma receive_side_only_lrc s s1 : receive_side_only s s1 -> lrc_ s1 = lrc_ s.
Proof. intros H. rewrite H. reflexivity. Qed.

Lemma receive_side_only_out s s1 :
  receive_side_only s s1 -> out_frame s1 = out_frame s.
Proof. intros H. rewrite H. reflexivity. Qed.

(** The [ETX] test succeeds. *)
Lemma check_terminators_etx s :
  let n := data_in_size_ s in
  let last := aget (in_buf_ s) (Z.of_nat n - 1) in
  let before_last := aget (in_buf_ s) (Z.of_nat n - 2) in
  last <> ACK -> (2 <= n)%nat -> before_last = ETX ->
  let r := check_terminators s in
  fst r = Some n /\ readout_lrc_ (snd r) = last /\ data_in_size_ (snd r) = 0%nat /\
  in_buf_ (snd r) = in_buf_ s /\ lrc_ (snd r) = lrc_ s.
Proof.
  cbv zeta. intros Hack H2 Hetx.
  unfold check_terminators. run.
  apply Z.eqb_neq in Hack. rewrite Hack.
  apply Nat.leb_le in H2. rewrite H2, Hetx. cbn [andb Z.eqb ETX Pos.eqb].
  unfold update_last_transmission_from_meter_timestamp_, millis. run. fields.
  split_and!; reflexivity.
Qed.

(** The [CR LF] test is reached and succeeds. *)
Lemma check_terminators_crlf s :
  buffers_ok h s ->
  let n := data_in_size_ s in
  aget (in_buf_ s) (Z.of_nat n - 1) = LF ->
  aget (in_buf_ s) (Z.of_nat n - 2) = CR ->
  (2 <= n)%nat ->
  let r := check_terminators s in
  data_in_size_ (snd r) = 0%nat /\ in_buf_ (snd r) = in_buf_ s /\
  (accumulated s = out_frame s -> fst r = Some 0%nat /\ data_out_size_ (snd r) = 0%nat) /\
  (accumulated s <> out_frame s -> fst r = Some n).
Proof.
  intros Hok. cbv zeta. intros Hlf Hcr H2.
  unfold check_terminators. run. rewrite Hlf, Hcr.
  apply Nat.leb_le in H2. rewrite H2. cbn [andb Z.eqb ETX STX ACK CR LF Pos.eqb].
  unfold memcmp_eq.
  destruct ((data_in_size_ s =? data_out_size_ s)%nat
            && bool_decide (take (data_out_size_ s) (out_buf_ s)
                            = take (data_out_size_ s) (in_buf_ s))) eqn:E.
  - apply andb_true_iff in E as [E1 E2]. apply Nat.eqb_eq in E1.
    apply bool_decide_eq_true in E2.
    run. fields. split_and!; try reflexivity.
    + intros _. split; reflexivity.
    + intros Hne. exfalso. apply Hne. unfold accumulated, out_frame.
      rewrite E2, E1. reflexivity.
  - unfold update_last_transmission_from_meter_timestamp_, millis. run. fields.
    split_and!; try reflexivity.
    intros Heq. exfalso.
    apply andb_false_iff in E as [E|E].
    + apply Nat.eqb_neq in E. apply E.
      destruct Hok as [Hlen Hn _ Hout].
      apply (f_equal length) in Heq. unfold accumulated, out_frame in Heq.
      rewrite !length_take_le in Heq by lia. exact Heq.
    + apply bool_decide_eq_false in E. apply E.
      destruct Hok as [Hlen Hn _ Hout].
      pose proof (f_equal length Heq) as HL. unfold accumulated, out_frame in HL, Heq.
      rewrite !length_take_le in HL by lia. rewrite HL in Heq. symmetry. exact Heq.
Qed.

(** [receive_frame_] on a quiet run of bytes followed by a byte [y]:
    the call comes to the terminator tests with all of them
    accumulated. *)
Lemma receive_frame_tail s pre y rest :
  buffers_ok h s ->
  rx (uart s) = pre ++ [y] ++ rest ->
  quiet h (accumulated s) pre ->
  in_budget (clock (uart s)) (u32 (clock (uart s) (ticks (uart s))))
    (S (ticks (uart s))) (length pre + 1) ->
  exists s3 ws,
    receive_frame_ h s =
      match fst (check_terminators s3) with
      | Some v => (v, snd (check_terminators s3))
      | None => receive_loop h ws rest (snd (check_terminators s3))
      end /\
    buffers_ok h s3 /\
    accumulated s3 = accumulate h (accumulated s) (pre ++ [y]) /\
    receive_side_only s s3.
Proof.
  intros Hok Hrx Hq Hbud.
  set (ws := u32 (clock (uart s) (ticks (uart s)))) in *.
  assert (Hrf : receive_frame_ h s = receive_loop h ws (pre ++ [y] ++ rest) (snd (millis s))).
  { assert (Hlen : (length (rx (uart s)) <=? 0)%nat = false)
      by (rewrite Hrx; destruct pre; reflexivity).
    unfold receive_frame_, available. run. rewrite Hlen.
    unfold millis at 2. fields. rewrite Hrx. reflexivity. }
  destruct (receive_loop_quiet pre (snd (millis s)) ws ([y] ++ rest))
    as (s1 & Hrun & Hok1 & Hacc1 & Hrs1 & Hclk1 & Htk1).
  { apply millis_props, Hok. }
  { exact Hq. }
  { intros k Hk. apply (Hbud k). lia. }
  assert (Hb1 : u32 (u32 (clock (uart s1) (ticks (uart s1))) - ws) <= max_while_ms).
  { rewrite Hclk1, Htk1. cbn [millis snd uart clock ticks set_uart set_ticks].
    apply (Hbud (length pre)). lia. }
  rewrite Hrf, Hrun. cbn [app]. rewrite receive_loop_turn by exact Hb1. cbv zeta.
  pose proof (pushed_props y rest (snd (millis s1)) (millis_props s1 Hok1))
    as (Hok2 & Hacc2 & Hn2 & Hlast2 & Hbl2 & Hu2 & Hrs2 & Hmin2).
  set (s2 := pushed h y rest (snd (millis s1))) in *.
  exists s2, ws. split_and!; auto.
  - rewrite Hacc2, accumulate_app. cbn [accumulate].
    change (accumulated (snd (millis s1))) with (accumulated s1).
    rewrite Hacc1. reflexivity.
  - eapply receive_side_only_trans; [apply receive_side_only_millis|].
    eapply receive_side_only_trans; [exact Hrs1|].
    eapply receive_side_only_trans; [apply receive_side_only_millis|].
    exact Hrs2.
Qed.

Lemma last_byte_app l x : last_byte (l ++ [x]) = x.
Proof.
  unfold last_byte, aget. rewrite length_app. cbn [length].
  destruct (decide _); [|lia].
  replace (Z.to_nat (Z.of_nat (length l + 1) - 1)) with (length l) by lia.
  apply list_lookup_total_middle. reflexivity.
Qed.

Lemma before_last_byte_app l x y : before_last_byte (l ++ [x; y]) = x.
Proof.
  unfold before_last_byte, aget. rewrite length_app. cbn [length].
  destruct (decide _); [|lia].
  replace (Z.to_nat (Z.of_nat (length l + 2) - 2)) with (length l) by lia.
  apply list_lookup_total_middle. reflexivity.
Qed.

(** C2, as the code has it: when the accumulated bytes come to end
    in [ETX] and one more byte that is not [ACK] (the first test
    would take it), no frame being completed before, [receive_frame_]
    returns the accumulated bytes as the frame, stores the last byte
    in [readout_lrc_], empties the accumulator and leaves the running
    checksum [lrc_] as it was. *)
Theorem receive_frame_etx s pre bcc rest l :
  buffers_ok h s ->
  rx (uart s) = pre ++ [bcc] ++ rest ->
  quiet h (accumulated s) pre ->
  in_budget (clock (uart s)) (u32 (clock (uart s) (ticks (uart s))))
    (S (ticks (uart s))) (length pre + 1) ->
  let frame := accumulate h (accumulated s) (pre ++ [bcc]) in
  frame = l ++ [ETX; bcc] -> bcc <> ACK ->
  let r := receive_frame_ h s in
  fst r = length frame /\ take (fst r) (in_buf_ (snd r)) = frame /\
  readout_lrc_ (snd r) = bcc /\
  data_in_size_ (snd r) = 0%nat /\ accumulated (snd r) = [] /\
  lrc_ (snd r) = lrc_ s.
Proof.
  intros Hok Hrx Hq Hbud. cbv zeta. intros Hfr Hbcc.
  destruct (receive_frame_tail s pre bcc rest Hok Hrx Hq Hbud)
    as (s3 & ws & Hrf & Hok3 & Hacc3 & Hrs3).
  rewrite <- Hacc3 in Hfr |- *.
  pose proof (accumulated_length s3 Hok3) as Hlen. rewrite Hfr in Hlen at 1.
  rewrite length_app in Hlen. cbn [length] in Hlen.
  assert (Hlast : aget (in_buf_ s3) (Z.of_nat (data_in_size_ s3) - 1) = bcc).
  { rewrite state_last, Hfr by exact Hok3.
    change (l ++ [ETX; bcc]) with (l ++ [ETX] ++ [bcc]).
    rewrite app_assoc. apply last_byte_app. }
  assert (Hbl : aget (in_buf_ s3) (Z.of_nat (data_in_size_ s3) - 2) = ETX).
  { rewrite state_before_last, Hfr by exact Hok3. apply before_last_byte_app. }
  pose proof (check_terminators_etx s3) as Hc. cbv zeta in Hc.
  rewrite Hlast in Hc.
  destruct (Hc Hbcc ltac:(lia) Hbl) as (Hr & Hlrc & Hsz & Hbuf & Hl).
  rewrite Hrf, Hr. cbn [fst snd].
  rewrite accumulated_length by exact Hok3.
  split_and!; auto.
  - rewrite Hbuf. reflexivity.
  - unfold accumulated. rewrite Hsz. apply take_0.
  - rewrite Hl. apply receive_side_only_lrc, Hrs3.
Qed.

(** C3: when the accumulated bytes come to end in [CR LF], no frame
    being completed before, [receive_frame_] empties the
    accumulator; it returns 0, no frame, when the accumulated bytes
    are the outgoing frame, and it returns them as the frame
    otherwise. *)
Theorem receive_frame_crlf s pre rest l :
  buffers_ok h s ->
  rx (uart s) = pre ++ [LF] ++ rest ->
  quiet h (accumulated s) pre ->
  in_budget (clock (uart s)) (u32 (clock (uart s) (ticks (uart s))))
    (S (ticks (uart s))) (length pre + 1) ->
  let frame := accumulate h (accumulated s) (pre ++ [LF]) in
  frame = l ++ [CR; LF] ->
  let r := receive_frame_ h s in
  (2 <= length frame)%nat /\
  data_in_size_ (snd r) = 0%nat /\ accumulated (snd r) = [] /\
  (frame = out_frame s -> fst r = 0%nat) /\
  (frame <> out_frame s ->
     fst r = length frame /\ take (fst r) (in_buf_ (snd r)) = frame).
Proof.
  intros Hok Hrx Hq Hbud. cbv zeta. intros Hfr.
  destruct (receive_frame_tail s pre LF rest Hok Hrx Hq Hbud)
    as (s3 & ws & Hrf & Hok3 & Hacc3 & Hrs3).
  rewrite <- Hacc3 in Hfr |- *.
  pose proof (accumulated_length s3 Hok3) as Hlen. rewrite Hfr in Hlen at 1.
  rewrite length_app in Hlen. cbn [length] in Hlen.
  assert (Hlast : aget (in_buf_ s3) (Z.of_nat (data_in_size_ s3) - 1) = LF).
  { rewrite state_last, Hfr by exact Hok3.
    change (l ++ [CR; LF]) with (l ++ [CR] ++ [LF]).
    rewrite app_assoc. apply last_byte_app. }
  assert (Hbl : aget (in_buf_ s3) (Z.of_nat (data_in_size_ s3) - 2) = CR).
  { rewrite state_before_last, Hfr by exact Hok3. apply before_last_byte_app. }
  destruct (check_terminators_crlf s3 Hok3 Hlast Hbl ltac:(lia)) as (Hsz & Hbuf & Hecho & Hframe).
  rewrite accumulated_length by exact Hok3.
  rewrite <- (receive_side_only_out s s3 Hrs3).
  split_and!.
  - lia.
  - rewrite Hrf. destruct (decide (accumulated s3 = out_frame s3)) as [He|He].
    + destruct (Hecho He) as [-> _]. exact Hsz.
    + rewrite (Hframe He). exact Hsz.
  - rewrite Hrf. unfold accumulated.
    destruct (decide (take (data_in_size_ s3) (in_buf_ s3) = out_frame s3)) as [He|He].
    + destruct (Hecho He) as [-> _]. cbn [snd]. rewrite Hsz. apply take_0.
    + rewrite (Hframe He). cbn [snd]. rewrite Hsz. apply take_0.
  - intros He. rewrite Hrf. destruct (Hecho He) as [-> _]. reflexivity.
  - intros He. rewrite Hrf, (Hframe He). cbn [fst snd]. rewrite Hbuf. split; reflexivity.
Qed.
End FrameAssemblerFacts.

Lemma sample_component_ok c st bytes clk :
  buffers_ok sample_header (sample_component sample_header c st bytes clk).
Proof. constructor; cbn; lia. Qed.

Lemma constant_clock_in_budget (c : Z) (t n : nat) : in_budget (fun _ => c) (u32 c) t n.
Proof.
  intros j _. unfold u32 at 1. rewrite Z.sub_diag. unfold u32.
  rewrite Z.mod_0_l by lia. unfold max_while_ms. lia.
Qed.

Lemma receive_frame_crlf_witness :
  let s := sample_component sample_header (sample_config false 2) GET_IDENTIFICATION
             (bytes_of "/ABC5" ++ [CR; LF]) (fun _ => 0) in
  let r := receive_frame_ sample_header s in
  let e := receive_frame_ sample_header echoed_request in
  (fst r = 7%nat /\ take 7 (in_buf_ (snd r)) = bytes_of "/ABC5" ++ [CR; LF] /\
   accumulated (snd r) = []) /\
  (rx (uart echoed_request) = id_request /\ out_frame echoed_request = id_request /\
   fst e = 0%nat /\ accumulated (snd e) = []).
Proof.
  cbv zeta. split.
  - pose proof (receive_frame_crlf sample_header
      (sample_component sample_header (sample_config false 2) GET_IDENTIFICATION
         (bytes_of "/ABC5" ++ [CR; LF]) (fun _ => 0))
      (bytes_of "/ABC5" ++ [CR]) [] (bytes_of "/ABC5")
      (sample_component_ok _ _ _ _) eq_refl
      ltac:(cbn; repeat split)
      (constant_clock_in_budget 0 _ _)
      eq_refl) as (_ & _ & Hacc & _ & Hframe).
    destruct (Hframe ltac:(discriminate)) as [Hr Hf].
    split; [exact Hr|]. split; [|exact Hacc].
    rewrite Hr in Hf. exact Hf.
  - pose proof (receive_frame_crlf sample_header echoed_request
      (bytes_of "/?!" ++ [CR]) [] (bytes_of "/?!")
      ltac:(constructor; vm_compute; lia) eq_refl
      ltac:(cbn; repeat split)
      (constant_clock_in_budget 0 _ _)
      eq_refl) as (_ & _ & Hacc & Hecho & _).
    split; [reflexivity|]. split; [reflexivity|].
    split; [exact (Hecho eq_refl) | exact Hacc].
Defined.

Lemma receive_frame_etx_witness :
  let s := set_lrc_ 0x55
             (sample_component sample_header (sample_config false 2) READOUT
                (bytes_of "1.8.0(1)" ++ [ETX; 0x41]) (fun _ => 0)) in
  let r := receive_frame_ sample_header s in
  fst r = 10%nat /\ readout_lrc_ (snd r) = 0x41 /\ accumulated (snd r) = [] /\
  lrc_ (snd r) = 0x55.
Proof.
  cbv zeta.
  pose proof (receive_frame_etx sample_header
    (set_lrc_ 0x55
       (sample_component sample_header (sample_config false 2) READOUT
          (bytes_of "1.8.0(1)" ++ [ETX; 0x41]) (fun _ => 0)))
    (bytes_of "1.8.0(1)" ++ [ETX]) 0x41 [] (bytes_of "1.8.0(1)")
    ltac:(constructor; cbn; lia) eq_refl
    ltac:(cbn; repeat split)
    (constant_clock_in_budget 0 _ _)
    eq_refl ltac:(discriminate)) as (Hr & _ & Hb & _ & Hacc & Hl).
  split; [exact Hr|]. split; [exact Hb|]. split; [exact Hacc | exact Hl].
Defined.

Lemma receive_frame_etx_counterexample :
  let s := set_lrc_ 0x55
             (sample_component sample_header (sample_config false 2) READOUT
                (bytes_of "1.8.0(1)" ++ [ETX; 0x41]) (fun _ => 0)) in
  let r := receive_frame_ sample_header s in
  fst r = 10%nat /\ take 10 (in_buf_ (snd r)) = bytes_of "1.8.0(1)" ++ [ETX; 0x41] /\
  readout_lrc_ (snd r) = 0x41 /\ data_in_size_ (snd r) = 0%nat /\
  lrc_ (snd r) = 0x55 /\ lrc_ (snd r) <> 0.
Proof. vm_compute. repeat split. discriminate. Qed.

Lemma baud_char_rate_inverse_witness :
  baud_rate_to_identification_ sample_header PROTOCOL_MODE_B
    (identification_to_baud_rate_ sample_header (byte_of "C")) = byte_of "C" /\
  baud_rate_to_identification_ sample_header PROTOCOL_MODE_C
    (identification_to_baud_rate_ sample_header (byte_of "5")) = byte_of "5" /\
  identification_to_baud_rate_ sample_header
    (baud_rate_to_identification_ sample_header PROTOCOL_MODE_B 600) = 600 /\
  identification_to_baud_rate_ sample_header
    (baud_rate_to_identification_ sample_header PROTOCOL_MODE_C 300) = 300.
Proof.
  destruct (baud_char_rate_inverse sample_header sample_header_ok) as (HB & HC & HB' & HC').
  split; [apply HB; split; apply Z.leb_le; reflexivity|].
  split; [apply HC; split; apply Z.leb_le; reflexivity|].
  split.
  - apply (HB' 1). split; apply Z.leb_le; reflexivity.
  - apply (HC' 0). split; apply Z.leb_le; reflexivity.
Defined.

(** ** What the frame assembler writes *)

Lemma assembler_only_refl s : assembler_only s s.
Proof. unfold assembler_only. destruct s; reflexivity. Qed.

Lemma assembler_only_trans s1 s2 s3 :
  assembler_only s1 s2 -> assembler_only s2 s3 -> assembler_only s1 s3.
Proof.
  unfold assembler_only. intros H12 H23. rewrite H23 at 1. rewrite H12 at 1.
  destruct s1; reflexivity.
Qed.

Lemma assembler_only_millis s : assembler_only s (snd (millis s)).
Proof. unfold assembler_only. destruct s; reflexivity. Qed.

Lemma assembler_only_check s : assembler_only s (snd (check_terminators s)).
Proof.
  unfold check_terminators, update_last_transmission_from_meter_timestamp_, reset_lrc_, millis.
  run.
  repeat match goal with
         | |- context [if ?c then _ else _] => destruct c
         end; run; unfold assembler_only; destruct s; reflexivity.
Qed.

Section AssemblerWrites.
Context (h : Header).

Lemma assembler_only_pushed b rest s : assembler_only s (pushed h b rest s).
Proof.
  rewrite pushed_eq.
  destruct (data_in_size_ s <? MAX_IN_BUF_SIZE h)%nat; unfold assembler_only;
    destruct s; reflexivity.
Qed.

Lemma assembler_only_receive_loop ws bytes : forall s,
  assembler_only s (snd (receive_loop h ws bytes s)).
Proof.
  induction bytes as [|b rest IH]; intros s.
  - cbn [receive_loop]. unfold make_room. run.
    destruct (max_while_ms <? _); [apply assembler_only_millis|].
    cbn [fst snd].
    destruct (data_in_size_ _ <? _)%nat; run; unfold assembler_only, millis;
      destruct s; reflexivity.
  - cbn [receive_loop]. unfold bind at 1.
    destruct (max_while_ms <? _) eqn:E.
    + apply assembler_only_millis.
    + change (snd ((make_room h ;; store_byte h b rest ;;
                    r <- check_terminators ;;
                    match r with
                    | Some ret_val => ret ret_val
                    | None => receive_loop h ws rest
                    end) (snd (millis s))))
        with (snd (match fst (check_terminators (pushed h b rest (snd (millis s)))) with
                   | Some v => ret v
                   | None => receive_loop h ws rest
                   end (snd (check_terminators (pushed h b rest (snd (millis s))))))).
      eapply assembler_only_trans; [apply assembler_only_millis|].
      eapply assembler_only_trans; [apply assembler_only_pushed|].
      eapply assembler_only_trans; [apply assembler_only_check|].
      destruct (fst (check_terminators _)); [apply assembler_only_refl | apply IH].
Qed.

Lemma assembler_only_receive_frame s : assembler_only s (snd (receive_frame_ h s)).
Proof.
  unfold receive_frame_, available. run.
  destruct (length _ <=? 0)%nat; [apply assembler_only_refl|].
  eapply assembler_only_trans; [apply assembler_only_millis|].
  apply assembler_only_receive_loop.
Qed.
End AssemblerWrites.

(** ** Identification parser *)

Section IdentificationFacts.
Context (h : Header).

Lemma in_range_B_zero : 0 < PROTO_B_RANGE_BEGIN h -> in_range_B h 0 = false.
Proof.
  intros H. unfold in_range_B. replace (_ <=? 0) with false; [reflexivity|].
  symmetry. apply Z.leb_gt. exact H.
Qed.

Lemma in_range_C_zero : 0 < PROTO_C_RANGE_BEGIN h -> in_range_C h 0 = false.
Proof.
  intros H. unfold in_range_C. replace (_ <=? 0) with false; [reflexivity|].
  symmetry. apply Z.leb_gt. exact H.
Qed.

(** C8, as the code has it: [get_id_] finds no identification in a
    frame of fewer than 7 bytes, whatever the frame holds; the rule for
    an identification text of fewer than 5 characters (baud character
    0, mode A unless mode D is forced) is that of [parse_id_], which a
    frame of at least 7 bytes reaches. *)
Theorem short_identification
  (HB : 0 < PROTO_B_RANGE_BEGIN h) (HC : 0 < PROTO_C_RANGE_BEGIN h) :
  (forall s frame_size, (frame_size < 7)%nat -> get_id_ h frame_size s = (None, s)) /\
  (forall s p, (length (cstr_at (in_buf_ s) p) < 5)%nat ->
     let s' := snd (parse_id_ h p s) in
     meter_identification_ s' = cstr_at (in_buf_ s) p /\
     baud_rate_identification_ s' = 0 /\
     mode_ s' = if force_mode_d_ (cfg s) then PROTOCOL_MODE_D else PROTOCOL_MODE_A).
Proof.
  split.
  - intros s frame_size Hlt. unfold get_id_.
    replace (7 <=? frame_size)%nat with false; [reflexivity|].
    symmetry. apply Nat.leb_gt. exact Hlt.
  - intros s p Hlen. cbv zeta. unfold parse_id_. run. fields.
    replace (5 <=? length (cstr_at (in_buf_ s) p))%nat with false
      by (symmetry; apply Nat.leb_gt; exact Hlen).
    unfold set_protocol_. rewrite in_range_B_zero, in_range_C_zero by assumption.
    split_and!; reflexivity.
Qed.
End IdentificationFacts.

Lemma short_identification_witness :
  let h := sample_header in
  let s := sample_component h (sample_config false 2) GET_IDENTIFICATION
             (bytes_of "/ABC" ++ [CR; LF]) (fun _ => 0) in
  let s2 := sample_component h (sample_config false 2) GET_IDENTIFICATION
              (bytes_of "X/ABC" ++ [CR; LF]) (fun _ => 0) in
  fst (receive_frame_ h s) = 6%nat /\
  fst (get_id_ h 6 (snd (receive_frame_ h s))) = None /\
  fst (receive_frame_ h s2) = 7%nat /\
  fst (get_id_ h 7 (snd (receive_frame_ h s2))) = Some 1%nat /\
  let s' := snd (parse_id_ h 1 (snd (get_id_ h 7 (snd (receive_frame_ h s2))))) in
  meter_identification_ s' = bytes_of "/ABC" /\
  baud_rate_identification_ s' = 0 /\ mode_ s' = PROTOCOL_MODE_A.
Proof.
  cbv zeta.
  destruct (short_identification sample_header ltac:(reflexivity) ltac:(reflexivity))
    as [Hget Hparse].
  split; [reflexivity|].
  split; [rewrite Hget by (cbn; lia); reflexivity|].
  split; [reflexivity|]. split; [reflexivity|].
  apply (Hparse (snd (get_id_ sample_header 7
           (snd (receive_frame_ sample_header
              (sample_component sample_header (sample_config false 2) GET_IDENTIFICATION
                 (bytes_of "X/ABC" ++ [CR; LF]) (fun _ => 0)))))) 1%nat).
  vm_compute. lia.
Defined.

(** The frame ["/ABC\r\n"] is received whole and is rejected as an
    invalid identification frame: the tick ends in the retry wait. *)
Lemma short_identification_counterexample :
  let h := sample_header in
  let s := sample_component h (sample_config false 2) GET_IDENTIFICATION
             (bytes_of "/ABC" ++ [CR; LF]) (fun _ => 0) in
  let r := receive_frame_ h s in
  fst r = 6%nat /\ take 6 (in_buf_ (snd r)) = bytes_of "/ABC" ++ [CR; LF] /\
  fst (get_id_ h (fst r) (snd r)) = None /\
  trace (snd (loop h s)) = [LOG_invalid_identification_frame; LOG_retry 1] /\
  state_ (snd (loop h s)) = WAIT /\ wait_next_state_ (snd (loop h s)) = BEGIN.
Proof. vm_compute. repeat split. Qed.

(** ** Session state machine *)

Section SessionFacts.
Context (h : Header).

Lemma baud_frame_bytes (buf : list Z) (c : Z) :
  (6 <= length buf)%nat ->
  take (length set_baud_and_programm) (aset (memcpy buf set_baud_and_programm) 2 c)
  = [ACK; 0x30; c; 0x31; CR; LF].
Proof.
  intros Hlen.
  destruct buf as [|a0 [|a1 [|a2 [|a3 [|a4 [|a5 tl]]]]]]; cbn [length] in Hlen; try lia.
  reflexivity.
Qed.

(** C1, as the code has it: in mode B or C the [PREPARE_ACK] step
    sends the 6 bytes [ACK '0' c '1' CR LF], where [c] is the
    negotiated baud-rate character: [c] is the third byte and the
    fourth byte is ['1']. *)
Theorem prepare_ack_frame (s : Component) :
  mode_ s <> PROTOCOL_MODE_A -> (6 <= length (out_buf_ s))%nat ->
  let s' := snd (loop_PREPARE_ACK h s) in
  let c := negotiated_char h s in
  baud_rate_char s' = c /\
  out_frame s' = [ACK; 0x30; c; 0x31; CR; LF] /\
  tx (uart s') = tx (uart s) ++ [[ACK; 0x30; c; 0x31; CR; LF]] /\
  new_baudrate s' = identification_to_baud_rate_ h c /\
  state_ s' = WAIT /\ wait_period_ms_ s' = 250 /\ wait_next_state_ s' = SET_BAUD_RATE.
Proof.
  intros Hmode Hlen. cbv zeta.
  assert (Hm : ProtocolMode_eqb (mode_ s) PROTOCOL_MODE_A = false)
    by (destruct (mode_ s); [congruence | reflexivity ..]).
  unfold loop_PREPARE_ACK, negotiated_char. run. rewrite Hm.
  unfold wait_, set_next_state_, send_frame_, write_array, millis, out_frame. run. fields.
  destruct (negb (config_baud_rate_max_bps_ (cfg s) =? 0)
            && negb (config_baud_rate_max_bps_ (cfg s) =? MAX_BAUDRATE));
    fields; rewrite baud_frame_bytes by exact Hlen; split_and!; reflexivity.
Qed.
End SessionFacts.

Lemma prepare_ack_frame_witness :
  let h := sample_header in
  let s := set_mode_ PROTOCOL_MODE_C (set_baud_rate_identification_ (byte_of "5")
             (sample_component h (sample_config false 2) PREPARE_ACK [] (fun _ => 0))) in
  out_frame (snd (loop_PREPARE_ACK h s)) = [ACK; byte_of "0"; byte_of "5"; byte_of "1"; CR; LF] /\
  tx (uart (snd (loop_PREPARE_ACK h s)))
  = [[ACK; byte_of "0"; byte_of "5"; byte_of "1"; CR; LF]].
Proof.
  cbv zeta.
  destruct (prepare_ack_frame sample_header
    (set_mode_ PROTOCOL_MODE_C (set_baud_rate_identification_ (byte_of "5")
       (sample_component sample_header (sample_config false 2) PREPARE_ACK [] (fun _ => 0))))
    ltac:(discriminate) ltac:(cbn; lia)) as (_ & Hf & Htx & _).
  split; [exact Hf | exact Htx].
Defined.

(** With the negotiated character ['5'] the frame sent is
    [ACK '0' '5' '1' CR LF], not [ACK '0' '0' '5' CR LF]: its fourth
    byte is ['1']. *)
Lemma prepare_ack_frame_counterexample :
  let h := sample_header in
  let s := set_mode_ PROTOCOL_MODE_C (set_baud_rate_identification_ (byte_of "5")
             (sample_component h (sample_config false 2) PREPARE_ACK [] (fun _ => 0))) in
  let s' := snd (loop h s) in
  baud_rate_char s' = byte_of "5" /\
  tx (uart s') = [[ACK; byte_of "0"; byte_of "5"; byte_of "1"; CR; LF]] /\
  tx (uart s') <> [[ACK; byte_of "0"; byte_of "0"; byte_of "5"; CR; LF]].
Proof. vm_compute. repeat split. discriminate. Qed.

Section UnexpectedByteFacts.
Context (h : Header).

Lemma assembler_only_state s s1 : assembler_only s s1 -> state_ s1 = state_ s.
Proof. intros H. rewrite H. reflexivity. Qed.

Lemma assembler_only_retry_counter s s1 :
  assembler_only s s1 -> retry_counter_ s1 = retry_counter_ s.
Proof. intros H. rewrite H. reflexivity. Qed.




Lemma assembler_only_wait s s1 :
  assembler_only s s1 ->
  wait_next_state_ s1 = wait_next_state_ s /\ wait_period_ms_ s1 = wait_period_ms_ s /\
  wait_start_timestamp_ s1 = wait_start_timestamp_ s.
Proof. intros H. rewrite H. split_and!; reflexivity. Qed.

(** C5 at the step that waits for the password [ACK]: a completed
    frame whose first byte is not [ACK] is logged and nothing else
    happens; the machine stays in its state and the retry policy is not
    invoked.  At the four sibling steps the same event invokes
    [retry_or_sleep_]. *)
Theorem unexpected_first_byte (s : Component) :
  let r := receive_frame_ h s in
  let got := aget (in_buf_ (snd r)) 0 in
  (1 <= fst r)%nat ->
  (got <> ACK ->
     let s' := snd (loop_WAIT_FOR_ACK h s) in
     s' = set_trace (trace (snd r) ++ [LOG_meter_rejected_password got]) (snd r) /\
     state_ s' = state_ s /\ retry_counter_ s' = retry_counter_ s /\
     wait_next_state_ s' = wait_next_state_ s) /\
  (got <> STX ->
     loop_WAIT_FOR_STX h s = (emit (LOG_no_STX got) ;; retry_or_sleep_) (snd r) /\
     loop_WAIT_FOR_STX2 h s = (emit (LOG_no_STX got) ;; retry_or_sleep_) (snd r)) /\
  (got <> SOH ->
     loop_WAIT_FOR_PPP h s = (emit (LOG_no_PPP got) ;; retry_or_sleep_) (snd r)) /\
  (got <> byte_of "(" ->
     loop_WAIT_FOR_PPP_READ_DATA h s = (emit (LOG_no_data got) ;; retry_or_sleep_) (snd r)).
Proof.
  cbv zeta. intros Hr. apply Nat.leb_le in Hr.
  pose proof (assembler_only_receive_frame h s) as Ha.
  split_and!.
  - intros Hgot.
    unfold loop_WAIT_FOR_ACK. run. rewrite Hr.
    replace (ACK =? _) with false by (symmetry; apply Z.eqb_neq; congruence).
    fields. split_and!; try reflexivity.
    + apply (assembler_only_state _ _ Ha).
    + apply (assembler_only_retry_counter _ _ Ha).
    + apply (assembler_only_wait _ _ Ha).
  - intros Hgot. split.
    + unfold loop_WAIT_FOR_STX. run. rewrite Hr.
      replace (STX =? _) with false by (symmetry; apply Z.eqb_neq; congruence).
      reflexivity.
    + unfold loop_WAIT_FOR_STX2. run. rewrite Hr.
      replace (STX =? _) with false by (symmetry; apply Z.eqb_neq; congruence).
      reflexivity.
  - intros Hgot.
    unfold loop_WAIT_FOR_PPP. run. rewrite Hr.
    replace (SOH =? _) with false by (symmetry; apply Z.eqb_neq; congruence).
    reflexivity.
  - intros Hgot.
    unfold loop_WAIT_FOR_PPP_READ_DATA. run. rewrite Hr.
    replace (byte_of "(" =? _) with false by (symmetry; apply Z.eqb_neq; congruence).
    reflexivity.
Qed.
End UnexpectedByteFacts.

(** The failing input: in [WAIT_FOR_ACK] the meter answers [STX].  The
    tick leaves the machine in [WAIT_FOR_ACK] with the retry counter
    untouched; the same answer to [WAIT_FOR_PPP] starts retry 1. *)
Lemma unexpected_first_byte_witness :
  let h := sample_header in
  let s := sample_component h (sample_config false 2) WAIT_FOR_ACK [STX] (fun _ => 0) in
  let t := sample_component h (sample_config false 2) WAIT_FOR_PPP [STX] (fun _ => 0) in
  (state_ (snd (loop_WAIT_FOR_ACK h s)) = WAIT_FOR_ACK /\
   retry_counter_ (snd (loop_WAIT_FOR_ACK h s)) = 0 /\
   trace (snd (loop_WAIT_FOR_ACK h s)) = [LOG_meter_rejected_password STX]) /\
  (state_ (snd (loop_WAIT_FOR_PPP h t)) = WAIT /\
   retry_counter_ (snd (loop_WAIT_FOR_PPP h t)) = 1 /\
   trace (snd (loop_WAIT_FOR_PPP h t)) = [LOG_no_PPP STX; LOG_retry 1]).
Proof.
  cbv zeta. split.
  - destruct (unexpected_first_byte sample_header
      (sample_component sample_header (sample_config false 2) WAIT_FOR_ACK [STX] (fun _ => 0))
      ltac:(vm_compute; lia)) as (Hack & _).
    destruct (Hack ltac:(vm_compute; discriminate)) as (Hs & Hst & Hrc & _).
    split; [exact Hst|]. split; [exact Hrc|]. rewrite Hs. reflexivity.
  - destruct (unexpected_first_byte sample_header
      (sample_component sample_header (sample_config false 2) WAIT_FOR_PPP [STX] (fun _ => 0))
      ltac:(vm_compute; lia)) as (_ & _ & Hppp & _).
    rewrite (Hppp ltac:(vm_compute; discriminate)). vm_compute. repeat split.
Defined.

Example wait_for_ack_tick :
  let h := sample_header in
  let s := sample_component h (sample_config false 2) WAIT_FOR_ACK [STX] (fun _ => 0) in
  state_ (snd (loop h s)) = WAIT_FOR_ACK /\ retry_counter_ (snd (loop h s)) = 0 /\
  trace (snd (loop h s)) = [LOG_meter_rejected_password STX].
Proof. vm_compute. repeat split. Qed.

(** ** Mode D *)

Section ModeDFacts.
Context (h : Header).

End ModeDFacts.


(** ** Retry policy *)





Section RetryFacts.
Context (h : Header).


































End RetryFacts.

Section RetryScenario.
Context (h : Header).

Lemma loop_timed_out s :
  timed_out s ->
  loop h s =
  (emit LOG_no_transmission_from_meter ;; connection_status_ false ;; retry_or_sleep_)
    (snd (millis s)).
Proof.
  intros (Hw & Hi & Ht). unfold loop, is_wait_state_, millis. run. fields.
  replace (CommState_eqb (state_ s) WAIT) with false
    by (destruct (state_ s) eqn:E; try reflexivity; congruence).
  replace (CommState_eqb (state_ s) INFINITE_WAIT) with false
    by (destruct (state_ s) eqn:E; try reflexivity; congruence).
  apply Z.leb_le in Ht. rewrite Ht. reflexivity.
Qed.


End RetryScenario.

(** * Further properties *)

(** ** Values and data lines *)

Lemma validate_float_scan_spec value : forall count,
  validate_float_scan value count =
  if forallb float_char (before_star value)
  then Some (count + Z.of_nat (length (before_star value))) else None.
Proof.
  induction value as [|c value IH]; intros count; cbn [validate_float_scan before_star].
  - cbn. f_equal. lia.
  - destruct (c =? byte_of "*"); [cbn; f_equal; lia|].
    cbn [forallb length]. fold (float_char c).
    destruct (float_char c); cbn [negb andb]; [|reflexivity].
    rewrite IH. destruct (forallb float_char (before_star value)); [|reflexivity].
    f_equal. lia.
Qed.

(** X1: [validate_float_] accepts a value exactly when the part before
    its first ['*'] (the whole value when there is none) has between 1
    and 20 characters, each a digit, ['.'] or ['-']; what follows the
    ['*'] is not looked at. *)
Theorem validate_float_spec (value : list Z) :
  validate_float_ value = true <->
  (1 <= length (before_star value) <= 20)%nat /\
  forallb float_char (before_star value) = true.
Proof.
  unfold validate_float_. rewrite validate_float_scan_spec.
  destruct (forallb float_char (before_star value)).
  - rewrite andb_true_iff, Z.ltb_lt, Z.leb_le. split.
    + intros [H1 H2]. split; [lia | reflexivity].
    + intros [[H1 H2] _]. lia.
  - split; [discriminate | intros [_ H]; discriminate H].
Qed.

Lemma occurrence_skip c k a : forall p rest,
  forallb (fun x => negb (c =? x)) a = true ->
  occurrence c k p (a ++ rest) = occurrence c k (p + length a) rest.
Proof.
  induction a as [|x a IH]; intros p rest Ha; cbn [app length].
  - rewrite Nat.add_0_r. reflexivity.
  - cbn [forallb] in Ha. apply andb_true_iff in Ha as [Hx Ha].
    cbn [occurrence]. apply negb_true_iff in Hx. rewrite Hx.
    rewrite IH by exact Ha. f_equal. lia.
Qed.

Lemma occurrence_none c k a : forall p,
  forallb (fun x => negb (c =? x)) a = true -> occurrence c k p a = None.
Proof.
  intros p Ha. rewrite <- (app_nil_r a). rewrite occurrence_skip by exact Ha. reflexivity.
Qed.

Lemma occurrence_here c p rest : occurrence c 0 p (c :: rest) = Some p.
Proof. cbn [occurrence]. rewrite Z.eqb_refl. reflexivity. Qed.

Lemma occurrence_next c k p rest :
  occurrence c (S k) p (c :: rest) = occurrence c k (S p) rest.
Proof. cbn [occurrence]. rewrite Z.eqb_refl. reflexivity. Qed.

Lemma no_bracket_open l :
  no_bracket l = true -> forallb (fun x => negb (byte_of "(" =? x)) l = true.
Proof.
  unfold no_bracket. rewrite !forallb_forall. intros H x Hx.
  specialize (H x Hx). apply andb_true_iff in H as [H _]. rewrite Z.eqb_sym. exact H.
Qed.

Lemma no_bracket_close l :
  no_bracket l = true -> forallb (fun x => negb (byte_of ")" =? x)) l = true.
Proof.
  unfold no_bracket. rewrite !forallb_forall. intros H x Hx.
  specialize (H x Hx). apply andb_true_iff in H as [_ H]. rewrite Z.eqb_sym. exact H.
Qed.

Lemma substr_middle (a b c : list Z) :
  substr (a ++ b ++ c) (length a) (length a + length b) = b.
Proof.
  unfold substr. rewrite drop_app_length.
  replace (length a + length b - length a)%nat with (length b) by lia.
  apply take_app_length.
Qed.

Lemma occurrence_other c x k p rest :
  c <> x -> occurrence c k p (x :: rest) = occurrence c k (S p) rest.
Proof. intros Hx. cbn [occurrence]. apply Z.eqb_neq in Hx. rewrite Hx. reflexivity. Qed.

Lemma open_not_close : byte_of "(" <> byte_of ")".
Proof. discriminate. Qed.

Lemma close_not_open : byte_of ")" <> byte_of "(".
Proof. discriminate. Qed.

(** The brackets of a line [obis ( v1 ) rest]: the first ['('] and the
    first [')'] are those around [v1]. *)
Lemma first_pair obis v1 rest :
  no_bracket obis = true -> no_bracket v1 = true ->
  let line := obis ++ [byte_of "("] ++ v1 ++ [byte_of ")"] ++ rest in
  occurrence (byte_of "(") 0 0 line = Some (length obis) /\
  occurrence (byte_of ")") 0 0 line = Some (length obis + 1 + length v1)%nat /\
  occurrence (byte_of "(") 1 0 line
  = occurrence (byte_of "(") 0 (length obis + 1 + length v1 + 1)%nat rest /\
  occurrence (byte_of ")") 1 0 line
  = occurrence (byte_of ")") 0 (length obis + 1 + length v1 + 1)%nat rest.
Proof.
  intros Ho Hv. cbv zeta. cbn [app].
  split_and!.
  - rewrite occurrence_skip by (apply no_bracket_open, Ho). apply occurrence_here.
  - rewrite occurrence_skip by (apply no_bracket_close, Ho).
    rewrite occurrence_other by exact close_not_open.
    rewrite occurrence_skip by (apply no_bracket_close, Hv).
    rewrite occurrence_here. f_equal. lia.
  - rewrite occurrence_skip by (apply no_bracket_open, Ho).
    rewrite occurrence_next.
    rewrite occurrence_skip by (apply no_bracket_open, Hv).
    rewrite occurrence_other by exact open_not_close. f_equal. lia.
  - rewrite occurrence_skip by (apply no_bracket_close, Ho).
    rewrite occurrence_other by exact close_not_open.
    rewrite occurrence_skip by (apply no_bracket_close, Hv).
    rewrite occurrence_next. f_equal. lia.
Qed.

Lemma parse_line_first_pair obis v1 rest :
  no_bracket obis = true -> no_bracket v1 = true -> validate_obis_ obis = true ->
  let line := obis ++ [byte_of "("] ++ v1 ++ [byte_of ")"] ++ rest in
  parse_line_ line =
  Some (obis, v1,
        match occurrence (byte_of "(") 1 0 line, occurrence (byte_of ")") 1 0 line with
        | Some ob2, Some cb2 => if (ob2 <? cb2)%nat then substr line (ob2 + 1) cb2 else []
        | _, _ => []
        end).
Proof.
  intros Ho Hv Hval. cbv zeta.
  destruct (first_pair obis v1 rest Ho Hv) as (H1 & H2 & _).
  unfold parse_line_. rewrite scan_brackets_occurrence.
  cbn [open_bracket close_bracket open_bracket2 close_bracket2 or_else is_null no_brackets].
  rewrite H1, H2.
  replace (length obis + 1 + length v1 <? length obis)%nat with false
    by (symmetry; apply Nat.ltb_ge; lia).
  assert (E0 : substr (obis ++ [byte_of "("] ++ v1 ++ [byte_of ")"] ++ rest) 0 (length obis)
               = obis).
  { unfold substr. rewrite drop_0, Nat.sub_0_r. apply take_app_length. }
  assert (E1 : substr (obis ++ [byte_of "("] ++ v1 ++ [byte_of ")"] ++ rest) (length obis + 1)
                 (length obis + 1 + length v1) = v1).
  { pose proof (substr_middle (obis ++ [byte_of "("]) v1 ([byte_of ")"] ++ rest)) as Hm.
    rewrite length_app in Hm. cbn [length] in Hm.
    rewrite <- !app_assoc in Hm. exact Hm. }
  rewrite E0, E1, Hval. reflexivity.
Qed.

(** X2: a line written as [obis ( value1 )] or as
    [obis ( value1 ) ( value2 )], where the three texts hold no round
    bracket and [obis] passes [validate_obis_], is parsed back into
    these texts; value 2 is empty when the line has one pair. *)
Theorem parse_line_roundtrip (obis v1 v2 : list Z) :
  no_bracket obis = true -> no_bracket v1 = true -> no_bracket v2 = true ->
  validate_obis_ obis = true ->
  parse_line_ (obis ++ [byte_of "("] ++ v1 ++ [byte_of ")"]) = Some (obis, v1, []) /\
  parse_line_ (obis ++ [byte_of "("] ++ v1 ++ [byte_of ")"]
               ++ [byte_of "("] ++ v2 ++ [byte_of ")"]) = Some (obis, v1, v2).
Proof.
  intros Ho Hv1 Hv2 Hval. split.
  - pose proof (parse_line_first_pair obis v1 [] Ho Hv1 Hval) as H. cbv zeta in H.
    destruct (first_pair obis v1 [] Ho Hv1) as (_ & _ & H3 & H4). cbv zeta in H3, H4.
    rewrite H3 in H. cbn [occurrence] in H. rewrite app_nil_r in H. exact H.
  - pose proof (parse_line_first_pair obis v1 ([byte_of "("] ++ v2 ++ [byte_of ")"])
                  Ho Hv1 Hval) as H.
    cbv zeta in H.
    destruct (first_pair obis v1 ([byte_of "("] ++ v2 ++ [byte_of ")"]) Ho Hv1)
      as (_ & _ & H3 & H4).
    cbv zeta in H3, H4. rewrite H3, H4 in H. cbn [app] in H |- *.
    rewrite occurrence_here in H.
    rewrite occurrence_other in H by exact close_not_open.
    rewrite occurrence_skip in H by (apply no_bracket_close, Hv2).
    rewrite occurrence_here in H.
    replace (_ <? _)%nat with true in H by (symmetry; apply Nat.ltb_lt; lia).
    rewrite H. do 3 f_equal.
    pose proof (substr_middle (obis ++ [byte_of "("] ++ v1 ++ [byte_of ")"] ++ [byte_of "("])
                  v2 [byte_of ")"]) as Hm.
    rewrite !length_app in Hm. cbn [length] in Hm.
    rewrite <- !app_assoc in Hm. cbn [app] in Hm |- *.
    etransitivity; [|exact Hm]. f_equal; lia.
Qed.

Lemma parse_line_roundtrip_witness :
  parse_line_ (bytes_of "1.8.0(001234.567*kWh)")
  = Some (bytes_of "1.8.0", bytes_of "001234.567*kWh", []) /\
  parse_line_ (bytes_of "0.9.2(2024-01-31)(12:00:00)")
  = Some (bytes_of "0.9.2", bytes_of "2024-01-31", bytes_of "12:00:00").
Proof.
  split.
  - exact (proj1 (parse_line_roundtrip (bytes_of "1.8.0") (bytes_of "001234.567*kWh") []
                    eq_refl eq_refl eq_refl eq_refl)).
  - exact (proj2 (parse_line_roundtrip (bytes_of "0.9.2") (bytes_of "2024-01-31")
                    (bytes_of "12:00:00") eq_refl eq_refl eq_refl eq_refl)).
Defined.

Lemma occurrence_found c line : forall p q,
  occurrence c 0 p line = Some q ->
  exists a rest,
    line = a ++ c :: rest /\ q = (p + length a)%nat /\
    forallb (fun x => negb (c =? x)) a = true.
Proof.
  induction line as [|x line IH]; intros p q H; [discriminate|].
  cbn [occurrence] in H. destruct (Z.eqb_spec c x) as [<-|Hx].
  - injection H as <-. exists [], line. cbn. split_and!; [reflexivity | lia | reflexivity].
  - destruct (IH _ _ H) as (a & rest & -> & -> & Ha).
    exists (x :: a), rest. cbn [app length forallb]. split_and!; [reflexivity | lia |].
    apply Z.eqb_neq in Hx. rewrite Hx. exact Ha.
Qed.

(** X3: what [parse_line_] accepts.  When it returns the three texts,
    the line is [obis ( value1 ) rest] for some [rest], [obis] holds no
    round bracket and passes [validate_obis_], and [value1] holds no
    [')']; so a line without ['('] or without [')'] is rejected. *)
Theorem parse_line_sound (line : list Z) :
  (forall obis v1 v2, parse_line_ line = Some (obis, v1, v2) ->
     exists rest,
       line = obis ++ [byte_of "("] ++ v1 ++ [byte_of ")"] ++ rest /\
       no_bracket obis = true /\
       forallb (fun x => negb (byte_of ")" =? x)) v1 = true /\
       validate_obis_ obis = true) /\
  (forallb (fun x => negb (byte_of "(" =? x)) line = true -> parse_line_ line = None) /\
  (forallb (fun x => negb (byte_of ")" =? x)) line = true -> parse_line_ line = None).
Proof.
  split_and!.
  - intros obis v1 v2. unfold parse_line_. rewrite scan_brackets_occurrence.
    cbn [open_bracket close_bracket open_bracket2 close_bracket2 or_else is_null no_brackets].
    destruct (occurrence (byte_of "(") 0 0 line) as [ob|] eqn:Eo; [|discriminate].
    destruct (occurrence (byte_of ")") 0 0 line) as [cb|] eqn:Ec; [|discriminate].
    destruct (cb <? ob)%nat eqn:Elt; [discriminate|]. apply Nat.ltb_ge in Elt.
    destruct (validate_obis_ _) eqn:Ev; [|discriminate].
    intros [= <- <- _].
    destruct (occurrence_found _ _ _ _ Eo) as (a & r1 & Hl1 & -> & Ha).
    destruct (occurrence_found _ _ _ _ Ec) as (b & r2 & Hl2 & -> & Hb).
    cbn [Nat.add] in *.
    assert (Hne : length a <> length b).
    { intros He. assert (Hx : line !! length a = Some (byte_of "(")).
      { rewrite Hl1. apply list_lookup_middle. reflexivity. }
      rewrite Hl2, He in Hx. rewrite list_lookup_middle in Hx by reflexivity. discriminate Hx. }
    assert (Hb' : b = a ++ byte_of "(" :: take (length b - length a - 1) r1).
    { assert (Ht : take (length b) line = b) by (rewrite Hl2; apply take_app_length).
      rewrite <- Ht at 1. rewrite Hl1. rewrite take_app_ge by lia.
      f_equal. destruct (length b - length a)%nat as [|k] eqn:Ek; [lia|].
      cbn [take]. do 2 f_equal. lia. }
    assert (Hr : drop (length b - length a - 1) r1 = byte_of ")" :: r2).
    { assert (Hd : drop (length b) line = byte_of ")" :: r2)
        by (rewrite Hl2; apply drop_app_length).
      rewrite <- Hd. rewrite Hl1. rewrite drop_app_ge by lia.
      destruct (length b - length a)%nat as [|k] eqn:Ek; [lia|].
      cbn [drop]. f_equal. lia. }
    assert (E0 : substr line 0 (length a) = a).
    { unfold substr. rewrite drop_0, Nat.sub_0_r, Hl1. apply take_app_length. }
    assert (E1 : substr line (length a + 1) (length b) = take (length b - length a - 1) r1).
    { unfold substr. rewrite Hl1.
      rewrite drop_app_ge by lia.
      replace (length a + 1 - length a)%nat with 1%nat by lia. cbn [drop].
      f_equal. lia. }
    rewrite E0 in *. rewrite E1.
    exists r2. split_and!.
    + rewrite Hl1 at 1. cbn [app]. do 2 f_equal.
      rewrite <- Hr. symmetry. apply take_drop.
    + rewrite Hb' in Hb. rewrite forallb_app in Hb. apply andb_true_iff in Hb as [Hb1 _].
      unfold no_bracket. rewrite forallb_forall in *. intros x Hx.
      specialize (Ha x Hx). specialize (Hb1 x Hx).
      rewrite (Z.eqb_sym x), (Z.eqb_sym x (byte_of ")")), Ha, Hb1. reflexivity.
    + rewrite Hb' in Hb. rewrite forallb_app in Hb. apply andb_true_iff in Hb as [_ Hb2].
      cbn [forallb] in Hb2. apply andb_true_iff in Hb2 as [_ Hb2]. exact Hb2.
    + exact Ev.
  - intros Hno. unfold parse_line_. rewrite scan_brackets_occurrence.
    cbn [open_bracket close_bracket open_bracket2 close_bracket2 or_else is_null no_brackets].
    rewrite occurrence_none by exact Hno. reflexivity.
  - intros Hno. unfold parse_line_. rewrite scan_brackets_occurrence.
    cbn [open_bracket close_bracket open_bracket2 close_bracket2 or_else is_null no_brackets].
    rewrite (occurrence_none (byte_of ")")) by exact Hno.
    destruct (occurrence _ _ _ _); reflexivity.
Qed.

Lemma parse_line_sound_witness :
  parse_line_ (bytes_of "1.8.0*kWh") = None /\
  parse_line_ (bytes_of "1.8.0(12") = None /\
  exists rest,
    bytes_of "1.8.0(12)*kWh" = bytes_of "1.8.0" ++ [byte_of "("] ++ bytes_of "12"
                               ++ [byte_of ")"] ++ rest.
Proof.
  destruct (parse_line_sound (bytes_of "1.8.0*kWh")) as (_ & Ho & _).
  destruct (parse_line_sound (bytes_of "1.8.0(12")) as (_ & _ & Hc).
  destruct (parse_line_sound (bytes_of "1.8.0(12)*kWh")) as (Hs & _ & _).
  split; [exact (Ho eq_refl)|]. split; [exact (Hc eq_refl)|].
  destruct (Hs (bytes_of "1.8.0") (bytes_of "12") [] eq_refl) as (rest & Hl & _).
  exists rest. exact Hl.
Defined.

(** ** Frame builder *)

Lemma push_out_spec c s :
  (data_out_size_ s < length (out_buf_ s))%nat ->
  let s1 := snd (push_out c s) in
  out_frame s1 = out_frame s ++ [c] /\
  data_out_size_ s1 = (data_out_size_ s + 1)%nat /\
  length (out_buf_ s1) = length (out_buf_ s).
Proof.
  intros Hfit. cbv zeta. unfold push_out, out_frame. run. fields.
  rewrite aset_nat. split_and!.
  - replace (data_out_size_ s + 1)%nat with (S (data_out_size_ s)) by lia.
    rewrite (take_S_r _ _ c) by (apply list_lookup_insert_eq; lia).
    rewrite take_insert_ge by lia. reflexivity.
  - reflexivity.
  - apply length_insert.
Qed.

Lemma push_all_spec cs : forall s,
  (data_out_size_ s + length cs <= length (out_buf_ s))%nat ->
  let s1 := snd (push_all cs s) in
  out_frame s1 = out_frame s ++ cs /\
  data_out_size_ s1 = (data_out_size_ s + length cs)%nat /\
  length (out_buf_ s1) = length (out_buf_ s).
Proof.
  induction cs as [|c cs IH]; intros s Hfit; cbv zeta.
  - cbn [push_all ret snd length]. rewrite app_nil_r, Nat.add_0_r. auto.
  - cbn [length] in Hfit. cbn [push_all]. unfold bind. cbn [fst snd].
    destruct (push_out_spec c s ltac:(lia)) as (Hf & Hn & Hl).
    destruct (IH (snd (push_out c s)) ltac:(rewrite Hn, Hl; lia)) as (Hf' & Hn' & Hl').
    rewrite Hf', Hn', Hl', Hf, Hn. cbn [length].
    split_and!; [rewrite <- app_assoc; reflexivity | lia | exact Hl].
Qed.

(** X4: when [out_buf_] has room for the code and 8 more bytes,
    [build_readout_command_] leaves in it the frame
    [SOH 'R' '1' STX code '(' ')' ETX bcc], whose last byte is the
    checksum of the bytes after [SOH]: the checksum of everything after
    [SOH], [bcc] included, is zero. *)
Theorem build_readout_command_frame (obis_code : list Z) (s : Component) :
  (length obis_code + 8 <= length (out_buf_ s))%nat ->
  let s' := snd (build_readout_command_ obis_code s) in
  let body := [byte_of "R"; byte_of "1"; STX] ++ obis_code
              ++ [byte_of "("; byte_of ")"; ETX] in
  out_frame s' = [SOH] ++ body ++ [xor_checksum body] /\
  data_out_size_ s' = (length obis_code + 8)%nat /\
  xor_checksum (drop 1 (out_frame s')) = 0 /\
  length (out_buf_ s') = length (out_buf_ s).
Proof.
  intros Hfit. cbv zeta.
  set (s0 := set_data_out_size_ 0 s).
  set (s4 := snd ((push_out SOH ;; push_out (byte_of "R") ;; push_out (byte_of "1") ;;
                   push_out STX) s0)).
  set (s5 := snd (push_all obis_code s4)).
  set (s8 := snd ((push_out (byte_of "(") ;; push_out (byte_of ")") ;; push_out ETX) s5)).
  set (bcc := xor_checksum (drop 1 (out_frame s8))).
  assert (Hrun : snd (build_readout_command_ obis_code s) = snd (push_out bcc s8))
    by reflexivity.
  assert (H4 : out_frame s4 = [SOH; byte_of "R"; byte_of "1"; STX] /\
               data_out_size_ s4 = 4%nat /\ length (out_buf_ s4) = length (out_buf_ s)).
  { subst s4. unfold bind. cbn [fst snd].
    destruct (push_out_spec SOH s0 ltac:(subst s0; fields; lia)) as (Hf1 & Hn1 & Hl1).
    destruct (push_out_spec (byte_of "R") _ ltac:(rewrite Hn1, Hl1; subst s0; fields; lia))
      as (Hf2 & Hn2 & Hl2).
    destruct (push_out_spec (byte_of "1") _
                ltac:(rewrite Hn2, Hl2, Hn1, Hl1; subst s0; fields; lia))
      as (Hf3 & Hn3 & Hl3).
    destruct (push_out_spec STX _
                ltac:(rewrite Hn3, Hl3, Hn2, Hl2, Hn1, Hl1; subst s0; fields; lia))
      as (Hf4 & Hn4 & Hl4).
    rewrite Hf4, Hf3, Hf2, Hf1, Hn4, Hn3, Hn2, Hn1, Hl4, Hl3, Hl2, Hl1.
    subst s0. unfold out_frame. fields. rewrite take_0. split_and!; reflexivity. }
  destruct H4 as (Hf4 & Hn4 & Hl4).
  destruct (push_all_spec obis_code s4 ltac:(rewrite Hn4, Hl4; lia)) as (Hf5 & Hn5 & Hl5).
  fold s5 in Hf5, Hn5, Hl5. rewrite Hf4 in Hf5. rewrite Hn4 in Hn5. rewrite Hl4 in Hl5.
  assert (H8 : out_frame s8 = out_frame s5 ++ [byte_of "("; byte_of ")"; ETX] /\
               data_out_size_ s8 = (data_out_size_ s5 + 3)%nat /\
               length (out_buf_ s8) = length (out_buf_ s5)).
  { subst s8. unfold bind. cbn [fst snd].
    destruct (push_out_spec (byte_of "(") s5 ltac:(rewrite Hn5, Hl5; lia)) as (Hf1 & Hn1 & Hl1).
    destruct (push_out_spec (byte_of ")") _ ltac:(rewrite Hn1, Hl1, Hn5, Hl5; lia))
      as (Hf2 & Hn2 & Hl2).
    destruct (push_out_spec ETX _ ltac:(rewrite Hn2, Hl2, Hn1, Hl1, Hn5, Hl5; lia))
      as (Hf3 & Hn3 & Hl3).
    rewrite Hf3, Hf2, Hf1, Hn3, Hn2, Hn1, Hl3, Hl2, Hl1.
    split_and!; [rewrite <- !app_assoc; reflexivity | lia | reflexivity]. }
  destruct H8 as (Hf8 & Hn8 & Hl8).
  destruct (push_out_spec bcc s8 ltac:(rewrite Hn8, Hl8, Hn5, Hl5; lia)) as (Hf9 & Hn9 & Hl9).
  rewrite Hrun, Hf9, Hn9, Hl9, Hn8, Hl8, Hn5, Hl5.
  assert (Hbody : out_frame s8 = [SOH] ++ ([byte_of "R"; byte_of "1"; STX] ++ obis_code
                                   ++ [byte_of "("; byte_of ")"; ETX])).
  { rewrite Hf8, Hf5, <- app_assoc. reflexivity. }
  assert (Hbcc : bcc = xor_checksum ([byte_of "R"; byte_of "1"; STX] ++ obis_code
                                     ++ [byte_of "("; byte_of ")"; ETX])).
  { subst bcc. rewrite Hbody. reflexivity. }
  split_and!.
  - rewrite Hbody, Hbcc, <- app_assoc. reflexivity.
  - lia.
  - rewrite Hbody. cbn [app drop].
    change (byte_of "R" :: byte_of "1" :: STX
            :: (obis_code ++ [byte_of "("; byte_of ")"; ETX]) ++ [bcc])
      with (([byte_of "R"; byte_of "1"; STX] ++ obis_code
             ++ [byte_of "("; byte_of ")"; ETX]) ++ [bcc]).
    rewrite Hbcc. unfold xor_checksum. rewrite update_lrc_app. cbn [update_lrc].
    apply Z.lxor_nilpotent.
  - reflexivity.
Qed.

(** The command for the first code of [obis_codes_] is the constant
    [readout_energy] of the source file. *)
Lemma build_readout_command_frame_witness :
  let s := sample_component sample_header (sample_config false 2) ASK_FOR_ENERGY []
             (fun _ => 0) in
  out_frame (snd (build_readout_command_ (bytes_of "0F0880FF") s))
  = [SOH; byte_of "R"; byte_of "1"; STX] ++ bytes_of "0F0880FF"
    ++ [byte_of "("; byte_of ")"; ETX; 0x15].
Proof.
  cbv zeta.
  destruct (build_readout_command_frame (bytes_of "0F0880FF")
              (sample_component sample_header (sample_config false 2) ASK_FOR_ENERGY []
                 (fun _ => 0))
              ltac:(vm_compute; lia)) as (Hf & _).
  rewrite Hf. reflexivity.
Defined.

(** ** Sensors *)

(** X5: the update of the sensors after a data line changes nothing but
    values, and only those of the sensors registered for the OBIS code
    of the line; a numeric sensor takes value 1 only when
    [validate_float_] accepts it and keeps what it holds otherwise. *)
Theorem update_range_touches (in_buf obis value1 value2 : list Z) (xs : list Sensor) :
  Forall2
    (fun x y =>
       get_obis y = get_obis x /\ get_type y = get_type x /\ get_group y = get_group x /\
       (get_obis x <> obis -> y = x) /\
       (get_type x = SENSOR -> validate_float_ value1 = false -> y = x) /\
       (numeric_ok x -> numeric_ok y))
    xs (fst (update_range in_buf obis value1 value2 xs)).
Proof.
  induction xs as [|x xs IH]; cbn [update_range]; [constructor|].
  destruct (bool_decide (get_obis x = obis)) eqn:E; cbn [fst];
    (constructor; [|exact IH]).
  - apply bool_decide_eq_true in E. unfold set_sensor_value_, numeric_ok.
    destruct (get_type x) eqn:Et; [destruct (validate_float_ value1) eqn:Ev|];
      cbn [fst set_value get_obis get_type get_group value]; rewrite ?Et;
      split_and!; try reflexivity; try congruence; try (intros; congruence);
      try (intros Hx; exact Hx).
  - split_and!; try reflexivity. intros Hx. exact Hx.
Qed.

(** ** Frame assembler: every input *)

(** A size that is not positive. *)
Ltac nope := let H := fresh in intros H; exfalso; lia.

Section AssemblerSafety.
Context (h : Header).

(** What the terminator tests leave: the state as it was when no test
    succeeds; otherwise the accumulator is emptied, the buffer is kept,
    the clock has been read at most once, and what is returned is 0
    (an echo) or the size of the accumulation, which a test accepts. *)
Lemma check_terminators_post s :
  buffers_ok h s ->
  let r := check_terminators s in
  match fst r with
  | None => snd r = s
  | Some n =>
      buffers_ok h (snd r) /\ data_in_size_ (snd r) = 0%nat /\
      in_buf_ (snd r) = in_buf_ s /\
      rx (uart (snd r)) = rx (uart s) /\ tx (uart (snd r)) = tx (uart s) /\
      clock (uart (snd r)) = clock (uart s) /\
      (n = 0%nat \/
       n = data_in_size_ s /\ completes (accumulated s) = true /\
       ticks (uart (snd r)) = S (ticks (uart s)) /\
       last_transmission_from_meter_timestamp_ (snd r)
       = u32 (clock (uart s) (ticks (uart s))))
  end.
Proof.
  intros Hok. cbv zeta.
  pose proof (state_last h s Hok) as Hl. pose proof (state_before_last h s Hok) as Hb.
  pose proof (accumulated_length h s Hok) as Hn.
  destruct Hok as [Hlen Hle Hpos Hout].
  unfold check_terminators. run. rewrite Hl, Hb.
  unfold completes. rewrite Hn.
  destruct (last_byte (accumulated s) =? ACK) eqn:E1.
  { unfold update_last_transmission_from_meter_timestamp_, millis. run. fields.
    split_and!; try reflexivity; [constructor; fields; auto; lia|].
    right. split_and!; reflexivity. }
  destruct ((2 <=? data_in_size_ s)%nat && (ETX =? before_last_byte (accumulated s))) eqn:E2.
  { unfold update_last_transmission_from_meter_timestamp_, millis. run. fields.
    split_and!; try reflexivity; [constructor; fields; auto; lia|].
    right. split_and!; reflexivity. }
  destruct (STX =? last_byte (accumulated s)) eqn:E3.
  { unfold update_last_transmission_from_meter_timestamp_, reset_lrc_, millis. run. fields.
    split_and!; try reflexivity; [constructor; fields; auto; lia|].
    right. split_and!; reflexivity. }
  destruct ((2 <=? data_in_size_ s)%nat && (CR =? before_last_byte (accumulated s))
            && (LF =? last_byte (accumulated s))) eqn:E4; [|reflexivity].
  destruct ((data_in_size_ s =? data_out_size_ s)%nat && _).
  - run. fields. split_and!; try reflexivity; [constructor; fields; auto; lia|].
    left. reflexivity.
  - unfold update_last_transmission_from_meter_timestamp_, millis. run. fields.
    split_and!; try reflexivity; [constructor; fields; auto; lia|].
    right. split_and!; reflexivity.
Qed.

Lemma pushed_uart b rest s :
  buffers_ok h s -> tx (uart (pushed h b rest s)) = tx (uart s) /\
  rx (uart (pushed h b rest s)) = rest /\
  clock (uart (pushed h b rest s)) = clock (uart s) /\
  ticks (uart (pushed h b rest s)) = ticks (uart s).
Proof.
  intros Hok. destruct (pushed_props h b rest s Hok) as (_ & _ & _ & _ & _ & Hu & _).
  rewrite Hu. split_and!; reflexivity.
Qed.

(** The loop of [receive_frame_] on any bytes and any clock. *)
Lemma receive_loop_post ws bytes : forall s,
  buffers_ok h s -> rx (uart s) = bytes ->
  let r := receive_loop h ws bytes s in
  buffers_ok h (snd r) /\
  (fst r <= MAX_IN_BUF_SIZE h)%nat /\
  tx (uart (snd r)) = tx (uart s) /\
  clock (uart (snd r)) = clock (uart s) /\
  (exists pre, bytes = pre ++ rx (uart (snd r))) /\
  ((0 < fst r)%nat ->
     completes (take (fst r) (in_buf_ (snd r))) = true /\
     data_in_size_ (snd r) = 0%nat /\
     (ticks (uart s) < ticks (uart (snd r)))%nat /\
     last_transmission_from_meter_timestamp_ (snd r)
     = u32 (clock (uart s) (ticks (uart (snd r)) - 1))).
Proof.
  induction bytes as [|b rest IH]; intros s Hok Hrx; cbv zeta.
  - cbn [receive_loop]. unfold make_room, millis. run. fields.
    destruct Hok as [Hlen Hle Hpos Hout].
    destruct (max_while_ms <? _); cbn [fst snd]; fields;
      [|destruct (data_in_size_ s <? MAX_IN_BUF_SIZE h)%nat eqn:E; run; fields];
      (split_and!;
       [constructor; fields; auto | lia | reflexivity | reflexivity
       | exists []; exact (eq_sym Hrx) | nope]).
    apply Nat.ltb_ge in E.
    unfold memmove_left. rewrite length_app, length_take, !length_drop. lia.
  - destruct (Z.ltb_spec max_while_ms (u32 (u32 (clock (uart s) (ticks (uart s))) - ws)))
      as [Hover|Hin].
    + cbn [receive_loop]. unfold millis. run. fields.
      apply Z.ltb_lt in Hover. rewrite Hover. cbn [fst snd]. fields.
      split_and!; [destruct Hok; constructor; assumption | lia | reflexivity | reflexivity
                  | exists []; exact (eq_sym Hrx) | nope].
    + rewrite receive_loop_turn by exact Hin. cbv zeta.
      pose proof (millis_props h s Hok) as Hok1.
      pose proof (pushed_props h b rest (snd (millis s)) Hok1)
        as (Hok2 & Hacc2 & Hn2 & _ & _ & Hu2 & _ & _).
      set (s2 := pushed h b rest (snd (millis s))) in *.
      assert (Hu : tx (uart s2) = tx (uart s) /\ rx (uart s2) = rest /\
                   clock (uart s2) = clock (uart s) /\ ticks (uart s2) = S (ticks (uart s))).
      { rewrite Hu2. split_and!; reflexivity. }
      destruct Hu as (Htx2 & Hrx2 & Hclk2 & Htk2).
      pose proof (check_terminators_post s2 Hok2) as Hc. cbv zeta in Hc.
      destruct (fst (check_terminators s2)) as [n|] eqn:En.
      * destruct Hc as (Hok3 & Hz & Hbuf & Hrx3 & Htx3 & Hclk3 & Hn).
        cbn [fst snd]. split_and!.
        -- exact Hok3.
        -- destruct Hn as [->|(-> & _)]; [lia|]. destruct Hok2; lia.
        -- congruence.
        -- congruence.
        -- exists [b]. rewrite Hrx3, Hrx2. reflexivity.
        -- intros Hpos. destruct Hn as [->|(-> & Hcomp & Htk3 & Hts)]; [lia|].
           split_and!.
           ++ rewrite Hbuf. exact Hcomp.
           ++ exact Hz.
           ++ lia.
           ++ rewrite Hts, Htk3, Hclk2, Htk2. f_equal; f_equal; lia.
      * rewrite Hc.
        destruct (IH s2 Hok2 Hrx2) as (Hok' & Hle' & Htx' & Hclk' & (pre & Hpre) & Hpos').
        split_and!.
        -- exact Hok'.
        -- exact Hle'.
        -- congruence.
        -- congruence.
        -- exists (b :: pre). cbn [app]. f_equal. exact Hpre.
        -- intros Hpos. destruct (Hpos' Hpos) as (Hc' & Hz' & Htk' & Hts').
           split_and!; [exact Hc' | exact Hz' | lia |].
           rewrite Hts', Hclk2. reflexivity.
Qed.

(** X6: [receive_frame_] keeps the buffers within their bounds on any
    input and any clock: the accumulated count and the returned size
    never exceed [MAX_IN_BUF_SIZE].  It transmits nothing, and the
    bytes left in the receive buffer are a tail of those that were
    there: it takes bytes in order, from the front. *)
Theorem receive_frame_safe (s : Component) :
  buffers_ok h s ->
  let r := receive_frame_ h s in
  buffers_ok h (snd r) /\
  (fst r <= MAX_IN_BUF_SIZE h)%nat /\
  tx (uart (snd r)) = tx (uart s) /\
  exists taken, rx (uart s) = taken ++ rx (uart (snd r)).
Proof.
  intros Hok. cbv zeta. unfold receive_frame_, available. run.
  destruct (length (rx (uart s)) <=? 0)%nat.
  - cbn [fst snd]. split_and!; [exact Hok | lia | reflexivity | exists []; reflexivity].
  - destruct (receive_loop_post (fst (millis s)) (rx (uart s)) (snd (millis s))
                (millis_props h s Hok) eq_refl) as (H1 & H2 & H3 & _ & H5 & _).
    cbv zeta in H1, H2, H3, H5.
    change (rx (uart (snd (millis s)))) with (rx (uart s)).
    split_and!; [exact H1 | exact H2 | exact H3 | exact H5].
Qed.

(** X7: what [receive_frame_] returns is never a partial frame: a
    non-zero result is the size of an accumulation that one of the four
    terminator tests accepts; the accumulator is then empty and the
    time of the last transmission from the meter is the last reading of
    the clock made. *)
Theorem receive_frame_terminated (s : Component) :
  buffers_ok h s ->
  let r := receive_frame_ h s in
  (0 < fst r)%nat ->
  completes (take (fst r) (in_buf_ (snd r))) = true /\
  data_in_size_ (snd r) = 0%nat /\
  (ticks (uart s) < ticks (uart (snd r)))%nat /\
  last_transmission_from_meter_timestamp_ (snd r)
  = u32 (clock (uart s) (ticks (uart (snd r)) - 1)).
Proof.
  intros Hok. cbv zeta. unfold receive_frame_, available. run.
  destruct (length (rx (uart s)) <=? 0)%nat.
  - cbn [fst snd]. nope.
  - destruct (receive_loop_post (fst (millis s)) (rx (uart s)) (snd (millis s))
                (millis_props h s Hok) eq_refl) as (_ & _ & _ & _ & _ & H6).
    cbv zeta in H6.
    change (rx (uart (snd (millis s)))) with (rx (uart s)).
    change (ticks (uart (snd (millis s)))) with (S (ticks (uart s))) in H6.
    change (clock (uart (snd (millis s)))) with (clock (uart s)) in H6.
    intros Hpos. destruct (H6 Hpos) as (Ha & Hb & Hc & Hd).
    split_and!; [exact Ha | exact Hb | lia | exact Hd].
Qed.
End AssemblerSafety.

Section AssemblerFrames.
Context (h : Header).

(** The accumulator is a window on the bytes received: it holds the
    last [MAX_IN_BUF_SIZE] of them. *)
Lemma accumulate_window bytes : forall acc,
  (0 < MAX_IN_BUF_SIZE h)%nat -> (length acc <= MAX_IN_BUF_SIZE h)%nat ->
  accumulate h acc bytes = last_n (MAX_IN_BUF_SIZE h) (acc ++ bytes) /\
  (length (accumulate h acc bytes) <= MAX_IN_BUF_SIZE h)%nat.
Proof.
  unfold last_n.
  induction bytes as [|b bytes IH]; intros acc Hpos Hlen; cbn [accumulate].
  - rewrite app_nil_r. replace (length acc - MAX_IN_BUF_SIZE h)%nat with 0%nat by lia.
    split; [reflexivity | exact Hlen].
  - unfold slide. destruct (length acc <? MAX_IN_BUF_SIZE h)%nat eqn:E.
    + apply Nat.ltb_lt in E.
      destruct (IH (acc ++ [b]) Hpos) as [IH1 IH2]; [rewrite length_app; cbn; lia|].
      rewrite IH1. rewrite <- !app_assoc. cbn [app]. split; [reflexivity|].
      rewrite IH1 in IH2. rewrite <- !app_assoc in IH2. exact IH2.
    + apply Nat.ltb_ge in E.
      destruct (IH (drop 1 acc ++ [b]) Hpos) as [IH1 IH2].
      { rewrite length_app, length_drop. cbn. lia. }
      split; [|exact IH2].
      rewrite IH1. rewrite <- !app_assoc. cbn [app].
      destruct acc as [|a acc]; cbn [length] in E, Hlen; [lia|].
      cbn [drop]. rewrite drop_0.
      rewrite !length_app. cbn [length app].
      replace (S (length acc) + S (length bytes) - MAX_IN_BUF_SIZE h)%nat
        with (S (length acc + S (length bytes) - MAX_IN_BUF_SIZE h)) by lia.
      reflexivity.
Qed.

Lemma receive_side_only_fields s s1 :
  receive_side_only s s1 ->
  lrc_ s1 = lrc_ s /\ readout_lrc_ s1 = readout_lrc_ s /\
  last_transmission_from_meter_timestamp_ s1 = last_transmission_from_meter_timestamp_ s /\
  trace s1 = trace s.
Proof. intros H. rewrite H. split_and!; reflexivity. Qed.

(** The [ACK] test succeeds. *)
Lemma check_terminators_ack s :
  aget (in_buf_ s) (Z.of_nat (data_in_size_ s) - 1) = ACK ->
  let r := check_terminators s in
  fst r = Some (data_in_size_ s) /\ in_buf_ (snd r) = in_buf_ s /\
  data_in_size_ (snd r) = 0%nat /\
  lrc_ (snd r) = lrc_ s /\ readout_lrc_ (snd r) = readout_lrc_ s.
Proof.
  intros Hack. cbv zeta. unfold check_terminators. run. rewrite Hack.
  change (ACK =? ACK) with true. cbv iota.
  unfold update_last_transmission_from_meter_timestamp_, millis. run. fields.
  split_and!; reflexivity.
Qed.

(** The [STX] test is reached and succeeds. *)
Lemma check_terminators_stx s :
  aget (in_buf_ s) (Z.of_nat (data_in_size_ s) - 1) = STX ->
  ((data_in_size_ s < 2)%nat \/ aget (in_buf_ s) (Z.of_nat (data_in_size_ s) - 2) <> ETX) ->
  let r := check_terminators s in
  fst r = Some (data_in_size_ s) /\ in_buf_ (snd r) = in_buf_ s /\
  data_in_size_ (snd r) = 0%nat /\
  lrc_ (snd r) = 0 /\ readout_lrc_ (snd r) = readout_lrc_ s.
Proof.
  intros Hstx Hetx. cbv zeta. unfold check_terminators. run. rewrite Hstx.
  change (STX =? ACK) with false. change (STX =? STX) with true. cbv iota.
  replace ((2 <=? data_in_size_ s)%nat && (ETX =? _)) with false.
  2:{ symmetry. apply andb_false_iff. destruct Hetx as [Hlt|Hne].
      - left. apply Nat.leb_gt. exact Hlt.
      - right. apply Z.eqb_neq. congruence. }
  unfold update_last_transmission_from_meter_timestamp_, reset_lrc_, millis. run. fields.
  split_and!; reflexivity.
Qed.

(** X8: an accumulation that comes to end in [ACK], no frame being
    completed before, is returned as the frame by the first test,
    whatever precedes the [ACK]: the frame is the last
    [MAX_IN_BUF_SIZE] bytes accumulated, the accumulator is emptied,
    and neither the received checksum [readout_lrc_] nor the running
    checksum [lrc_] is written, even when the byte before is [ETX]. *)
Theorem receive_frame_ack (s : Component) (pre rest : list Z) :
  buffers_ok h s ->
  rx (uart s) = pre ++ [ACK] ++ rest ->
  quiet h (accumulated s) pre ->
  in_budget (clock (uart s)) (u32 (clock (uart s) (ticks (uart s))))
    (S (ticks (uart s))) (length pre + 1) ->
  let frame := last_n (MAX_IN_BUF_SIZE h) (accumulated s ++ pre ++ [ACK]) in
  let r := receive_frame_ h s in
  fst r = length frame /\ take (fst r) (in_buf_ (snd r)) = frame /\
  accumulated (snd r) = [] /\
  readout_lrc_ (snd r) = readout_lrc_ s /\ lrc_ (snd r) = lrc_ s.
Proof.
  intros Hok Hrx Hq Hbud. cbv zeta.
  destruct (receive_frame_tail h s pre ACK rest Hok Hrx Hq Hbud)
    as (s3 & ws & Hrf & Hok3 & Hacc3 & Hrs3).
  destruct (accumulate_window (pre ++ [ACK]) (accumulated s)) as [Hw _].
  { destruct Hok; assumption. }
  { rewrite (accumulated_length h) by exact Hok. destruct Hok; assumption. }
  rewrite <- Hw, <- Hacc3.
  assert (Hlast : aget (in_buf_ s3) (Z.of_nat (data_in_size_ s3) - 1) = ACK).
  { rewrite (state_last h) by exact Hok3. rewrite Hacc3, accumulate_app. cbn [accumulate].
    apply last_byte_app. }
  destruct (check_terminators_ack s3 Hlast) as (Hr & Hbuf & Hz & Hl & Hrl).
  destruct (receive_side_only_fields s s3 Hrs3) as (Hl3 & Hrl3 & _).
  rewrite Hrf, Hr. cbn [fst snd].
  rewrite (accumulated_length h) by exact Hok3.
  split_and!.
  - reflexivity.
  - rewrite Hbuf. reflexivity.
  - unfold accumulated. rewrite Hz. apply take_0.
  - congruence.
  - congruence.
Qed.

(** X9: an accumulation that comes to end in [STX], no frame being
    completed before and the byte before not being [ETX] (the second
    test would take it), is returned as the frame; the accumulator is
    emptied and the running checksum [lrc_] is reset to zero. *)
Theorem receive_frame_stx (s : Component) (pre rest : list Z) :
  buffers_ok h s ->
  rx (uart s) = pre ++ [STX] ++ rest ->
  quiet h (accumulated s) pre ->
  in_budget (clock (uart s)) (u32 (clock (uart s) (ticks (uart s))))
    (S (ticks (uart s))) (length pre + 1) ->
  let frame := last_n (MAX_IN_BUF_SIZE h) (accumulated s ++ pre ++ [STX]) in
  ((length frame < 2)%nat \/ before_last_byte frame <> ETX) ->
  let r := receive_frame_ h s in
  fst r = length frame /\ take (fst r) (in_buf_ (snd r)) = frame /\
  accumulated (snd r) = [] /\
  lrc_ (snd r) = 0 /\ readout_lrc_ (snd r) = readout_lrc_ s.
Proof.
  intros Hok Hrx Hq Hbud. cbv zeta.
  destruct (receive_frame_tail h s pre STX rest Hok Hrx Hq Hbud)
    as (s3 & ws & Hrf & Hok3 & Hacc3 & Hrs3).
  destruct (accumulate_window (pre ++ [STX]) (accumulated s)) as [Hw _].
  { destruct Hok; assumption. }
  { rewrite (accumulated_length h) by exact Hok. destruct Hok; assumption. }
  rewrite <- Hw, <- Hacc3. intros Hetx.
  assert (Hlast : aget (in_buf_ s3) (Z.of_nat (data_in_size_ s3) - 1) = STX).
  { rewrite (state_last h) by exact Hok3. rewrite Hacc3, accumulate_app. cbn [accumulate].
    apply last_byte_app. }
  rewrite <- (state_before_last h s3 Hok3) in Hetx.
  rewrite (accumulated_length h) in Hetx |- * by exact Hok3.
  destruct (check_terminators_stx s3 Hlast Hetx) as (Hr & Hbuf & Hz & Hl & Hrl).
  destruct (receive_side_only_fields s s3 Hrs3) as (Hl3 & Hrl3 & _).
  rewrite Hrf, Hr. cbn [fst snd].
  split_and!.
  - reflexivity.
  - rewrite Hbuf. reflexivity.
  - unfold accumulated. rewrite Hz. apply take_0.
  - exact Hl.
  - congruence.
Qed.
End AssemblerFrames.

Section AssemblerPartial.
Context (h : Header).

(** X10: bytes that complete no frame and leave room in the buffer are
    added to the accumulator and [receive_frame_] returns 0; the time
    of the last transmission from the meter is not refreshed, so such
    bytes do not hold back the connection timeout. *)
Theorem receive_frame_partial (s : Component) (pre : list Z) :
  buffers_ok h s ->
  rx (uart s) = pre ->
  quiet h (accumulated s) pre ->
  in_budget (clock (uart s)) (u32 (clock (uart s) (ticks (uart s))))
    (S (ticks (uart s))) (length pre) ->
  (length (accumulated s) + length pre < MAX_IN_BUF_SIZE h)%nat ->
  let r := receive_frame_ h s in
  fst r = 0%nat /\
  accumulated (snd r) = accumulated s ++ pre /\
  last_transmission_from_meter_timestamp_ (snd r)
  = last_transmission_from_meter_timestamp_ s /\
  lrc_ (snd r) = lrc_ s /\ readout_lrc_ (snd r) = readout_lrc_ s.
Proof.
  intros Hok Hrx Hq Hbud Hroom. cbv zeta.
  unfold receive_frame_, available. run. rewrite Hrx.
  assert (Hne : pre = [] \/ (length pre <=? 0)%nat = false)
    by (destruct pre; [left | right]; reflexivity).
  destruct Hne as [->|Hne].
  { cbn [length Nat.leb fst snd]. rewrite app_nil_r. split_and!; reflexivity. }
  rewrite Hne.
  change (rx (uart (snd (millis s)))) with (rx (uart s)).
  change (fst (millis s)) with (u32 (clock (uart s) (ticks (uart s)))).
  set (ws := u32 (clock (uart s) (ticks (uart s)))) in *.
  destruct (receive_loop_quiet h pre (snd (millis s)) ws [])
    as (s1 & Hrun & Hok1 & Hacc1 & Hrs1 & Hclk1 & Htk1).
  { apply millis_props, Hok. }
  { exact Hq. }
  { exact Hbud. }
  rewrite app_nil_r in Hrun. rewrite Hrx, Hrun.
  change (accumulated (snd (millis s))) with (accumulated s) in Hacc1.
  destruct (accumulate_window h pre (accumulated s)) as [Hw _].
  { destruct Hok; assumption. }
  { lia. }
  assert (Hacc : accumulated s1 = accumulated s ++ pre).
  { rewrite Hacc1, Hw. unfold last_n. rewrite length_app.
    replace (_ - _)%nat with 0%nat by lia. reflexivity. }
  assert (Hn1 : (data_in_size_ s1 <? MAX_IN_BUF_SIZE h)%nat = true).
  { apply Nat.ltb_lt. rewrite <- (accumulated_length h s1 Hok1), Hacc, length_app. lia. }
  destruct (receive_side_only_fields s s1) as (Hl & Hrl & Hts & _).
  { eapply receive_side_only_trans; [apply receive_side_only_millis | exact Hrs1]. }
  cbn [receive_loop]. unfold make_room, millis. run. fields.
  destruct (max_while_ms <? _); cbn [fst snd]; fields; rewrite ?Hn1; cbn [fst snd]; fields;
    (split_and!; [reflexivity | exact Hacc | exact Hts | exact Hl | exact Hrl]).
Qed.
End AssemblerPartial.

Lemma receive_frame_safe_witness :
  let s := sample_component sample_header (sample_config false 2) GET_IDENTIFICATION
             (bytes_of "/AB") (fun _ => 0) in
  let r := receive_frame_ sample_header s in
  (fst r <= 128)%nat /\ (data_in_size_ (snd r) <= 128)%nat /\
  tx (uart (snd r)) = [] /\ rx (uart (snd r)) = [].
Proof.
  cbv zeta.
  destruct (receive_frame_safe sample_header
              (sample_component sample_header (sample_config false 2) GET_IDENTIFICATION
                 (bytes_of "/AB") (fun _ => 0))
              (sample_component_ok _ _ _ _)) as (Hok & Hle & Htx & _).
  split; [exact Hle|]. split; [destruct Hok; assumption|].
  split; [exact Htx | vm_compute; reflexivity].
Defined.

Lemma receive_frame_terminated_witness :
  let s := sample_component sample_header (sample_config false 2) WAIT_FOR_ACK
             [ACK] (fun k => Z.of_nat k) in
  let r := receive_frame_ sample_header s in
  fst r = 1%nat /\ completes (take 1 (in_buf_ (snd r))) = true /\
  last_transmission_from_meter_timestamp_ (snd r) = 2.
Proof.
  cbv zeta.
  destruct (receive_frame_terminated sample_header
              (sample_component sample_header (sample_config false 2) WAIT_FOR_ACK
                 [ACK] (fun k => Z.of_nat k))
              (sample_component_ok _ _ _ _) ltac:(vm_compute; lia)) as (Hc & _ & _ & Hts).
  split; [vm_compute; reflexivity|]. split; [exact Hc|].
  rewrite Hts. vm_compute. reflexivity.
Defined.

Lemma receive_frame_ack_witness :
  let s := set_readout_lrc_ 0x7f
             (sample_component sample_header (sample_config false 2) READOUT
                (bytes_of "1.8.0(1)" ++ [ETX; ACK]) (fun _ => 0)) in
  let r := receive_frame_ sample_header s in
  fst r = 10%nat /\ take 10 (in_buf_ (snd r)) = bytes_of "1.8.0(1)" ++ [ETX; ACK] /\
  readout_lrc_ (snd r) = 0x7f.
Proof.
  cbv zeta.
  destruct (receive_frame_ack sample_header
    (set_readout_lrc_ 0x7f
       (sample_component sample_header (sample_config false 2) READOUT
          (bytes_of "1.8.0(1)" ++ [ETX; ACK]) (fun _ => 0)))
    (bytes_of "1.8.0(1)" ++ [ETX]) []
    ltac:(constructor; cbn; lia) eq_refl
    ltac:(cbn; repeat split)
    (constant_clock_in_budget 0 _ _)) as (Hr & Hf & _ & Hrl & _).
  split; [exact Hr|]. split; [|exact Hrl].
  rewrite Hr in Hf. exact Hf.
Defined.

Lemma receive_frame_stx_witness :
  let s := set_lrc_ 0x55
             (sample_component sample_header (sample_config false 2) WAIT_FOR_STX
                [STX] (fun _ => 0)) in
  let r := receive_frame_ sample_header s in
  fst r = 1%nat /\ take 1 (in_buf_ (snd r)) = [STX] /\ lrc_ (snd r) = 0.
Proof.
  cbv zeta.
  destruct (receive_frame_stx sample_header
    (set_lrc_ 0x55
       (sample_component sample_header (sample_config false 2) WAIT_FOR_STX
          [STX] (fun _ => 0)))
    [] []
    ltac:(constructor; cbn; lia) eq_refl
    ltac:(cbn; repeat split)
    (constant_clock_in_budget 0 _ _)
    ltac:(left; vm_compute; lia)) as (Hr & Hf & _ & Hl & _).
  split; [exact Hr|]. split; [|exact Hl].
  rewrite Hr in Hf. exact Hf.
Defined.

Lemma receive_frame_partial_witness :
  let s := set_last_transmission_from_meter_timestamp_ 7
             (sample_component sample_header (sample_config false 2) GET_IDENTIFICATION
                (bytes_of "/ISK5") (fun _ => 1000)) in
  let r := receive_frame_ sample_header s in
  fst r = 0%nat /\ accumulated (snd r) = bytes_of "/ISK5" /\
  last_transmission_from_meter_timestamp_ (snd r) = 7.
Proof.
  cbv zeta.
  destruct (receive_frame_partial sample_header
    (set_last_transmission_from_meter_timestamp_ 7
       (sample_component sample_header (sample_config false 2) GET_IDENTIFICATION
          (bytes_of "/ISK5") (fun _ => 1000)))
    (bytes_of "/ISK5")
    ltac:(constructor; cbn; lia) eq_refl
    ltac:(cbn; repeat split)
    (constant_clock_in_budget 1000 _ _)
    ltac:(vm_compute; lia)) as (Hr & Hacc & Hts & _).
  split; [exact Hr|]. split; [exact Hacc | exact Hts].
Defined.

(** ** Identification *)

Section IdentificationScan.
Context (h : Header).

(** The scan of [get_id_] below offset [n]: it stops at the highest
    offset holding ['/']. *)
Lemma get_id_scan_spec frame_size n s :
  let r := get_id_scan h frame_size n s in
  match fst r with
  | Some p =>
      (p < n)%nat /\ aget (in_buf_ s) (Z.of_nat p) = byte_of "/" /\
      (forall q, (p < q < n)%nat -> aget (in_buf_ s) (Z.of_nat q) <> byte_of "/") /\
      7 <= u32 (Z.of_nat (MAX_IN_BUF_SIZE h) - 1 - Z.of_nat p) /\
      snd r = set_in_buf_ (aset (in_buf_ s) (Z.of_nat frame_size - 2) 0) s
  | None =>
      snd r = s /\
      ((forall q, (q < n)%nat -> aget (in_buf_ s) (Z.of_nat q) <> byte_of "/") \/
       exists p, (p < n)%nat /\ aget (in_buf_ s) (Z.of_nat p) = byte_of "/" /\
         (forall q, (p < q < n)%nat -> aget (in_buf_ s) (Z.of_nat q) <> byte_of "/") /\
         u32 (Z.of_nat (MAX_IN_BUF_SIZE h) - 1 - Z.of_nat p) < 7)
  end.
Proof.
  cbv zeta. induction n as [|p IH]; cbn [get_id_scan].
  - cbn. split; [reflexivity|]. left. intros q Hq. lia.
  - run. destruct (Z.eqb_spec (byte_of "/") (aget (in_buf_ s) (Z.of_nat p))) as [Hs|Hs].
    + destruct (Z.ltb_spec (u32 (Z.of_nat (MAX_IN_BUF_SIZE h) - 1 - Z.of_nat p)) 7)
        as [Hg|Hg]; cbn [fst snd].
      * split; [reflexivity|]. right. exists p.
        split_and!; [lia | congruence | intros q Hq; lia | exact Hg].
      * split_and!; [lia | congruence | intros q Hq; lia | exact Hg | reflexivity].
    + destruct (fst (get_id_scan h frame_size p s)) as [p0|] eqn:E.
      * destruct IH as (H1 & H2 & H3 & H4 & H5).
        split_and!; [lia | exact H2 | | exact H4 | exact H5].
        intros q Hq. destruct (decide (q = p)) as [->|Hne]; [congruence|].
        apply H3. lia.
      * destruct IH as (H1 & H2). split; [exact H1|].
        destruct H2 as [H2|(p0 & Hp0 & Hs0 & Hq0 & Hg0)].
        -- left. intros q Hq. destruct (decide (q = p)) as [->|Hne]; [congruence|].
           apply H2. lia.
        -- right. exists p0. split_and!; [lia | exact Hs0 | | exact Hg0].
           intros q Hq. destruct (decide (q = p)) as [->|Hne]; [congruence|].
           apply Hq0. lia.
Qed.

(** X11: when [get_id_] finds an identification in a frame of
    [frame_size] bytes, the frame has at least 7 bytes, the offset
    returned is that of the last ['/'] before the terminating [CR LF],
    at least 7 bytes lie between it and the end of the buffer, and the
    only change is the NUL written over the [CR]; when it finds none,
    the component is left as it was. *)
Theorem get_id_last_slash (frame_size : nat) (s : Component) :
  let r := get_id_ h frame_size s in
  match fst r with
  | Some p =>
      (7 <= frame_size)%nat /\ (p + 3 <= frame_size)%nat /\
      aget (in_buf_ s) (Z.of_nat p) = byte_of "/" /\
      (forall q, (p < q)%nat -> (q + 3 <= frame_size)%nat ->
         aget (in_buf_ s) (Z.of_nat q) <> byte_of "/") /\
      7 <= u32 (Z.of_nat (MAX_IN_BUF_SIZE h) - 1 - Z.of_nat p) /\
      snd r = set_in_buf_ (aset (in_buf_ s) (Z.of_nat frame_size - 2) 0) s
  | None => snd r = s
  end.
Proof.
  cbv zeta. unfold get_id_.
  destruct (Nat.leb_spec 7 frame_size) as [H7|H7]; [|reflexivity].
  pose proof (get_id_scan_spec frame_size (frame_size - 2) s) as Hs. cbv zeta in Hs.
  destruct (fst (get_id_scan h frame_size (frame_size - 2) s)) as [p|].
  - destruct Hs as (H1 & H2 & H3 & H4 & H5).
    split_and!; [exact H7 | lia | exact H2 | | exact H4 | exact H5].
    intros q Hq1 Hq2. apply H3. lia.
  - destruct Hs as [Hs _]. exact Hs.
Qed.
End IdentificationScan.

Lemma cstr_until_nul (a b : list Z) :
  Forall (fun c => c <> 0) a -> cstr (a ++ 0 :: b) = a.
Proof.
  induction 1 as [|c a Hc Ha IH]; cbn [app cstr]; [reflexivity|].
  apply Z.eqb_neq in Hc. rewrite Hc, IH. reflexivity.
Qed.

Section IdentificationText.
Context (h : Header).

(** X12: an identification frame [junk / id CR LF] in the buffer,
    where [id] holds neither ['/'] nor NUL, the frame has at least 7
    bytes and the ['/'] is at least 8 bytes from the end of the buffer:
    [get_id_] returns the offset of the ['/'], skipping what precedes
    it, and [parse_id_] then takes ["/id"] as the meter identification,
    the fourth character of [id] as the baud-rate character (0 when
    [id] is shorter) and the protocol mode from that character. *)
Theorem identification_text (s : Component) (junk id rest : list Z) :
  in_buf_ s = junk ++ [byte_of "/"] ++ id ++ [CR; LF] ++ rest ->
  Forall (fun c => c <> byte_of "/" /\ c <> 0) id ->
  (4 <= length junk + length id)%nat ->
  (length junk + 8 <= MAX_IN_BUF_SIZE h)%nat -> Z.of_nat (MAX_IN_BUF_SIZE h) < 2 ^ 32 ->
  let frame_size := (length junk + length id + 3)%nat in
  let z := if (4 <=? length id)%nat then aget id 3 else 0 in
  let r := get_id_ h frame_size s in
  let s' := snd (parse_id_ h (length junk) (snd r)) in
  fst r = Some (length junk) /\
  meter_identification_ s' = [byte_of "/"] ++ id /\
  baud_rate_identification_ s' = z /\
  mode_ s' = set_protocol_ h (force_mode_d_ (cfg s)) z.
Proof.
  intros Hbuf Hid Hsz Hroom Hmax. cbv zeta.
  set (n := (length junk + length id + 3 - 2)%nat).
  assert (HA : aget (in_buf_ s) (Z.of_nat (length junk)) = byte_of "/").
  { rewrite aget_nat, Hbuf. apply list_lookup_total_middle. reflexivity. }
  assert (HB : forall q, (length junk < q < n)%nat ->
                 aget (in_buf_ s) (Z.of_nat q) <> byte_of "/").
  { intros q Hq. rewrite aget_nat, Hbuf.
    rewrite lookup_total_app_r by lia. cbn [app].
    destruct (q - length junk)%nat as [|k] eqn:Ek; [lia|].
    change ((byte_of "/" :: id ++ CR :: LF :: rest) !!! S k)
      with ((id ++ CR :: LF :: rest) !!! k).
    rewrite lookup_total_app_l by (subst n; lia).
    apply (Forall_lookup_total_1 _ id k) in Hid; [|subst n; lia].
    destruct Hid as [Hid _]. exact Hid. }
  assert (Hg : ~ u32 (Z.of_nat (MAX_IN_BUF_SIZE h) - 1 - Z.of_nat (length junk)) < 7).
  { unfold u32. rewrite Z.mod_small by lia. lia. }
  assert (Hlast : forall p, (p < n)%nat -> aget (in_buf_ s) (Z.of_nat p) = byte_of "/" ->
                    (forall q, (p < q < n)%nat -> aget (in_buf_ s) (Z.of_nat q) <> byte_of "/") ->
                    p = length junk).
  { intros p Hp Hs Hq.
    destruct (Nat.lt_trichotomy p (length junk)) as [Hlt|[Heq|Hgt]]; [|exact Heq|].
    - exfalso. apply (Hq (length junk)); [subst n; lia | exact HA].
    - exfalso. apply (HB p); [lia | exact Hs]. }
  assert (Hget : get_id_ h (length junk + length id + 3) s
                 = (Some (length junk),
                    set_in_buf_ (aset (in_buf_ s)
                                   (Z.of_nat (length junk + length id + 3) - 2) 0) s)).
  { unfold get_id_.
    replace (7 <=? length junk + length id + 3)%nat with true
      by (symmetry; apply Nat.leb_le; lia).
    fold n.
    pose proof (get_id_scan_spec h (length junk + length id + 3) n s) as Hs.
    cbv zeta in Hs.
    destruct (get_id_scan h (length junk + length id + 3) n s) as [[p|] s1]; cbn [fst snd] in Hs.
    - destruct Hs as (H1 & H2 & H3 & _ & H5).
      rewrite (Hlast p H1 H2 H3), H5. reflexivity.
    - exfalso. destruct Hs as (_ & [Hno|(p & H1 & H2 & H3 & H4)]).
      + apply (Hno (length junk)); [subst n; lia | exact HA].
      + rewrite (Hlast p H1 H2 H3) in H4. exact (Hg H4). }
  rewrite Hget. cbn [fst snd].
  assert (Hpacket : cstr_at (aset (in_buf_ s)
                               (Z.of_nat (length junk + length id + 3) - 2) 0) (length junk)
                    = byte_of "/" :: id).
  { replace (Z.of_nat (length junk + length id + 3) - 2)
      with (Z.of_nat (length junk + (S (length id) + 0))) by lia.
    rewrite aset_nat, Hbuf, insert_app_r.
    change ([byte_of "/"] ++ id ++ [CR; LF] ++ rest)
      with ((byte_of "/" :: id) ++ CR :: LF :: rest).
    replace (S (length id)) with (length (byte_of "/" :: id)) by reflexivity.
    rewrite insert_app_r. cbn [insert list_insert].
    unfold cstr_at. rewrite drop_app_length.
    apply cstr_until_nul. constructor; [discriminate|].
    eapply Forall_impl; [exact Hid|]. intros c [_ Hc]. exact Hc. }
  unfold parse_id_. run. fields. rewrite Hpacket. cbn [length].
  assert (Hz : (if (5 <=? S (length id))%nat then aget (byte_of "/" :: id) 4 else 0)
               = (if (4 <=? length id)%nat then aget id 3 else 0)).
  { change (5 <=? S (length id))%nat with (4 <=? length id)%nat.
    destruct (4 <=? length id)%nat; reflexivity. }
  rewrite Hz. split_and!; reflexivity.
Qed.
End IdentificationText.

Lemma identification_text_witness :
  let h := sample_header in
  let s := set_in_buf_ (bytes_of "??/ISK5\2ME382" ++ [CR; LF] ++ repeat 0 112)
             (sample_component h (sample_config false 2) GET_IDENTIFICATION [] (fun _ => 0)) in
  let r := get_id_ h 16 s in
  let s' := snd (parse_id_ h 2 (snd r)) in
  fst r = Some 2%nat /\
  meter_identification_ s' = bytes_of "/ISK5\2ME382" /\
  baud_rate_identification_ s' = byte_of "5" /\ mode_ s' = PROTOCOL_MODE_C.
Proof.
  cbv zeta.
  exact (identification_text sample_header
           (set_in_buf_ (bytes_of "??/ISK5\2ME382" ++ [CR; LF] ++ repeat 0 112)
              (sample_component sample_header (sample_config false 2) GET_IDENTIFICATION []
                 (fun _ => 0)))
           (bytes_of "??") (bytes_of "ISK5\2ME382") (repeat 0 112)
           eq_refl
           ltac:(repeat constructor; discriminate)
           ltac:(vm_compute; lia) ltac:(vm_compute; lia) ltac:(vm_compute; reflexivity)).
Defined.

(** ** Baud negotiation *)

Section NegotiationFacts.
Context (h : Header) (Hh : header_ok h).

(** [find_baud] on the table, for any rate. *)
Lemma find_baud_table rate i0 :
  find_baud rate i0 BAUDRATES =
  if rate =? 300 then Some i0 else if rate =? 600 then Some (i0 + 1)
  else if rate =? 1200 then Some (i0 + 1 + 1) else if rate =? 2400 then Some (i0 + 1 + 1 + 1)
  else if rate =? 4800 then Some (i0 + 1 + 1 + 1 + 1)
  else if rate =? 9600 then Some (i0 + 1 + 1 + 1 + 1 + 1)
  else if rate =? 19200 then Some (i0 + 1 + 1 + 1 + 1 + 1 + 1) else None.
Proof. reflexivity. Qed.

Lemma find_baud_table_B rate i0 :
  find_baud rate i0 (drop 1 BAUDRATES) =
  if rate =? 600 then Some i0
  else if rate =? 1200 then Some (i0 + 1) else if rate =? 2400 then Some (i0 + 1 + 1)
  else if rate =? 4800 then Some (i0 + 1 + 1 + 1)
  else if rate =? 9600 then Some (i0 + 1 + 1 + 1 + 1)
  else if rate =? 19200 then Some (i0 + 1 + 1 + 1 + 1 + 1) else None.
Proof. reflexivity. Qed.

(** X13: [baud_rate_to_identification_] on any rate: a rate that is
    not in the table of the mode (in mode B the table without its
    first entry, so 300 is not in it) gives the first character of the
    mode's range, and a rate of the table gives the character at its
    offset; every mode other than B uses the mode C range. *)
Theorem baud_rate_to_identification_total (mode : ProtocolMode) (baud_rate : Z) :
  let c := baud_rate_to_identification_ h mode baud_rate in
  let start := if ProtocolMode_eqb PROTOCOL_MODE_B mode
               then PROTO_B_RANGE_BEGIN h else PROTO_C_RANGE_BEGIN h in
  (~ In baud_rate (mode_rates mode) -> c = start) /\
  (forall k, (k < length (mode_rates mode))%nat ->
     baud_rate = nth k (mode_rates mode) 0 -> c = u8 (start + Z.of_nat k)).
Proof.
  cbv zeta. unfold baud_rate_to_identification_, mode_rates.
  destruct (ProtocolMode_eqb PROTOCOL_MODE_B mode).
  - rewrite find_baud_table_B. split.
    + intros Hno. cbn in Hno.
      repeat match goal with
             | |- context [?x =? ?y] =>
                 destruct (Z.eqb_spec x y); [exfalso; subst; apply Hno; auto 10|]
             end.
      reflexivity.
    + intros k Hk ->. cbn in Hk.
      do 6 (destruct k as [|k]; [cbn; f_equal; lia|]). lia.
  - rewrite find_baud_table. split.
    + intros Hno. cbn in Hno.
      repeat match goal with
             | |- context [?x =? ?y] =>
                 destruct (Z.eqb_spec x y); [exfalso; subst; apply Hno; auto 10|]
             end.
      reflexivity.
    + intros k Hk ->. cbn in Hk.
      do 7 (destruct k as [|k]; [cbn; f_equal; lia|]). lia.
Qed.
End NegotiationFacts.

Lemma baud_rate_to_identification_total_witness :
  baud_rate_to_identification_ sample_header PROTOCOL_MODE_C 1234 = byte_of "0" /\
  baud_rate_to_identification_ sample_header PROTOCOL_MODE_B 300 = byte_of "A" /\
  baud_rate_to_identification_ sample_header PROTOCOL_MODE_C 9600 = byte_of "5".
Proof.
  split; [|split].
  - apply (proj1 (baud_rate_to_identification_total sample_header PROTOCOL_MODE_C 1234)).
    vm_compute. intuition discriminate.
  - apply (proj1 (baud_rate_to_identification_total sample_header PROTOCOL_MODE_B 300)).
    vm_compute. intuition discriminate.
  - apply (proj2 (baud_rate_to_identification_total sample_header PROTOCOL_MODE_C 9600)
             5%nat); [vm_compute; lia | reflexivity].
Defined.

(** The table of rates is increasing. *)
Lemma baudrates_index i :
  0 <= i <= 6 -> i = 0 \/ i = 1 \/ i = 2 \/ i = 3 \/ i = 4 \/ i = 5 \/ i = 6.
Proof. lia. Qed.

Lemma baudrates_lt i k :
  0 <= i <= 6 -> 0 <= k <= 6 -> aget BAUDRATES i < aget BAUDRATES k -> i < k.
Proof.
  intros Hi Hk.
  destruct (baudrates_index i Hi) as [-> | [-> | [-> | [-> | [-> | [-> | ->]]]]]];
    destruct (baudrates_index k Hk) as [-> | [-> | [-> | [-> | [-> | [-> | ->]]]]]];
    vm_compute; intros Hlt; try reflexivity; discriminate Hlt.
Qed.

Lemma baudrates_low i : 0 <= i <= 6 -> 300 <= aget BAUDRATES i.
Proof.
  intros Hi.
  destruct (baudrates_index i Hi) as [-> | [-> | [-> | [-> | [-> | [-> | ->]]]]]];
    vm_compute; discriminate.
Qed.

Lemma baudrates_low_B i : 1 <= i <= 6 -> 600 <= aget BAUDRATES i.
Proof.
  intros Hi. assert (Hi' : 0 <= i <= 6) by lia.
  destruct (baudrates_index i Hi') as [-> | [-> | [-> | [-> | [-> | [-> | ->]]]]]];
    try lia; vm_compute; discriminate.
Qed.

Section PrepareAckRate.
Context (h : Header) (Hh : header_ok h).

Lemma char_cases_C cap :
  (exists i, 0 <= i <= 6 /\ cap = aget BAUDRATES i /\
     baud_rate_to_identification_ h PROTOCOL_MODE_C cap = u8 (PROTO_C_RANGE_BEGIN h + i)) \/
  (~ In cap BAUDRATES /\
   baud_rate_to_identification_ h PROTOCOL_MODE_C cap = PROTO_C_RANGE_BEGIN h).
Proof.
  unfold baud_rate_to_identification_. cbv [ProtocolMode_eqb]. cbv iota.
  rewrite find_baud_table.
  destruct (Z.eqb_spec cap 300) as [->|N0]; [left; exists 0; repeat split; try lia; reflexivity|].
  destruct (Z.eqb_spec cap 600) as [->|N1]; [left; exists 1; repeat split; try lia; reflexivity|].
  destruct (Z.eqb_spec cap 1200) as [->|N2]; [left; exists 2; repeat split; try lia; reflexivity|].
  destruct (Z.eqb_spec cap 2400) as [->|N3]; [left; exists 3; repeat split; try lia; reflexivity|].
  destruct (Z.eqb_spec cap 4800) as [->|N4]; [left; exists 4; repeat split; try lia; reflexivity|].
  destruct (Z.eqb_spec cap 9600) as [->|N5]; [left; exists 5; repeat split; try lia; reflexivity|].
  destruct (Z.eqb_spec cap 19200) as [->|N6]; [left; exists 6; repeat split; try lia; reflexivity|].
  right. split; [|reflexivity]. cbn. intuition congruence.
Qed.

Lemma char_cases_B cap :
  (exists i, 1 <= i <= 6 /\ cap = aget BAUDRATES i /\
     baud_rate_to_identification_ h PROTOCOL_MODE_B cap
     = u8 (PROTO_B_RANGE_BEGIN h + i - 1)) \/
  (~ In cap (drop 1 BAUDRATES) /\
   baud_rate_to_identification_ h PROTOCOL_MODE_B cap = PROTO_B_RANGE_BEGIN h).
Proof.
  unfold baud_rate_to_identification_. cbv [ProtocolMode_eqb]. cbv iota.
  rewrite find_baud_table_B.
  destruct (Z.eqb_spec cap 600) as [->|N1]; [left; exists 1; repeat split; try lia; reflexivity|].
  destruct (Z.eqb_spec cap 1200) as [->|N2]; [left; exists 2; repeat split; try lia; reflexivity|].
  destruct (Z.eqb_spec cap 2400) as [->|N3]; [left; exists 3; repeat split; try lia; reflexivity|].
  destruct (Z.eqb_spec cap 4800) as [->|N4]; [left; exists 4; repeat split; try lia; reflexivity|].
  destruct (Z.eqb_spec cap 9600) as [->|N5]; [left; exists 5; repeat split; try lia; reflexivity|].
  destruct (Z.eqb_spec cap 19200) as [->|N6]; [left; exists 6; repeat split; try lia; reflexivity|].
  right. split; [|reflexivity]. cbn. intuition congruence.
Qed.

(** The rate negotiated in mode C under a limit [cap] below the rate
    [BAUDRATES[k]] of the meter. *)
Lemma limited_rate_C cap k :
  0 <= k <= PROTO_C_RANGE_END h - PROTO_C_RANGE_BEGIN h ->
  cap < aget BAUDRATES k ->
  let r := identification_to_baud_rate_ h
             (baud_rate_to_identification_ h PROTOCOL_MODE_C cap) in
  r <= Z.max cap 300 /\ r <= aget BAUDRATES k /\ (In cap BAUDRATES -> r = cap).
Proof.
  intros Hk Hcap. cbv zeta.
  pose proof (hC_fit h Hh) as Hfit. pose proof (hC_lo h Hh) as Hlo.
  pose proof (hC_hi h Hh) as Hhi.
  pose proof (baudrates_low k ltac:(lia)) as Hlow.
  destruct (char_cases_C cap) as [(i & Hi & -> & ->)|(Hno & ->)].
  - pose proof (baudrates_lt i k Hi ltac:(lia) Hcap) as Hik.
    rewrite u8_small by lia. rewrite (rate_of_C h Hh) by lia.
    split_and!; [lia | lia | reflexivity].
  - replace (PROTO_C_RANGE_BEGIN h) with (PROTO_C_RANGE_BEGIN h + 0) by lia.
    rewrite (rate_of_C h Hh) by lia. change (aget BAUDRATES 0) with 300.
    split_and!; [lia | lia | intros Hin; contradiction].
Qed.

(** The same in mode B, where a limit below 600 is raised to 600. *)
Lemma limited_rate_B cap k :
  0 <= k <= PROTO_B_RANGE_END h - PROTO_B_RANGE_BEGIN h ->
  cap < aget BAUDRATES (1 + k) ->
  let r := identification_to_baud_rate_ h
             (baud_rate_to_identification_ h PROTOCOL_MODE_B
                (if cap <? PROTO_B_MIN_BAUDRATE then PROTO_B_MIN_BAUDRATE else cap)) in
  r <= Z.max cap 600 /\ r <= aget BAUDRATES (1 + k) /\
  (In cap (drop 1 BAUDRATES) -> r = cap).
Proof.
  intros Hk Hcap. cbv zeta.
  pose proof (hB_fit h Hh) as Hfit. pose proof (hB_lo h Hh) as Hlo.
  pose proof (hB_hi h Hh) as Hhi.
  pose proof (baudrates_low_B (1 + k) ltac:(lia)) as Hlow.
  assert (H600 : identification_to_baud_rate_ h (PROTO_B_RANGE_BEGIN h) = 600).
  { replace (PROTO_B_RANGE_BEGIN h) with (PROTO_B_RANGE_BEGIN h + 0) by lia.
    rewrite (rate_of_B h) by lia. reflexivity. }
  change PROTO_B_MIN_BAUDRATE with 600.
  destruct (Z.ltb_spec cap 600) as [Hlt|Hge].
  - change (baud_rate_to_identification_ h PROTOCOL_MODE_B 600)
      with (u8 (PROTO_B_RANGE_BEGIN h + 1 - 1)).
    rewrite u8_small by lia. replace (PROTO_B_RANGE_BEGIN h + 1 - 1)
      with (PROTO_B_RANGE_BEGIN h) by lia.
    rewrite H600. split_and!; [lia | lia |].
    intros Hin. cbn in Hin. lia.
  - destruct (char_cases_B cap) as [(i & Hi & -> & ->)|(Hno & ->)].
    + pose proof (baudrates_lt i (1 + k) ltac:(lia) ltac:(lia) Hcap) as Hik.
      rewrite u8_small by lia.
      replace (PROTO_B_RANGE_BEGIN h + i - 1) with (PROTO_B_RANGE_BEGIN h + (i - 1)) by lia.
      rewrite (rate_of_B h) by lia.
      replace (1 + (i - 1)) with i by lia.
      split_and!; [lia | lia | reflexivity].
    + rewrite H600. split_and!; [lia | lia | intros Hin; contradiction].
Qed.

Lemma prepare_ack_rate_char s :
  mode_ s <> PROTOCOL_MODE_A ->
  new_baudrate (snd (loop_PREPARE_ACK h s))
  = identification_to_baud_rate_ h (negotiated_char h s).
Proof.
  intros Hmode.
  assert (Hm : ProtocolMode_eqb (mode_ s) PROTOCOL_MODE_A = false)
    by (destruct (mode_ s); [congruence | reflexivity ..]).
  unfold loop_PREPARE_ACK, negotiated_char. run. rewrite Hm.
  unfold wait_, set_next_state_, send_frame_, write_array, millis. run. fields.
  destruct (negb (config_baud_rate_max_bps_ (cfg s) =? 0)
            && negb (config_baud_rate_max_bps_ (cfg s) =? MAX_BAUDRATE));
    fields; reflexivity.
Qed.

(** X14: the rate [PREPARE_ACK] switches to, when the mode is the one
    [set_protocol_] gives the meter's character (B or C).  It is never
    above the rate the meter offers.  Without a limit (0 or the highest
    rate), or with a limit not below the meter's rate, it is the
    meter's rate.  With a limit below the meter's rate it is the limit
    when the limit is a rate of the mode, and in any case at most the
    larger of the limit and the lowest rate of the mode (600 in mode B,
    300 in mode C): it exceeds the limit only when the limit is below
    that lowest rate. *)
Theorem prepare_ack_rate (s : Component) :
  let z := baud_rate_identification_ s in
  let cap := config_baud_rate_max_bps_ (cfg s) in
  let meter := identification_to_baud_rate_ h z in
  let rate := new_baudrate (snd (loop_PREPARE_ACK h s)) in
  mode_ s = set_protocol_ h false z -> mode_ s <> PROTOCOL_MODE_A ->
  rate <= meter /\
  (cap = 0 \/ cap = MAX_BAUDRATE \/ meter <= cap -> rate = meter) /\
  (cap <> 0 -> cap <> MAX_BAUDRATE -> cap < meter ->
     rate <= Z.max cap (lowest_rate (mode_ s)) /\
     (In cap (mode_rates (mode_ s)) -> rate = cap)).
Proof.
  cbv zeta. intros Hset Hmode.
  rewrite (prepare_ack_rate_char s Hmode). unfold negotiated_char.
  set (z := baud_rate_identification_ s) in *.
  set (cap := config_baud_rate_max_bps_ (cfg s)).
  pose proof (hB_fit h Hh) as HfB. pose proof (hC_fit h Hh) as HfC.
  unfold set_protocol_ in Hset.
  assert (Hround : baud_rate_to_identification_ h (mode_ s)
                     (identification_to_baud_rate_ h z) = z /\
                   ((mode_ s = PROTOCOL_MODE_B /\
                     exists k, 0 <= k <= PROTO_B_RANGE_END h - PROTO_B_RANGE_BEGIN h /\
                       z = PROTO_B_RANGE_BEGIN h + k) \/
                    (mode_ s = PROTOCOL_MODE_C /\
                     exists k, 0 <= k <= PROTO_C_RANGE_END h - PROTO_C_RANGE_BEGIN h /\
                       z = PROTO_C_RANGE_BEGIN h + k))).
  { destruct (in_range_B h z) eqn:EB.
    - unfold in_range_B in EB. apply andb_true_iff in EB as [E1 E2].
      apply Z.leb_le in E1, E2. rewrite Hset. split.
      + replace z with (PROTO_B_RANGE_BEGIN h + (z - PROTO_B_RANGE_BEGIN h)) at 1 by lia.
        rewrite (rate_of_B h), (char_of_B h Hh) by lia. lia.
      + left. split; [reflexivity|]. exists (z - PROTO_B_RANGE_BEGIN h). lia.
    - destruct (in_range_C h z) eqn:EC; [|congruence].
      unfold in_range_C in EC. apply andb_true_iff in EC as [E1 E2].
      apply Z.leb_le in E1, E2. rewrite Hset. split.
      + replace z with (PROTO_C_RANGE_BEGIN h + (z - PROTO_C_RANGE_BEGIN h)) at 1 by lia.
        rewrite (rate_of_C h Hh), (char_of_C h Hh) by lia. lia.
      + right. split; [reflexivity|]. exists (z - PROTO_C_RANGE_BEGIN h). lia. }
  destruct Hround as [Hround Hcase].
  destruct (Z.eqb_spec cap 0) as [H0|H0]; cbn [negb andb].
  { split_and!; [lia | reflexivity | intros Hc; contradiction]. }
  destruct (Z.eqb_spec cap MAX_BAUDRATE) as [HM|HM]; cbn [negb andb].
  { split_and!; [lia | reflexivity | intros _ Hc; contradiction]. }
  destruct (Z.ltb_spec cap (identification_to_baud_rate_ h z)) as [Hlt|Hge].
  2:{ rewrite Hround. split_and!; [lia | reflexivity | intros _ _ Hc; lia]. }
  destruct Hcase as [(HB & k & Hk & Hz)|(HC & k & Hk & Hz)].
  - rewrite HB. cbn [ProtocolMode_eqb andb].
    rewrite Hz in Hlt |- *. rewrite (rate_of_B h) in Hlt |- * by lia.
    destruct (limited_rate_B cap k Hk Hlt) as (L1 & L2 & L3).
    split_and!; [exact L2 | intros [Hc|[Hc|Hc]]; [contradiction | contradiction | lia] |].
    intros _ _ _. split; [exact L1 | exact L3].
  - rewrite HC. cbn [ProtocolMode_eqb andb].
    rewrite Hz in Hlt |- *. rewrite (rate_of_C h Hh) in Hlt |- * by lia.
    destruct (limited_rate_C cap k Hk Hlt) as (L1 & L2 & L3).
    split_and!; [exact L2 | intros [Hc|[Hc|Hc]]; [contradiction | contradiction | lia] |].
    intros _ _ _. split; [exact L1 | exact L3].
Qed.
End PrepareAckRate.

Lemma prepare_ack_rate_witness :
  let h := sample_header in
  let limited cap :=
    set_mode_ PROTOCOL_MODE_C (set_baud_rate_identification_ (byte_of "5")
      (sample_component h
         {| force_mode_d_ := false; battery_meter_ := false;
            config_baud_rate_max_bps_ := cap; connection_timeout_ms_ := 3000;
            max_retries_ := 2; retry_delay_ := 1000; update_interval_ms_ := 60000 |}
         PREPARE_ACK [] (fun _ => 0))) in
  new_baudrate (snd (loop_PREPARE_ACK h (limited 0))) = 9600 /\
  new_baudrate (snd (loop_PREPARE_ACK h (limited 2400))) = 2400 /\
  new_baudrate (snd (loop_PREPARE_ACK h (limited 1000))) <= 1000.
Proof.
  cbv zeta.
  set (limited := fun cap =>
    set_mode_ PROTOCOL_MODE_C (set_baud_rate_identification_ (byte_of "5")
      (sample_component sample_header
         {| force_mode_d_ := false; battery_meter_ := false;
            config_baud_rate_max_bps_ := cap; connection_timeout_ms_ := 3000;
            max_retries_ := 2; retry_delay_ := 1000; update_interval_ms_ := 60000 |}
         PREPARE_ACK [] (fun _ => 0)))).
  destruct (prepare_ack_rate sample_header sample_header_ok (limited 0)
              ltac:(vm_compute; reflexivity) ltac:(vm_compute; discriminate))
    as (_ & H0 & _).
  destruct (prepare_ack_rate sample_header sample_header_ok (limited 2400)
              ltac:(vm_compute; reflexivity) ltac:(vm_compute; discriminate))
    as (_ & _ & H1).
  destruct (prepare_ack_rate sample_header sample_header_ok (limited 1000)
              ltac:(vm_compute; reflexivity) ltac:(vm_compute; discriminate))
    as (_ & _ & H2).
  split_and!.
  - rewrite H0 by (left; reflexivity). vm_compute. reflexivity.
  - apply (H1 ltac:(vm_compute; discriminate) ltac:(vm_compute; discriminate)
              ltac:(vm_compute; reflexivity)).
    vm_compute. auto 10.
  - exact (proj1 (H2 ltac:(vm_compute; discriminate) ltac:(vm_compute; discriminate)
                     ltac:(vm_compute; reflexivity))).
Defined.

(** ** Request *)

Section RequestFacts.
Context (h : Header).

(** Reading in chunks empties the receive buffer when the count of
    chunks allowed covers the bytes available. *)
Lemma clear_chunks_spec fuel : forall avail s,
  (0 < MAX_IN_BUF_SIZE h)%nat -> (avail <= fuel)%nat -> avail = length (rx (uart s)) ->
  length (in_buf_ s) = MAX_IN_BUF_SIZE h ->
  let s' := snd (clear_chunks h fuel avail s) in
  rx (uart s') = [] /\ tx (uart s') = tx (uart s) /\
  length (in_buf_ s') = length (in_buf_ s) /\
  out_buf_ s' = out_buf_ s /\ trace s' = trace s.
Proof.
  induction fuel as [|fuel IH]; intros avail s Hpos Hfuel Havail Hlen; cbv zeta.
  - cbn [clear_chunks ret snd]. assert (Hz : length (rx (uart s)) = 0%nat) by lia.
    apply length_zero_iff_nil in Hz. auto.
  - cbn [clear_chunks]. destruct (Nat.ltb_spec 0 avail) as [Hlt|Hge].
    + run. fields.
      set (len := Nat.min avail (MAX_IN_BUF_SIZE h)).
      set (s1 := set_uart _ _).
      destruct (IH (avail - len)%nat s1 Hpos) as (H1 & H2 & H3 & H4 & H5).
      { subst len. lia. }
      { subst s1. fields. rewrite length_drop. subst len. lia. }
      { subst s1. fields. rewrite length_app, length_take, length_drop. subst len. lia. }
      split_and!; [exact H1 | exact H2 | | exact H4 | exact H5].
      rewrite H3. subst s1. fields.
      rewrite length_app, length_take, length_drop. subst len. lia.
    + cbn [ret snd]. assert (Hz : length (rx (uart s)) = 0%nat) by lia.
      apply length_zero_iff_nil in Hz. auto.
Qed.

(** X15: the [SEND_REQUEST] step throws away every byte received so
    far, whatever their number, and sends the request ["/?!" CR LF]:
    afterwards the receive buffer and the accumulator are empty, the
    outgoing frame is the request, and the state is
    [GET_IDENTIFICATION]. *)
Theorem send_request_step (s : Component) :
  (0 < MAX_IN_BUF_SIZE h)%nat -> length (in_buf_ s) = MAX_IN_BUF_SIZE h ->
  (5 <= length (out_buf_ s))%nat ->
  let s' := snd (loop_SEND_REQUEST h s) in
  rx (uart s') = [] /\ data_in_size_ s' = 0%nat /\
  length (in_buf_ s') = length (in_buf_ s) /\
  tx (uart s') = tx (uart s) ++ [id_request] /\
  out_frame s' = id_request /\
  state_ s' = GET_IDENTIFICATION.
Proof.
  intros Hpos Hlen Hout. cbv zeta.
  destruct (clear_chunks_spec (length (rx (uart s))) (length (rx (uart s))) s Hpos
              ltac:(lia) eq_refl Hlen) as (H1 & H2 & H3 & H4 & _).
  unfold loop_SEND_REQUEST, clear_uart_input_buffer_, available, send_frame_, write_array,
    set_next_state_, out_frame.
  run. fields. rewrite H1, H2, H3, H4.
  assert (Hf : take (length id_request) (memcpy (out_buf_ s) id_request) = id_request).
  { destruct (out_buf_ s) as [|a0 [|a1 [|a2 [|a3 [|a4 tl]]]]]; cbn [length] in Hout; try lia.
    reflexivity. }
  rewrite Hf. split_and!; reflexivity.
Qed.
End RequestFacts.

Lemma send_request_step_witness :
  let s := sample_component sample_header (sample_config false 2) SEND_REQUEST
             (repeat 0 200 ++ bytes_of "garbage") (fun _ => 0) in
  let s' := snd (loop_SEND_REQUEST sample_header s) in
  rx (uart s') = [] /\ tx (uart s') = [bytes_of "/?!" ++ [CR; LF]] /\
  state_ s' = GET_IDENTIFICATION.
Proof.
  cbv zeta.
  destruct (send_request_step sample_header
              (sample_component sample_header (sample_config false 2) SEND_REQUEST
                 (repeat 0 200 ++ bytes_of "garbage") (fun _ => 0))
              ltac:(vm_compute; lia) ltac:(vm_compute; reflexivity) ltac:(vm_compute; lia))
    as (Hrx & _ & _ & Htx & _ & Hst).
  split; [exact Hrx|]. split; [exact Htx | exact Hst].
Defined.

(** ** Publication *)

Lemma nth_error_is_lookup {A} (l : list A) : forall n, nth_error l n = l !! n.
Proof. induction l as [|a l IH]; intros [|n]; cbn; auto. Qed.

Lemma update_states_one s x :
  nth_error (sensors_ s) (sensors_iterator_ s) = Some x ->
  snd (loop_UPDATE_STATES s)
  = set_trace (trace s ++ publications [x])
      (set_sensors_iterator_ (sensors_iterator_ s + 1) s).
Proof.
  intros Hx. unfold loop_UPDATE_STATES, publications. run. rewrite Hx. run.
  cbn [flat_map]. destruct (value x); run; fields; rewrite ?app_nil_r; [reflexivity|].
  destruct s; reflexivity.
Qed.

Lemma update_states_run k : forall s,
  (sensors_iterator_ s + k <= length (sensors_ s))%nat ->
  snd (times k loop_UPDATE_STATES s)
  = set_trace (trace s ++ publications (take k (drop (sensors_iterator_ s) (sensors_ s))))
      (set_sensors_iterator_ (sensors_iterator_ s + k) s).
Proof.
  induction k as [|k IH]; intros s Hk.
  - cbn [times ret snd take publications flat_map]. rewrite app_nil_r, Nat.add_0_r.
    destruct s; reflexivity.
  - cbn [times]. unfold bind. cbn [fst snd].
    destruct (nth_error (sensors_ s) (sensors_iterator_ s)) as [x|] eqn:Ex.
    2:{ apply nth_error_None in Ex. lia. }
    rewrite (update_states_one s x Ex).
    rewrite IH by (fields; lia). fields.
    assert (Hd : drop (sensors_iterator_ s) (sensors_ s)
                 = x :: drop (sensors_iterator_ s + 1) (sensors_ s)).
    { replace (sensors_iterator_ s + 1)%nat with (S (sensors_iterator_ s)) by lia.
      apply drop_S. rewrite <- nth_error_is_lookup. exact Ex. }
    rewrite Hd. cbn [take]. unfold publications. cbn [flat_map].
    rewrite <- app_assoc.
    replace (sensors_iterator_ s + 1 + k)%nat with (sensors_iterator_ s + S k)%nat by lia.
    cbn [app]. rewrite app_nil_r. reflexivity.
Qed.

(** X16: from the start of the sensor update, one run of the
    [UPDATE_STATES] step per registered sensor publishes, in the order
    of the sensor map, exactly the sensors that hold a value, each once,
    and changes nothing else but the iterator; the run after these is
    [wait_next_readout_]. *)
Theorem update_states_publishes (s : Component) :
  let s0 := snd (start_sensor_update s) in
  let s' := snd (times (length (sensors_ s)) loop_UPDATE_STATES s0) in
  s' = set_trace (trace s ++ publications (sensors_ s))
         (set_sensors_iterator_ (length (sensors_ s)) s0) /\
  state_ s' = UPDATE_STATES /\ sensors_ s' = sensors_ s /\
  loop_UPDATE_STATES s' = wait_next_readout_ s'.
Proof.
  cbv zeta.
  assert (H0 : snd (start_sensor_update s)
               = set_sensors_iterator_ 0 (set_state_ UPDATE_STATES s))
    by reflexivity.
  rewrite H0. rewrite update_states_run by (fields; lia). fields.
  rewrite drop_0, firstn_all. cbn [Nat.add].
  split_and!; try reflexivity.
  unfold loop_UPDATE_STATES. run. fields.
  replace (nth_error (sensors_ s) (length (sensors_ s))) with (@None Sensor)
    by (symmetry; apply nth_error_None; lia).
  reflexivity.
Qed.

(** ** Schedule *)

Lemma u32_range x : 0 <= u32 x < 2 ^ 32.
Proof. unfold u32. apply Z.mod_pos_bound. lia. Qed.

Lemma u32_back started now sched interval :
  u32 (started + (interval - u32 (now - sched)))
  = u32 (sched + interval + (started - now)).
Proof.
  unfold u32.
  pose proof (Z.div_mod (now - sched) (2 ^ 32) ltac:(lia)) as Hd.
  replace (started + (interval - (now - sched) mod 2 ^ 32))
    with (sched + interval + (started - now) + (now - sched) / 2 ^ 32 * 2 ^ 32) by lia.
  apply Z_mod_plus_full.
Qed.

(** X17: the wait before the next periodic readout (mode D not forced,
    periodic readout enabled).  [wait_next_readout_] resets the retry
    counter, releases the schedule anchor and waits into [BEGIN].  It
    reads the clock twice: the wait period is the update interval less
    the time elapsed, at the first reading, since the scheduled start
    of the readout that just ended (0 when more than the interval has
    elapsed), and the wait is counted from the second reading, made by
    [wait_].  So the wait ends one update interval after the scheduled
    start plus the time that passed between the two readings, however
    long the readout and its retries took, also across the wrap of the
    millisecond clock. *)
Theorem wait_next_readout_schedule (s : Component) :
  let interval := update_interval_ms_ (cfg s) in
  let sched := scheduled_connection_start_timestamp_ s in
  let now := u32 (clock (uart s) (ticks (uart s))) in
  let started := u32 (clock (uart s) (S (ticks (uart s)))) in
  let s' := snd (wait_next_readout_ s) in
  force_mode_d_ (cfg s) = false -> interval <> 2 ^ 32 - 1 ->
  0 <= interval < 2 ^ 32 ->
  state_ s' = WAIT /\ wait_next_state_ s' = BEGIN /\ retry_counter_ s' = 0 /\
  scheduled_timestamp_set_ s' = false /\
  wait_start_timestamp_ s' = started /\
  (u32 (now - sched) <= interval ->
     wait_period_ms_ s' = interval - u32 (now - sched) /\
     u32 (wait_start_timestamp_ s' + wait_period_ms_ s')
     = u32 (sched + interval + (started - now))) /\
  (interval < u32 (now - sched) -> wait_period_ms_ s' = 0).
Proof.
  cbv zeta. intros Hd Hper Hint.
  unfold wait_next_readout_, is_periodic_readout_enabled_, retry_counter_reset_,
    wait_, set_next_state_, millis. run. fields.
  apply Z.eqb_neq in Hper. rewrite Hd, Hper. cbn [negb]. rewrite !andb_true_r. fields.
  pose proof (u32_range (u32 (clock (uart s) (ticks (uart s)))
                         - scheduled_connection_start_timestamp_ s)) as Hr.
  split_and!; try reflexivity.
  - intros Hle. apply Z.ltb_ge in Hle. rewrite Hle. apply Z.ltb_ge in Hle.
    assert (Hw : u32 (update_interval_ms_ (cfg s)
                      - u32 (u32 (clock (uart s) (ticks (uart s)))
                             - scheduled_connection_start_timestamp_ s))
                 = update_interval_ms_ (cfg s)
                   - u32 (u32 (clock (uart s) (ticks (uart s)))
                          - scheduled_connection_start_timestamp_ s)).
    { unfold u32 at 1. apply Z.mod_small. lia. }
    rewrite Hw. split; [reflexivity | apply u32_back].
  - intros Hlt. apply Z.ltb_lt in Hlt. rewrite Hlt. reflexivity.
Qed.

(** A readout scheduled 5000 ms before the wrap of the clock and ended
    12000 ms after it, the clock moving by 7 ms between the two
    readings: the wait of 43000 ms ends 60007 ms after the scheduled
    start. *)
Lemma wait_next_readout_schedule_witness :
  let s := set_scheduled_connection_start_timestamp_ (2 ^ 32 - 5000)
             (sample_component sample_header (sample_config false 2) UPDATE_STATES []
                (fun k => 12000 + 7 * Z.of_nat k)) in
  let s' := snd (wait_next_readout_ s) in
  state_ s' = WAIT /\ wait_start_timestamp_ s' = 12007 /\ wait_period_ms_ s' = 43000 /\
  u32 (wait_start_timestamp_ s' + wait_period_ms_ s') = u32 (2 ^ 32 - 5000 + 60000 + 7).
Proof.
  cbv zeta.
  destruct (wait_next_readout_schedule
              (set_scheduled_connection_start_timestamp_ (2 ^ 32 - 5000)
                 (sample_component sample_header (sample_config false 2) UPDATE_STATES []
                    (fun k => 12000 + 7 * Z.of_nat k)))
              eq_refl ltac:(vm_compute; discriminate)
              ltac:(vm_compute; split; [discriminate | reflexivity]))
    as (Hst & _ & _ & _ & Hws & Hw & _).
  destruct (Hw ltac:(vm_compute; discriminate)) as [Hp Hend].
  split; [exact Hst|]. split; [exact Hws|]. split; [exact Hp | exact Hend].
Defined.

(** ** Readout *)


Section ReadoutFacts.
Context (h : Header).


End ReadoutFacts.


(** ** Control fields *)

Lemma same_control_refl s : same_control s s.
Proof. repeat split. Qed.

Lemma same_control_trans s1 s2 s3 :
  same_control s1 s2 -> same_control s2 s3 -> same_control s1 s3.
Proof.
  intros (A1 & A2 & A3 & A4 & A5 & A6 & A7 & A8 & A9)
    (B1 & B2 & B3 & B4 & B5 & B6 & B7 & B8 & B9).
  repeat split; congruence.
Qed.

Lemma quiet_bind {A B} (m : M A) (k : A -> M B) :
  quiet_call m -> (forall a, quiet_call (k a)) -> quiet_call (bind m k).
Proof.
  intros Hm Hk s. unfold bind.
  eapply same_control_trans; [apply Hm | apply Hk].
Qed.

Ltac quiet_basic := let s := fresh "s" in intros s; repeat split.

Lemma quiet_millis : quiet_call millis.
Proof. quiet_basic. Qed.

Lemma quiet_check_terminators : quiet_call check_terminators.
Proof.
  intros s. unfold check_terminators, update_last_transmission_from_meter_timestamp_,
    reset_lrc_, millis. run.
  repeat match goal with
         | |- context [if ?c then _ else _] => destruct c
         end; run; repeat split.
Qed.

Section ControlFacts.
Context (h : Header).

Lemma quiet_pushed b rest s : same_control s (pushed h b rest s).
Proof.
  rewrite pushed_eq.
  destruct (data_in_size_ s <? MAX_IN_BUF_SIZE h)%nat; repeat split.
Qed.

Lemma quiet_receive_loop ws bytes : quiet_call (receive_loop h ws bytes).
Proof.
  induction bytes as [|b rest IH]; intros s.
  - cbn [receive_loop]. unfold make_room, millis. run.
    destruct (max_while_ms <? _); [repeat split|].
    cbn [fst snd].
    destruct (data_in_size_ _ <? _)%nat; run; repeat split.
  - cbn [receive_loop]. unfold bind at 1.
    destruct (max_while_ms <? _) eqn:E.
    + apply quiet_millis.
    + change (snd ((make_room h ;; store_byte h b rest ;;
                    r <- check_terminators ;;
                    match r with
                    | Some ret_val => ret ret_val
                    | None => receive_loop h ws rest
                    end) (snd (millis s))))
        with (snd (match fst (check_terminators (pushed h b rest (snd (millis s)))) with
                   | Some v => ret v
                   | None => receive_loop h ws rest
                   end (snd (check_terminators (pushed h b rest (snd (millis s))))))).
      eapply same_control_trans; [apply quiet_millis|].
      eapply same_control_trans; [apply quiet_pushed|].
      eapply same_control_trans; [apply quiet_check_terminators|].
      destruct (fst (check_terminators _)); [apply same_control_refl | apply IH].
Qed.

Lemma quiet_receive_frame : quiet_call (receive_frame_ h).
Proof.
  intros s. unfold receive_frame_, available. run.
  destruct (length _ <=? 0)%nat; [apply same_control_refl|].
  eapply same_control_trans; [apply quiet_millis|].
  apply quiet_receive_loop.
Qed.

Lemma quiet_get_id_scan frame_size n : quiet_call (get_id_scan h frame_size n).
Proof.
  induction n as [|p IH]; cbn [get_id_scan]; [quiet_basic|].
  apply quiet_bind; [quiet_basic | intros s0].
  destruct (byte_of "/" =? _); [|exact IH].
  destruct (_ <? _); quiet_basic.
Qed.

Lemma quiet_get_id frame_size : quiet_call (get_id_ h frame_size).
Proof. unfold get_id_. destruct (_ <=? _)%nat; [apply quiet_get_id_scan | quiet_basic]. Qed.

Lemma quiet_parse_id p : quiet_call (parse_id_ h p).
Proof. quiet_basic. Qed.

Lemma quiet_clear_chunks fuel : forall avail, quiet_call (clear_chunks h fuel avail).
Proof.
  induction fuel as [|fuel IH]; intros avail; cbn [clear_chunks]; [quiet_basic|].
  destruct (0 <? avail)%nat; [|quiet_basic].
  repeat (apply quiet_bind; [quiet_basic | intros ?]). apply IH.
Qed.

Lemma quiet_clear_uart_input_buffer : quiet_call (clear_uart_input_buffer_ h).
Proof.
  unfold clear_uart_input_buffer_. apply quiet_bind; [quiet_basic | intros avail].
  apply quiet_bind; [apply quiet_clear_chunks | intros _; quiet_basic].
Qed.
End ControlFacts.

Lemma quiet_push_all cs : quiet_call (push_all cs).
Proof.
  induction cs as [|c cs IH]; cbn [push_all]; [quiet_basic|].
  apply quiet_bind; [quiet_basic | intros _; exact IH].
Qed.

Lemma quiet_build_readout_command obis : quiet_call (build_readout_command_ obis).
Proof.
  unfold build_readout_command_.
  repeat (apply quiet_bind; [first [apply quiet_push_all | quiet_basic] | intros ?]).
  quiet_basic.
Qed.

(** ** Running an action step by step *)


Lemma post_assoc {A B C} Q (a : M A) (b : A -> M B) (k : B -> M C) s :
  post Q (bind a (fun x => bind (b x) k)) s -> post Q (bind (bind a b) k) s.
Proof. exact (fun H => H). Qed.

Lemma post_get_bind {A B} Q (f : Component -> A) (k : A -> M B) s :
  post Q (k (f s)) s -> post Q (bind (get f) k) s.
Proof. exact (fun H => H). Qed.

Lemma post_modify_bind {B} Q (f : Component -> Component) (k : unit -> M B) s :
  post Q (k tt) (f s) -> post Q (bind (modify f) k) s.
Proof. exact (fun H => H). Qed.

Lemma post_ret_bind {A B} Q (a : A) (k : A -> M B) s :
  post Q (k a) s -> post Q (bind (ret a) k) s.
Proof. exact (fun H => H). Qed.

Lemma post_millis_bind {B} Q (k : Z -> M B) s :
  post Q (k (u32 (clock (uart s) (ticks (uart s)))))
    (set_uart (set_ticks (S (ticks (uart s))) (uart s)) s) ->
  post Q (bind millis k) s.
Proof. exact (fun H => H). Qed.

Lemma post_quiet_bind {A B} Q (m : M A) (k : A -> M B) s :
  quiet_call m ->
  (forall a s1, same_control s s1 -> post Q (k a) s1) -> post Q (bind m k) s.
Proof. intros Hm Hk. apply (Hk (fst (m s)) (snd (m s)) (Hm s)). Qed.


Lemma post_modify Q (f : Component -> Component) s : Q (f s) -> post Q (modify f) s.
Proof. exact (fun H => H). Qed.

Lemma post_ret {A} Q (a : A) s : Q s -> post Q (ret a) s.
Proof. exact (fun H => H). Qed.

Ltac head_of t :=
  lazymatch t with
  | ?f _ => head_of f
  | _ => t
  end.

Ltac split_control Hc :=
  let Hcfg := fresh "Hcfg" in
  let Hst := fresh "Hst" in
  let Hnx := fresh "Hnx" in
  let Hix := fresh "Hix" in
  let Hrt := fresh "Hrt" in
  let Htx := fresh "Htx" in
  let Hbd := fresh "Hbd" in
  let Hsn := fresh "Hsn" in
  let Hwr := fresh "Hwr" in
  destruct Hc as (Hcfg & Hst & Hnx & Hix & Hrt & Htx & Hbd & Hsn & Hwr);
  fields_in Hcfg; fields_in Hst; fields_in Hnx; fields_in Hix;
  fields_in Hrt; fields_in Htx; fields_in Hbd; fields_in Hsn; fields_in Hwr.

(** A call kept folded: what it returns and the component it leaves
    become variables, known by the control fields. *)
Ltac intro_control :=
  let a := fresh "a" in
  let s1 := fresh "s" in
  let Hc := fresh "Hc" in
  intros a s1 Hc; split_control Hc.


Ltac post_quiet h :=
  lazymatch goal with
  | |- post _ (bind (receive_frame_ _) _) _ =>
      apply (post_quiet_bind _ _ _ _ (quiet_receive_frame h)); intro_control
  | |- post _ (bind (get_id_ _ _) _) _ =>
      apply (post_quiet_bind _ _ _ _ (quiet_get_id h _)); intro_control
  | |- post _ (bind (clear_uart_input_buffer_ _) _) _ =>
      apply (post_quiet_bind _ _ _ _ (quiet_clear_uart_input_buffer h)); intro_control
  | |- post _ (bind (build_readout_command_ _) _) _ =>
      apply (post_quiet_bind _ _ _ _ (quiet_build_readout_command _)); intro_control
  end.


Ltac post_basic :=
  lazymatch goal with
  | |- post _ (bind (bind _ _) _) _ => apply post_assoc
  | |- post _ (bind (get _) _) _ => apply post_get_bind; cbv beta; unfold id
  | |- post _ (bind (modify _) _) _ => apply post_modify_bind
  | |- post _ (bind (ret _) _) _ => apply post_ret_bind
  | |- post _ (bind millis _) _ => apply post_millis_bind
  | |- post _ (bind (if ?c then _ else _) _) _ => destruct c eqn:?
  | |- post _ (bind (match ?c with _ => _ end) _) _ => destruct c eqn:?
  | |- post _ (bind ?m _) _ => let hd := head_of m in unfold hd
  | |- post _ (modify _) _ => apply post_modify
  | |- post _ (ret _) _ => apply post_ret
  | |- post _ (if ?c then _ else _) _ => destruct c eqn:?
  | |- post _ (match ?c with _ => _ end) _ => destruct c eqn:?
  | |- post _ ?m _ => let hd := head_of m in unfold hd
  end.

(** One step of the run. *)
Ltac post_step h := first [post_quiet h | post_basic].

Ltac post_run h := repeat (post_step h; cbv beta; fields).



(** The equations on control fields, used everywhere. *)
Ltac rewrite_control :=
  repeat match goal with
         | H : cfg _ = _ |- _ => try rewrite H in *; clear H
         | H : state_ _ = _ |- _ => try rewrite H in *; clear H
         | H : wait_next_state_ _ = _ |- _ => try rewrite H in *; clear H
         | H : current_obis_index_ _ = _ |- _ => try rewrite H in *; clear H
         | H : retry_counter_ _ = _ |- _ => try rewrite H in *; clear H
         | H : tx (uart _) = _ |- _ => try rewrite H in *; clear H
         | H : baud (uart _) = _ |- _ => try rewrite H in *; clear H
         | H : sensors_ _ = _ |- _ => try rewrite H in *; clear H
         | H : wrote_outside_in_buf _ = _ |- _ => try rewrite H in *; clear H
         end.


(** ** Mode D: listening only *)

Ltac mode_d_done :=
  unfold mode_d_inv, mode_d_state in *; fields; rewrite_control;
  let Hw := fresh "Hw" in
  intros Hw;
  first
    [ discriminate Hw
    | repeat match goal with
             | H : wrote_outside_in_buf _ = false -> _ |- _ => specialize (H Hw)
             | H : _ /\ _ |- _ => destruct H
             end;
      repeat match goal with
             | H : _ \/ _ |- _ => destruct H
             end;
      first [ discriminate | congruence | split_and!; auto; congruence ] ].

Section ModeDPassive.
Context (h : Header).

Lemma mode_d_setup s :
  force_mode_d_ (cfg s) = true -> mode_d_inv s (snd (setup h s)).
Proof.
  intros Hd. change (post (mode_d_inv s) (setup h) s). unfold setup.
  post_run h; mode_d_done.
Qed.

Lemma mode_d_arrive s0 s bytes : mode_d_inv s0 s -> mode_d_inv s0 (snd (arrive bytes s)).
Proof. intros Hinv. exact Hinv. Qed.

Lemma mode_d_step s0 s : mode_d_inv s0 s -> mode_d_inv s0 (snd (loop h s)).
Proof.
  intros Hinv. change (post (mode_d_inv s0) (loop h) s). unfold loop.
  post_run h; mode_d_done.
Qed.

Lemma mode_d_steps feed : forall s0 s,
  mode_d_inv s0 s -> mode_d_inv s0 (snd (session h feed s)).
Proof.
  induction feed as [|bytes feed IH]; intros s0 s Hinv; [exact Hinv|].
  cbn [session]. unfold bind. cbn [fst snd].
  apply IH, mode_d_step, mode_d_arrive, Hinv.
Qed.

(** X19: with mode D forced the component only listens.  From
    [setup()] on, over any number of calls of [loop()], whatever bytes
    arrive between the calls and whatever the clock reads, as long as
    no write has landed outside [in_buf_] nothing is transmitted, the
    line rate is not changed, the retry counter is not touched, and the
    state is one of [MODE_D_WAIT], [MODE_D_READOUT] and
    [UPDATE_STATES]. *)
Theorem mode_d_listens_only (s : Component) (feed : list (list Z)) :
  force_mode_d_ (cfg s) = true ->
  let s' := snd (session h feed (snd (setup h s))) in
  wrote_outside_in_buf s' = false ->
  tx (uart s') = tx (uart s) /\ baud (uart s') = baud (uart s) /\
  retry_counter_ s' = retry_counter_ s /\
  mode_d_state (state_ s').
Proof.
  intros Hd. cbv zeta. intros Hw.
  destruct (mode_d_steps feed s (snd (setup h s)) (mode_d_setup s Hd) Hw)
    as (_ & Hst & Htx & Hb & Hr).
  split_and!; assumption.
Qed.
End ModeDPassive.

(** A mode D session on a line with old bytes waiting: the
    identification, the empty line, one data line and the end mark
    arrive between the calls of [loop()]. *)
Lemma mode_d_listens_only_witness :
  let s := sample_component sample_header (sample_config true 2) INFINITE_WAIT
             (bytes_of "junk") (fun k => Z.of_nat k / 10) in
  let feed := [bytes_of "/ABC5XYZ" ++ [CR; LF]; [CR; LF];
               bytes_of "1.8.0(1)" ++ [CR; LF]; bytes_of "!" ++ [CR; LF]] in
  let s' := snd (session sample_header feed (snd (setup sample_header s))) in
  state_ s' = UPDATE_STATES /\ tx (uart s') = [] /\ retry_counter_ s' = 0.
Proof.
  cbv zeta.
  destruct (mode_d_listens_only sample_header
              (sample_component sample_header (sample_config true 2) INFINITE_WAIT
                 (bytes_of "junk") (fun k => Z.of_nat k / 10))
              [bytes_of "/ABC5XYZ" ++ [CR; LF]; [CR; LF];
               bytes_of "1.8.0(1)" ++ [CR; LF]; bytes_of "!" ++ [CR; LF]]
              eq_refl ltac:(vm_compute; reflexivity)) as (Htx & _ & Hr & _).
  split; [vm_compute; reflexivity|]. split; [exact Htx | exact Hr].
Defined.

(** ** OBIS index *)

Ltac index_done :=
  unfold index_kept, index_inv in *; fields; rewrite_control;
  unfold index_ok in *; change num_obis_codes_ with 13 in *; cbn [needs_index] in *;
  try (let Hw := fresh "Hw" in
       intros Hw;
       first [ discriminate Hw
             | repeat match goal with
                      | H : wrote_outside_in_buf _ = false -> _ |- _ => specialize (H Hw)
                      end ]);
  repeat match goal with
         | H : (_ <? _) = true |- _ => apply Z.ltb_lt in H
         | H : (_ <? _) = false |- _ => apply Z.ltb_ge in H
         | H : _ /\ _ |- _ => destruct H
         | H : ?x = ?x -> _ |- _ => specialize (H eq_refl)
         end;
  split; intros; first [discriminate | lia | tauto].

Section IndexFacts.
Context (h : Header).

Lemma index_setup s : index_inv (snd (setup h s)).
Proof.
  change (post index_inv (setup h) s). unfold setup.
  post_run h; index_done.
Qed.

Lemma index_step s : index_kept s -> index_kept (snd (loop h s)).
Proof.
  intros Hinv. change (post index_kept (loop h) s). unfold loop.
  post_run h; index_done.
Qed.

Lemma index_trigger s : index_inv s -> index_inv (snd (trigger_readout s)).
Proof.
  intros Hinv. change (post index_inv trigger_readout s). unfold trigger_readout.
  post_run h; index_done.
Qed.

Lemma index_steps feed : forall s, index_kept s -> index_kept (snd (session h feed s)).
Proof.
  induction feed as [|bytes feed IH]; intros s Hinv; [exact Hinv|].
  cbn [session]. unfold bind. cbn [fst snd]. apply IH, index_step. exact Hinv.
Qed.

Lemma index_entry i :
  0 <= i < num_obis_codes_ -> In (nth (Z.to_nat i) obis_codes_ []) obis_codes_.
Proof.
  intros Hi. apply nth_In. unfold num_obis_codes_ in Hi. lia.
Qed.

(** X20: the OBIS index stays within the table of codes.  [setup()]
    establishes the invariant [index_inv] whatever the component held
    before, and [trigger_readout()] keeps it; so does every call of
    [loop()], whatever bytes arrive between the calls, as long as no
    write has landed outside [in_buf_].  Then in every state from which
    a readout command can be reached without passing through [BEGIN]
    (in particular in [ASK_FOR_ENERGY], which reads
    [obis_codes[current_obis_index_]]), the index is below the number
    of codes and the code read is an entry of the table. *)
Theorem obis_index_in_table (s0 s : Component) (feed : list (list Z)) :
  index_inv (snd (setup h s0)) /\
  (index_inv s ->
   index_inv (snd (trigger_readout s)) /\
   let s' := snd (session h feed s) in
   (wrote_outside_in_buf s' = false ->
    index_inv s' /\
    (needs_index (state_ s') = true ->
     0 <= current_obis_index_ s' < num_obis_codes_ /\
     In (nth (Z.to_nat (current_obis_index_ s')) obis_codes_ []) obis_codes_))).
Proof.
  split; [apply index_setup|].
  intros Hinv. split; [apply index_trigger, Hinv|].
  cbv zeta. intros Hw.
  pose proof (index_steps feed s (fun _ => Hinv) Hw) as Hn.
  split; [exact Hn|].
  intros Hs. destruct Hn as [Hn _]. specialize (Hn Hs).
  split; [exact Hn | apply index_entry, Hn].
Qed.
End IndexFacts.

(** The last code of the table is asked for; the answer arrives after
    the command has been sent. *)
Lemma obis_index_in_table_witness :
  let h := sample_header in
  let s := set_current_obis_index_ 12
             (sample_component h (sample_config false 2) ASK_FOR_ENERGY []
                (fun k => Z.of_nat k / 10)) in
  let feed := [[]; [STX] ++ bytes_of "1.8.0(2)" ++ [ETX; 9]] in
  index_inv s /\
  state_ (snd (session h feed s)) = READOUT /\
  In (nth (Z.to_nat (current_obis_index_ (snd (session h feed s)))) obis_codes_ [])
    obis_codes_.
Proof.
  cbv zeta.
  assert (Hinv : index_inv
            (set_current_obis_index_ 12
               (sample_component sample_header (sample_config false 2) ASK_FOR_ENERGY []
                  (fun k => Z.of_nat k / 10)))).
  { split; intros _; vm_compute; split; congruence. }
  split; [exact Hinv|].
  split; [vm_compute; reflexivity|].
  destruct (obis_index_in_table sample_header
              (sample_component sample_header (sample_config false 2) BEGIN [] (fun _ => 0))
              (set_current_obis_index_ 12
                 (sample_component sample_header (sample_config false 2) ASK_FOR_ENERGY []
                    (fun k => Z.of_nat k / 10)))
              [[]; [STX] ++ bytes_of "1.8.0(2)" ++ [ETX; 9]]) as [_ Hw].
  destruct (Hw Hinv) as (_ & Hin).
  destruct (Hin ltac:(vm_compute; reflexivity)) as (_ & Hin').
  exact (proj2 (Hin' ltac:(vm_compute; reflexivity))).
Defined.

(** ** Line discipline and sensors *)

Ltac line_done :=
  unfold line_step, line_kept, sensors_step; fields; rewrite_control; cbn [sending_state];
  try (let Hw := fresh "Hw" in intros Hw; try discriminate Hw);
  repeat split; eauto 6; try congruence.

Section LineFacts.
Context (h : Header).

Lemma line_loop s : line_step s (snd (loop h s)).
Proof.
  change (post (line_step s) (loop h) s). unfold loop.
  post_run h; line_done.
Qed.

Lemma sensors_loop s : sensors_step s (snd (loop h s)).
Proof.
  change (post (sensors_step s) (loop h) s). unfold loop.
  post_run h; line_done.
Qed.

Lemma line_timed_out s : timed_out s -> line_kept s (snd (loop h s)).
Proof.
  intros Ht. rewrite (loop_timed_out h s Ht).
  change (post (line_kept s) retry_or_sleep_ (at_timeout s)).
  unfold at_timeout, connection_status_, emit, millis. run. fields.
  post_run h; line_done.
Qed.

(** X21: the line discipline of one call of [loop()] that leaves no
    write outside [in_buf_].  At most one frame is transmitted, and
    only from [BATTERY_WAKEUP], [SEND_REQUEST], [PREPARE_ACK],
    [SEND_PASSWORD] or [ASK_FOR_ENERGY]; the line rate is only changed
    in [BEGIN] (to 300) and in [SET_BAUD_RATE] (to the negotiated
    rate).  When the connection timeout fires, no handler runs: nothing
    is transmitted and the rate is kept, whatever the state. *)
Theorem loop_line_discipline (s : Component) :
  let s' := snd (loop h s) in
  line_step s s' /\
  (timed_out s -> tx (uart s') = tx (uart s) /\ baud (uart s') = baud (uart s)).
Proof.
  cbv zeta. split; [apply line_loop|].
  intros Ht. destruct (line_timed_out s Ht) as (Htx & Hb & _). split; assumption.
Qed.

(** X22: one call of [loop()] changes sensor values only in the states
    that read data lines, [READOUT] and [MODE_D_READOUT]; in every
    other state, and whenever the connection timeout fires, the sensors
    are left as they were. *)
Theorem loop_sensors_frame (s : Component) :
  let s' := snd (loop h s) in
  (state_ s <> READOUT -> state_ s <> MODE_D_READOUT -> sensors_ s' = sensors_ s) /\
  (timed_out s -> sensors_ s' = sensors_ s).
Proof.
  cbv zeta. split; [apply sensors_loop|].
  intros Ht. apply (line_timed_out s Ht).
Qed.
End LineFacts.

Lemma loop_line_discipline_witness :
  let h := sample_header in
  let s := sample_component h (sample_config false 2) SEND_REQUEST [] (fun _ => 5000) in
  timed_out s /\ sending_state (state_ s) = true /\
  tx (uart (snd (loop h s))) = [] /\ baud (uart (snd (loop h s))) = 300.
Proof.
  cbv zeta.
  assert (Ht : timed_out (sample_component sample_header (sample_config false 2)
                            SEND_REQUEST [] (fun _ => 5000))).
  { split; [discriminate|]. split; [discriminate|]. vm_compute. discriminate. }
  split; [exact Ht|]. split; [reflexivity|].
  exact (proj2 (loop_line_discipline sample_header _) Ht).
Defined.

Lemma loop_sensors_frame_witness :
  let h := sample_header in
  let s := sample_component h (sample_config false 2) GET_IDENTIFICATION
             (bytes_of "/ABC5XYZ" ++ [CR; LF]) (fun _ => 0) in
  state_ (snd (loop h s)) = PREPARE_ACK /\ sensors_ (snd (loop h s)) = sensors_ s.
Proof.
  cbv zeta. split; [vm_compute; reflexivity|].
  apply (proj1 (loop_sensors_frame sample_header
                  (sample_component sample_header (sample_config false 2) GET_IDENTIFICATION
                     (bytes_of "/ABC5XYZ" ++ [CR; LF]) (fun _ => 0)))); discriminate.
Defined.

(** ** Retry cycle *)






Section CycleFacts.
Context (h : Header).





End CycleFacts.

